(** * Sales register dashboard: loader and filter/aggregate engine

    A shallow embedding of [app.py] (a Streamlit script over pandas) and the
    properties its specification states about it.

    Conventions of the embedding.
    - A pandas [DataFrame] is a list of column labels and a list of rows of
      dynamically typed cells; a missing cell (NaN, NaT, None) is [VNaN].
    - Numbers are exact rationals ([Q]): the spec's data model calls the
      amounts decimals, and float64 rounding and the infinities are outside
      the model.
    - Timestamps have day resolution, as the DD-MM-YY source format has.
    - Python exceptions are values of [Exn], carried by [result]; the
      functions of pandas that the script calls live in [Module pd] and are
      written out for the inputs named in their comments. *)

From Stdlib Require Import List String Ascii Bool Arith ZArith QArith Lia.
From Stdlib Require Import Qround Permutation Sorted DecimalString.
Import ListNotations.

Local Open Scope string_scope.
Local Open Scope list_scope.

(* ================================================================= *)
(** ** Exceptions *)

Inductive Exn : Type :=
| FileNotFoundError
| KeyError (label : string)
| TypeError
| ZeroDivisionError.

Inductive result (A : Type) : Type :=
| Ok (a : A)
| Raise (e : Exn).

Arguments Ok {A} a.
Arguments Raise {A} e.

Definition bind {A B : Type} (m : result A) (k : A -> result B) : result B :=
  match m with
  | Ok a => k a
  | Raise e => Raise e
  end.

Notation "x <- m ;; k" := (bind m (fun x => k))
  (at level 61, m at next level, right associativity).

(* ================================================================= *)
(** ** Stable sorting *)

Section Sorting.
Context {A : Type} (leb : A -> A -> bool).

Fixpoint insert_by (x : A) (l : list A) : list A :=
  match l with
  | [] => [x]
  | y :: l' => if leb x y then x :: l else y :: insert_by x l'
  end.

(** Insertion sort: elements that compare equal keep their order. *)
Definition sort_by (l : list A) : list A := fold_right insert_by [] l.
End Sorting.

(* ================================================================= *)
(** ** Calendar *)

Inductive Month : Type :=
| January | February | March | April | May | June
| July | August | September | October | November | December.

Definition month_number (m : Month) : Z :=
  match m with
  | January => 1 | February => 2 | March => 3 | April => 4
  | May => 5 | June => 6 | July => 7 | August => 8
  | September => 9 | October => 10 | November => 11 | December => 12
  end.

Definition month_of_number (n : Z) : option Month :=
  match n with
  | 1 => Some January | 2 => Some February | 3 => Some March
  | 4 => Some April | 5 => Some May | 6 => Some June
  | 7 => Some July | 8 => Some August | 9 => Some September
  | 10 => Some October | 11 => Some November | 12 => Some December
  | _ => None
  end%Z.

Definition month_name (m : Month) : string :=
  match m with
  | January => "January" | February => "February" | March => "March"
  | April => "April" | May => "May" | June => "June"
  | July => "July" | August => "August" | September => "September"
  | October => "October" | November => "November" | December => "December"
  end.

(** A [pd.Timestamp] at day resolution. *)
Record Timestamp : Type := mkTimestamp {
  year : Z;
  month : Month;
  day : Z
}.

Definition is_leap (y : Z) : bool :=
  ((y mod 4 =? 0) && negb (y mod 100 =? 0) || (y mod 400 =? 0))%Z.

Definition days_in_month (y : Z) (m : Month) : Z :=
  match m with
  | February => if is_leap y then 29 else 28
  | April | June | September | November => 30
  | _ => 31
  end%Z.

(** Days since 1970-01-01 in the proleptic Gregorian calendar. *)
Definition days_from_civil (t : Timestamp) : Z :=
  (let m := month_number (month t) in
   let y := if m <=? 2 then year t - 1 else year t in
   let era := y / 400 in
   let yoe := y - era * 400 in
   let mp := if m <=? 2 then m + 9 else m - 3 in
   let doy := (153 * mp + 2) / 5 + day t - 1 in
   let doe := yoe * 365 + yoe / 4 - yoe / 100 + doy in
   era * 146097 + doe - 719468)%Z.

Definition Timestamp_leb (a b : Timestamp) : bool :=
  (days_from_civil a <=? days_from_civil b)%Z.

Definition Timestamp_eqb (a b : Timestamp) : bool :=
  ((year a =? year b) && (month_number (month a) =? month_number (month b))
   && (day a =? day b))%Z.

(** [Series.dt.day_name()]: 1970-01-01 was a Thursday. *)
Definition day_name (t : Timestamp) : string :=
  match ((days_from_civil t + 3) mod 7)%Z with
  | 0 => "Monday" | 1 => "Tuesday" | 2 => "Wednesday" | 3 => "Thursday"
  | 4 => "Friday" | 5 => "Saturday" | _ => "Sunday"
  end%Z.

(** [Series.dt.quarter] *)
Definition quarter (t : Timestamp) : Z :=
  ((month_number (month t) - 1) / 3 + 1)%Z.

(** Months counted from year 0, the bins of [resample('M')]. *)
Definition month_ordinal (t : Timestamp) : Z :=
  (year t * 12 + (month_number (month t) - 1))%Z.

(** The label of a monthly bin: the last day of the month. *)
Definition month_end (ord : Z) : Timestamp :=
  let y := (ord / 12)%Z in
  let m := match month_of_number (ord mod 12 + 1) with
           | Some m => m
           | None => January
           end in
  mkTimestamp y m (days_in_month y m).

(** The month after month [m] of year [y]. *)
Definition next_month (y : Z) (m : Month) : Z * Month :=
  match m with
  | January => (y, February) | February => (y, March) | March => (y, April)
  | April => (y, May) | May => (y, June) | June => (y, July)
  | July => (y, August) | August => (y, September)
  | September => (y, October) | October => (y, November)
  | November => (y, December) | December => ((y + 1)%Z, January)
  end.

(* ================================================================= *)
(** ** Text *)

Definition is_space (c : ascii) : bool :=
  let n := nat_of_ascii c in
  ((n =? 32) || ((9 <=? n) && (n <=? 13)))%nat.

Definition is_digit (c : ascii) : bool :=
  let n := nat_of_ascii c in
  ((48 <=? n) && (n <=? 57))%nat.

Definition digit_value (c : ascii) : Z := (Z.of_nat (nat_of_ascii c) - 48)%Z.

Fixpoint lstrip (l : list ascii) : list ascii :=
  match l with
  | c :: l' => if is_space c then lstrip l' else l
  | [] => []
  end.

(** [str.strip()] *)
Definition strip (s : string) : string :=
  string_of_list_ascii
    (rev (lstrip (rev (lstrip (list_ascii_of_string s))))).

(** [str.replace(c, '')] for a one-character pattern *)
Definition remove_char (c : ascii) (s : string) : string :=
  string_of_list_ascii
    (filter (fun x => negb (Ascii.eqb x c)) (list_ascii_of_string s)).

Fixpoint span_digits (l : list ascii) : list ascii * list ascii :=
  match l with
  | c :: l' =>
      if is_digit c
      then let (ds, rest) := span_digits l' in (c :: ds, rest)
      else ([], l)
  | [] => ([], [])
  end.

Definition Z_of_digits (ds : list ascii) : Z :=
  fold_left (fun acc c => (10 * acc + digit_value c)%Z) ds 0%Z.

Definition take_sign (l : list ascii) : bool * list ascii :=
  match l with
  | "-"%char :: l' => (true, l')
  | "+"%char :: l' => (false, l')
  | _ => (false, l)
  end.

(** A decimal literal: sign, digits, optional fraction, optional exponent,
    nothing else.  [None] stands for a value that does not parse. *)
Definition parse_exponent (l : list ascii) : option Z :=
  match l with
  | [] => Some 0%Z
  | c :: l' =>
      if (Ascii.eqb c "e" || Ascii.eqb c "E")%bool then
        let (neg, l'') := take_sign l' in
        match span_digits l'' with
        | (d :: ds, []) =>
            let e := Z_of_digits (d :: ds) in
            Some (if neg then (- e)%Z else e)
        | _ => None
        end
      else None
  end.

Definition parse_decimal (l : list ascii) : option Q :=
  let (neg, l1) := take_sign l in
  let (ip, l2) := span_digits l1 in
  let (fp, l3) :=
    match l2 with
    | "."%char :: l2' => span_digits l2'
    | _ => ([], l2)
    end in
  match ip ++ fp with
  | [] => None
  | _ :: _ =>
      match parse_exponent l3 with
      | Some e =>
          let mant := Z_of_digits (ip ++ fp) in
          let scale := (e - Z.of_nat (List.length fp))%Z in
          let q := (inject_Z mant * Qpower (inject_Z 10) scale)%Q in
          Some (Qred (if neg then (- q)%Q else q))
      | None => None
      end
  end.

(** [str(n)] of an integer *)
Definition str_of_Z (n : Z) : string := NilZero.string_of_int (Z.to_int n).

Definition two_digits (n : Z) : string :=
  if (n <? 10)%Z then "0" ++ str_of_Z n else str_of_Z n.

Definition isoformat (t : Timestamp) : string :=
  str_of_Z (year t) ++ "-" ++ two_digits (month_number (month t))
    ++ "-" ++ two_digits (day t).

(** A date written day first, [DD-MM-YY] or [DD-MM-YYYY].  A two-digit year
    is read with the POSIX pivot (00-68 are 2000-2068, 69-99 are 1969-1999). *)
Definition parse_dayfirst (s : string) : option Timestamp :=
  let (dd, l1) := span_digits (list_ascii_of_string (strip s)) in
  match l1 with
  | "-"%char :: l1' =>
      let (mm, l2) := span_digits l1' in
      match l2 with
      | "-"%char :: l2' =>
          let (yy, l3) := span_digits l2' in
          let nd := List.length dd in
          let nm := List.length mm in
          let ny := List.length yy in
          if ((1 <=? nd) && (nd <=? 2) && (1 <=? nm) && (nm <=? 2)
              && ((ny =? 2) || (ny =? 4)))%nat
          then
            match l3, month_of_number (Z_of_digits mm) with
            | [], Some m =>
                let y0 := Z_of_digits yy in
                let y := if (ny =? 4)%nat then y0
                         else if (y0 <? 69)%Z then (2000 + y0)%Z
                         else (1900 + y0)%Z in
                let d := Z_of_digits dd in
                if ((1 <=? d) && (d <=? days_in_month y m))%Z
                then Some (mkTimestamp y m d)
                else None
            | _, _ => None
            end
          else None
      | _ => None
      end
  | _ => None
  end.

(* ================================================================= *)
(** ** Cells and frames *)

Inductive Value : Type :=
| VStr (s : string)       (* object dtype: text *)
| VNum (q : Q)            (* int64 / float64 *)
| VBool (b : bool)
| VTime (t : Timestamp)   (* datetime64 *)
| VNaN.                   (* NaN, NaT, None *)

Definition Row : Type := list Value.

Record DataFrame : Type := mkDataFrame {
  columns : list string;
  values : list Row
}.

Definition isna (v : Value) : bool :=
  match v with
  | VNaN => true
  | _ => false
  end.

Definition Value_eqb (a b : Value) : bool :=
  match a, b with
  | VStr x, VStr y => String.eqb x y
  | VNum x, VNum y => Qeq_bool x y
  | VBool x, VBool y => Bool.eqb x y
  | VTime x, VTime y => Timestamp_eqb x y
  | _, _ => false
  end.

(** [Index.get_loc]: the position of a label, the first one if it repeats. *)
Fixpoint get_loc (c : string) (cols : list string) : option nat :=
  match cols with
  | [] => None
  | c' :: cols' =>
      if String.eqb c c' then Some O
      else option_map S (get_loc c cols')
  end.

Definition iloc (r : Row) (i : nat) : Value := nth i r VNaN.

(** Writing position [i] of a row; a row that is too short is padded. *)
Fixpoint set_nth (i : nat) (v : Value) (r : Row) : Row :=
  match i, r with
  | O, [] => [v]
  | O, _ :: r' => v :: r'
  | S i', [] => VNaN :: set_nth i' v []
  | S i', x :: r' => x :: set_nth i' v r'
  end.

(** [c in df.columns] *)
Definition has_column (df : DataFrame) (c : string) : bool :=
  match get_loc c (columns df) with
  | Some _ => true
  | None => false
  end.

(** [df[c]], as the position of the column *)
Definition loc (df : DataFrame) (c : string) : result nat :=
  match get_loc c (columns df) with
  | Some i => Ok i
  | None => Raise (KeyError c)
  end.

(** [df[c]], as the series of its cells *)
Definition getitem (df : DataFrame) (c : string) : result (list Value) :=
  i <- loc df c ;;
  Ok (map (fun r => iloc r i) (values df)).

(** [df[c] = vals]: replaces the column, or appends it when [c] is new. *)
Definition setitem (df : DataFrame) (c : string) (vals : list Value)
  : DataFrame :=
  match get_loc c (columns df) with
  | Some i =>
      mkDataFrame (columns df)
        (map (fun rv => set_nth i (snd rv) (fst rv))
             (combine (values df) vals))
  | None =>
      let i := List.length (columns df) in
      mkDataFrame (columns df ++ [c])
        (map (fun rv => set_nth i (snd rv) (fst rv))
             (combine (values df) vals))
  end.

(** [df[mask]] with the mask given row by row *)
Definition select (p : Row -> bool) (df : DataFrame) : DataFrame :=
  mkDataFrame (columns df) (filter p (values df)).

(** [df.empty]: some axis has length zero *)
Definition empty (df : DataFrame) : bool :=
  match columns df, values df with
  | _ :: _, _ :: _ => false
  | _, _ => true
  end.

(** [df.rename(columns=mapping)] *)
Definition rename (mapping : list (string * string)) (df : DataFrame)
  : DataFrame :=
  let new_label c :=
    match find (fun kv => String.eqb (fst kv) c) mapping with
    | Some kv => snd kv
    | None => c
    end in
  mkDataFrame (map new_label (columns df)) (values df).

(** [df.dropna(subset=[c])] *)
Definition dropna (df : DataFrame) (c : string) : result DataFrame :=
  i <- loc df c ;;
  Ok (select (fun r => negb (isna (iloc r i))) df).

Fixpoint mapM {A B : Type} (f : A -> result B) (l : list A)
  : result (list B) :=
  match l with
  | [] => Ok []
  | x :: l' => y <- f x ;; ys <- mapM f l' ;; Ok (y :: ys)
  end.

(* ================================================================= *)
(** ** The functions of pandas that the script calls *)

Module pd.

(** The strings [read_csv] reads as a missing value. *)
Definition na_values : list string :=
  [""; "#N/A"; "#N/A N/A"; "#NA"; "-1.#IND"; "-1.#QNAN"; "-NaN"; "-nan";
   "1.#IND"; "1.#QNAN"; "<NA>"; "N/A"; "NA"; "NULL"; "NaN"; "None"; "n/a";
   "nan"; "null"].

(** A field of a text column as [read_csv] holds it. *)
Definition read_field (s : string) : Value :=
  if existsb (String.eqb s) na_values then VNaN else VStr s.

(** [pd.to_datetime(_, errors='coerce', dayfirst=True)], cell by cell, for
    text in the two day-first formats; everything else is NaT. *)
Definition to_datetime (v : Value) : Value :=
  match v with
  | VStr s =>
      match parse_dayfirst s with
      | Some t => VTime t
      | None => VNaN
      end
  | VTime t => VTime t
  | _ => VNaN
  end.

(** [pd.to_numeric(_, errors='coerce')] of a string: decimal literals,
    blanks around them allowed; everything else is NaN. *)
Definition to_numeric (s : string) : Value :=
  match parse_decimal (list_ascii_of_string (strip s)) with
  | Some q => VNum q
  | None => VNaN
  end.

(** [astype(str)] of a cell that is not a number *)
Definition astype_str (v : Value) : string :=
  match v with
  | VStr s => s
  | VBool true => "True"
  | VBool false => "False"
  | VTime t => isoformat t
  | VNum _ => ""
  | VNaN => "nan"
  end.

(** [fillna(0)] *)
Definition fillna0 (v : Value) : Value :=
  match v with
  | VNaN => VNum 0
  | _ => v
  end.

(** [series > n]: NaN compares false, text raises. *)
Definition gt (n : Q) (v : Value) : result Value :=
  match v with
  | VNum q => Ok (VBool (negb (Qle_bool q n)))
  | VBool b => Ok (VBool (negb (Qle_bool (if b then 1 else 0) n)))
  | VNaN => Ok (VBool false)
  | VStr _ | VTime _ => Raise TypeError
  end.

(** [Series.dt.year], [.dt.month_name()], [.dt.day_name()], [.dt.quarter] *)
Definition dt_year (v : Value) : Value :=
  match v with
  | VTime t => VNum (inject_Z (year t))
  | _ => VNaN
  end.

Definition dt_month_name (v : Value) : Value :=
  match v with
  | VTime t => VStr (month_name (month t))
  | _ => VNaN
  end.

Definition dt_day_name (v : Value) : Value :=
  match v with
  | VTime t => VStr (day_name t)
  | _ => VNaN
  end.

Definition dt_quarter (v : Value) : Value :=
  match v with
  | VTime t => VNum (inject_Z (quarter t))
  | _ => VNaN
  end.

End pd.

(* ================================================================= *)
(** ** Data loading and preprocessing: [load_data] *)

Definition read_csv (file : option DataFrame) : result DataFrame :=
  match file with
  | Some df => Ok df
  | None => Raise FileNotFoundError
  end.

Definition rename_columns : list (string * string) :=
  [("Final Line Amount (A-B+C)", "Final_Line_Amount");
   ("Posting Date", "Posting_Date");
   ("Sell to State", "Region");
   ("Product Group", "Product_Group");
   ("Customer Name", "Customer_Name");
   ("MRP Category", "MRP_Category");
   ("Gender", "Gender");
   ("Brands", "Brand");
   ("Channel", "Sales_Channel");
   ("Item Description", "Item_Description");
   ("Sales Article", "Sales_Article");
   ("Quantity", "Quantity");
   ("Unit Price", "Unit_Price");
   ("GL Account Code", "GL_Account_Code");
   ("Account Name", "Account_Name");
   ("ASM Name", "ASM_Name");
   ("Item Category", "Item_Category");
   ("Product Type", "Product_Type");
   ("Online Store", "Online_Store");
   ("Company Name", "Company_Name")].

Definition numeric_cols : list string :=
  ["Quantity"; "Unit_Price"; "Line Discount";
   "Line Amount (Qty * Unit Unit_Price) -A";
   "Invoice Discount Amount-B"; "Final_Line_Amount"; "GST Base Amount";
   "GST Percentage"; "Total GST Amount"; "IGST Amount"; "IGST Per";
   "SGST Amount"; "SGST Per"; "CGST Amount"; "CGST Per"; "TDS Amount"].

(** [df[c] = f(df[src])] for a cell-wise [f] *)
Definition assign (df : DataFrame) (c src : string) (f : Value -> Value)
  : result DataFrame :=
  s <- getitem df src ;;
  Ok (setitem df c (map f s)).

(** [df[c] = f(df[c])] when [c] is a column, nothing otherwise *)
Definition transform (f : Value -> Value) (df : DataFrame) (c : string)
  : DataFrame :=
  match get_loc c (columns df) with
  | Some i => setitem df c (map (fun r => f (iloc r i)) (values df))
  | None => df
  end.

(** [lambda x: f'Q{x}'] *)
Definition format_quarter (v : Value) : Value :=
  match v with
  | VNum q => VStr ("Q" ++ str_of_Z (Qfloor q))
  | _ => VStr ("Q" ++ pd.astype_str v)
  end.

(** [.astype(str).str.replace(',', '').str.strip()] and then
    [pd.to_numeric(_, errors='coerce')].  A cell that is a number already
    prints without comma or blank and reads back as itself. *)
Definition clean_numeric (v : Value) : Value :=
  match v with
  | VNum q => VNum q
  | _ => pd.to_numeric (strip (remove_char "," (pd.astype_str v)))
  end.

(** [df[cols] = df[cols].fillna(0)]: every label has to be a column. *)
Definition fillna_columns (df : DataFrame) (cols : list string)
  : result DataFrame :=
  _ <- mapM (loc df) cols ;;
  Ok (fold_left (transform pd.fillna0) cols df).

(** The body of the [try] block. *)
Definition load_data_try (file : option DataFrame) : result DataFrame :=
  df <- read_csv file ;;
  let df := mkDataFrame (map strip (columns df)) (values df) in
  let df := rename rename_columns df in
  df <- assign df "Posting_Date" "Posting_Date" pd.to_datetime ;;
  df <- dropna df "Posting_Date" ;;
  amount <- getitem df "Final_Line_Amount" ;;
  over <- mapM (pd.gt 1000) amount ;;
  let df := setitem df "Sale_Over_1000" over in
  df <- assign df "Year" "Posting_Date" pd.dt_year ;;
  df <- assign df "Month" "Posting_Date" pd.dt_month_name ;;
  df <- assign df "Day_of_Week" "Posting_Date" pd.dt_day_name ;;
  df <- assign df "Quarter" "Posting_Date"
          (fun v => format_quarter (pd.dt_quarter v)) ;;
  let df := fold_left (transform clean_numeric) numeric_cols df in
  fillna_columns df numeric_cols.

(** What a run of the script comes to: a value, or [st.stop()] after
    [st.error] has shown the message of the exception. *)
Inductive Script (A : Type) : Type :=
| Done (a : A)
| Stopped (message : string).

Arguments Done {A} a.
Arguments Stopped {A} message.

(** [str(e)] *)
Definition str_of_Exn (e : Exn) : string :=
  match e with
  | FileNotFoundError => "[Errno 2] No such file or directory: 'EA.csv'"
  | KeyError label => "'" ++ label ++ "'"
  | TypeError => "'>' not supported between instances of 'str' and 'int'"
  | ZeroDivisionError => "division by zero"
  end.

Definition load_data (file : option DataFrame) : Script DataFrame :=
  match load_data_try file with
  | Ok df => Done df
  | Raise FileNotFoundError =>
      Stopped "Error: 'EA.csv' not found. Please make sure the CSV file is in the same directory as 'app.py'."
  | Raise e => Stopped ("Error loading or processing data: " ++ str_of_Exn e)
  end.

(* ================================================================= *)
(** ** Sidebar filters: [filtered_df] *)

(** What the sidebar widgets return. *)
Record Widgets : Type := mkWidgets {
  date_range : list Timestamp;
  selected_regions : list string;
  selected_product_groups : list string;
  selected_sales_channels : list string;
  amount_range : Q * Q
}.

(** [(s >= start) & (s <= end)] on the datetime column *)
Definition between_dates (start_date end_date : Timestamp) (v : Value)
  : bool :=
  match v with
  | VTime t => Timestamp_leb start_date t && Timestamp_leb t end_date
  | _ => false
  end.

(** [(s >= lo) & (s <= hi)] on a numeric column *)
Definition between_amounts (rng : Q * Q) (v : Value) : bool :=
  match v with
  | VNum q => Qle_bool (fst rng) q && Qle_bool q (snd rng)
  | _ => false
  end.

(** [Series.isin(selected)] *)
Definition isin (selected : list string) (v : Value) : bool :=
  match v with
  | VStr s => existsb (String.eqb s) selected
  | _ => false
  end.

Definition date_filter (w : Widgets) (df : DataFrame) : result DataFrame :=
  i <- loc df "Posting_Date" ;;
  match date_range w with
  | [start_date; end_date] =>
      Ok (select (fun r => between_dates start_date end_date (iloc r i)) df)
  | _ => Ok df
  end.

(** One multiselect: the choices are read from the column, and the rows
    are narrowed unless 'All' is among the selected. *)
Definition multiselect_filter (c : string) (selected : list string)
  (df : DataFrame) : result DataFrame :=
  i <- loc df c ;;
  if existsb (String.eqb "All") selected then Ok df
  else Ok (select (fun r => isin selected (iloc r i)) df).

Definition amount_filter (w : Widgets) (df : DataFrame) : result DataFrame :=
  i <- loc df "Final_Line_Amount" ;;
  Ok (select (fun r => between_amounts (amount_range w) (iloc r i)) df).

Definition filtered_df (df : DataFrame) (w : Widgets) : result DataFrame :=
  if negb (empty df) then
    f <- date_filter w df ;;
    if negb (empty f) then
      f <- multiselect_filter "Region" (selected_regions w) f ;;
      f <- multiselect_filter "Product_Group" (selected_product_groups w) f ;;
      f <- multiselect_filter "Sales_Channel" (selected_sales_channels w) f ;;
      if has_column f "Final_Line_Amount"
         && negb (Nat.eqb (List.length (values f)) 0)
      then amount_filter w f
      else Ok f
    else Ok f
  else Ok (mkDataFrame [] []).

(** The five filters as a list, and a run of any list of filters. *)
Definition filters (w : Widgets) : list (DataFrame -> result DataFrame) :=
  [date_filter w;
   multiselect_filter "Region" (selected_regions w);
   multiselect_filter "Product_Group" (selected_product_groups w);
   multiselect_filter "Sales_Channel" (selected_sales_channels w);
   amount_filter w].

Definition apply_filters (fs : list (DataFrame -> result DataFrame))
  (df : DataFrame) : result DataFrame :=
  fold_left (fun acc f => bind acc f) fs (Ok df).

(* ================================================================= *)
(** ** Aggregation: [groupby], reducers, [nlargest], [reindex], [resample] *)

(** A group key: the charts group by text columns, and [groupby] leaves
    out the rows whose key is missing. *)
Definition key_of (v : Value) : option string :=
  match v with
  | VStr s => Some s
  | _ => None
  end.

(** The numbers of a series, missing values skipped. *)
Definition numbers (vs : list Value) : list Q :=
  flat_map (fun v => match v with
                     | VNum q => [q]
                     | VBool b => [if b then 1%Q else 0%Q]
                     | _ => []
                     end) vs.

Definition Qsum (l : list Q) : Q := fold_right Qplus 0%Q l.

Definition series_sum (vs : list Value) : Q := Qsum (numbers vs).

Definition series_mean (vs : list Value) : Value :=
  match numbers vs with
  | [] => VNaN
  | ns => VNum (Qsum ns / inject_Z (Z.of_nat (List.length ns)))
  end.

(** Group keys are put in ascending order. *)
Definition sort_keys (l : list string) : list string :=
  sort_by String.leb l.

Definition has_key (i : nat) (k : string) (r : Row) : bool :=
  match key_of (iloc r i) with
  | Some k' => String.eqb k' k
  | None => false
  end.

(** The distinct keys of column [i], in ascending order ([sort=True]). *)
Definition group_keys (i : nat) (rows : list Row) : list string :=
  sort_keys
    (nodup string_dec
       (flat_map (fun r => match key_of (iloc r i) with
                           | Some k => [k]
                           | None => []
                           end) rows)).

(** [df.groupby(key)[metric]]: each key with the metric cells of its rows *)
Definition groupby (df : DataFrame) (key metric : string)
  : result (list (string * list Value)) :=
  i <- loc df key ;;
  j <- loc df metric ;;
  Ok (map (fun k => (k, map (fun r => iloc r j)
                             (filter (has_key i k) (values df))))
          (group_keys i (values df))).

Definition groupby_sum (df : DataFrame) (key metric : string)
  : result (list (string * Q)) :=
  g <- groupby df key metric ;;
  Ok (map (fun kv => (fst kv, series_sum (snd kv))) g).

Definition groupby_mean (df : DataFrame) (key metric : string)
  : result (list (string * Value)) :=
  g <- groupby df key metric ;;
  Ok (map (fun kv => (fst kv, series_mean (snd kv))) g).

(** [Series.nlargest(n)] with [keep='first']: the first [n] of a stable
    sort by decreasing value. *)
Definition value_geb (x y : string * Q) : bool :=
  Qle_bool (snd y) (snd x).

Definition sort_values_desc (s : list (string * Q)) : list (string * Q) :=
  sort_by value_geb s.

Definition nlargest (n : nat) (s : list (string * Q)) : list (string * Q) :=
  firstn n (sort_values_desc s).

(** [Series.reindex(labels)]: one entry per label, NaN where the series
    has none. *)
Definition reindex (labels : list string) (s : list (string * Q))
  : list (string * Value) :=
  map (fun l => (l, match find (fun kv => String.eqb (fst kv) l) s with
                    | Some kv => VNum (snd kv)
                    | None => VNaN
                    end)) labels.

(** [pd.Categorical(_, categories, ordered=True)]: the code of a label,
    none for a label outside the categories. *)
Definition category_code (categories : list string) (label : string)
  : option nat :=
  get_loc label categories.

Definition code_leb (a b : option nat) : bool :=
  match a, b with
  | Some x, Some y => Nat.leb x y
  | Some _, None => true
  | None, Some _ => false
  | None, None => true
  end.

(** The column made categorical and then [sort_values] on it (missing
    categories last). *)
Definition sort_categorical (categories : list string)
  (s : list (string * Q)) : list (Value * Q) :=
  map snd
    (sort_by (fun x y => code_leb (fst x) (fst y))
       (map (fun kv =>
               let code := category_code categories (fst kv) in
               (code,
                (match code with Some _ => VStr (fst kv) | None => VNaN end,
                 snd kv))) s)).

(** The months from [lo] on, [n] of them. *)
Fixpoint months_from (lo : Z) (n : nat) : list Z :=
  match n with
  | O => []
  | S n' => lo :: months_from (lo + 1)%Z n'
  end.

(** Every month from [lo] to [hi], both included. *)
Definition month_range (lo hi : Z) : list Z :=
  months_from lo (Z.to_nat (hi - lo + 1)).

(** [set_index(date).resample('M')[metric].sum()]: one bin per calendar
    month from the first to the last month of the index, labelled by its
    month end; a bin without rows sums to 0. *)
Definition resample_M_sum (entries : list (Timestamp * Value))
  : list (Timestamp * Q) :=
  match map (fun e => month_ordinal (fst e)) entries with
  | [] => []
  | o :: os =>
      let lo := fold_left Z.min os o in
      let hi := fold_left Z.max os o in
      map (fun ord =>
             (month_end ord,
              series_sum
                (map snd
                   (filter (fun e => (month_ordinal (fst e) =? ord)%Z)
                           entries))))
          (month_range lo hi)
  end.

(** The index of [resample] has to be a datetime index; NaT entries are
    not binned. *)
Definition datetime_index (dates metric : list Value)
  : result (list (Timestamp * Value)) :=
  es <- mapM (fun dv => match fst dv with
                        | VTime t => Ok [(t, snd dv)]
                        | VNaN => Ok []
                        | _ => Raise TypeError
                        end) (combine dates metric) ;;
  Ok (List.concat es).

(* ================================================================= *)
(** ** Dashboard content *)

(** [series.nunique()] *)
Fixpoint unique (vs : list Value) : list Value :=
  match vs with
  | [] => []
  | v :: vs' =>
      let u := unique vs' in
      if isna v || existsb (Value_eqb v) u then u else v :: u
  end.

Definition total_transactions (f : DataFrame) : result Z :=
  s <- getitem f "Document No." ;;
  Ok (Z.of_nat (List.length (unique s))).

Definition is_true (v : Value) : bool :=
  match v with
  | VBool b => b
  | _ => false
  end.

(** [filtered_df[filtered_df['Sale_Over_1000']].shape[0]] *)
Definition sales_over_1000 (f : DataFrame) : result Z :=
  i <- loc f "Sale_Over_1000" ;;
  Ok (Z.of_nat (List.length (filter (fun r => is_true (iloc r i)) (values f)))).

(** Python's [a / b] on integers *)
Definition truediv (a b : Z) : result Q :=
  if (b =? 0)%Z then Raise ZeroDivisionError
  else Ok (inject_Z a / inject_Z b)%Q.

Definition percentage_over_1000 (sales_over_1000 total_transactions : Z)
  : result Q :=
  if (total_transactions >? 0)%Z
  then q <- truediv sales_over_1000 total_transactions ;; Ok (q * 100)%Q
  else Ok 0%Q.

(** The percentage shown for a filtered table. *)
Definition percentage_metric (f : DataFrame) : result Q :=
  total <- total_transactions f ;;
  sales <- sales_over_1000 f ;;
  percentage_over_1000 sales total.

Definition product_sales (f : DataFrame) : result (list (string * Q)) :=
  s <- groupby_sum f "Product_Group" "Final_Line_Amount" ;;
  Ok (nlargest 10 s).

Definition top_customers (f : DataFrame) : result (list (string * Q)) :=
  s <- groupby_sum f "Customer_Name" "Final_Line_Amount" ;;
  Ok (nlargest 15 s).

Definition avg_price_product (f : DataFrame)
  : result (list (string * Value)) :=
  groupby_mean f "Product_Group" "Unit_Price".

Definition monthly_sales (f : DataFrame) : result (list (Timestamp * Q)) :=
  dates <- getitem f "Posting_Date" ;;
  amounts <- getitem f "Final_Line_Amount" ;;
  entries <- datetime_index dates amounts ;;
  Ok (resample_M_sum entries).

Definition quarter_order : list string := ["Q1"; "Q2"; "Q3"; "Q4"].

Definition quarterly_sales (f : DataFrame) : result (list (Value * Q)) :=
  s <- groupby_sum f "Quarter" "Final_Line_Amount" ;;
  Ok (sort_categorical quarter_order s).

Definition day_of_week_order : list string :=
  ["Monday"; "Tuesday"; "Wednesday"; "Thursday"; "Friday"; "Saturday";
   "Sunday"].

Definition daily_sales (f : DataFrame) : result (list (string * Value)) :=
  s <- groupby_sum f "Day_of_Week" "Final_Line_Amount" ;;
  Ok (reindex day_of_week_order s).

(** The guard around the tabs: an empty table shows a notice and nothing
    is computed. *)
Definition dashboard {A : Type} (tabs : DataFrame -> result A)
  (f : DataFrame) : result (string + A) :=
  if empty f
  then Ok (inl "No data available based on current filters. Please adjust your selections or check the 'EA.csv' file.")
  else a <- tabs f ;; Ok (inr a).

(* ================================================================= *)
(** ** Sample exports *)

(** The header of an export, as [read_csv] returns it. *)
Definition EA_columns : list string :=
  ["Document No."; "Posting Date "; "Sell to State"; "Product Group";
   "Customer Name"; "Channel"; "Quantity"; "Unit Price"; "Line Discount";
   "Line Amount (Qty * Unit Unit_Price) -A"; "Invoice Discount Amount-B";
   "Final Line Amount (A-B+C)"; "GST Base Amount"; "GST Percentage";
   "Total GST Amount"; "IGST Amount"; "IGST Per"; "SGST Amount";
   "SGST Per"; "CGST Amount"; "CGST Per"; "TDS Amount"].

(** One line of an export.  The amount column is numeric; the line
    amount and the GST base are text columns. *)
Definition EA_record (doc date region group customer channel : string)
  (line_amount : string) (amount : Q) : Row :=
  [pd.read_field doc; pd.read_field date; pd.read_field region;
   pd.read_field group; pd.read_field customer; pd.read_field channel;
   VNum 2; VNum 250; VNaN; pd.read_field line_amount; VNum 0; VNum amount;
   pd.read_field "N/A"; VNum 18; VNum 0; VNum 0; VNum 0; VNum 0; VNum 0;
   VNum 0; VNum 0; VNaN].

Definition EA_csv : DataFrame :=
  mkDataFrame EA_columns
    [EA_record "INV-1" "05-01-2024" "North" "Shoes" "Acme" "Online"
               "1,234.50" 500;
     EA_record "INV-2" "20-01-2024" "North" "Shoes" "Bolt" "Retail"
               " 1,500 " 1500;
     EA_record "INV-3" "01-02-2024" "South" "Bags" "Acme" "Online"
               "N/A" 800;
     EA_record "INV-4" "31-02-2024" "South" "Bags" "Bolt" "Online"
               "12" 4000;
     EA_record "INV-5" "N/A" "North" "Hats" "Core" "Retail"
               "7" 20;
     EA_record "INV-3" "15-04-24" "South" "Hats" "Core" "Retail"
               "x" 1200].

(** Two lines, a Wednesday and then a Monday. *)
Definition EA_weekdays : DataFrame :=
  mkDataFrame EA_columns
    [EA_record "INV-1" "03-01-2024" "North" "Shoes" "Acme" "Online"
               "300" 300;
     EA_record "INV-2" "01-01-2024" "North" "Shoes" "Bolt" "Retail"
               "400" 400].

(** Two lines, one in the third quarter and then one in the first. *)
Definition EA_quarters : DataFrame :=
  mkDataFrame EA_columns
    [EA_record "INV-1" "10-07-2024" "North" "Shoes" "Acme" "Online"
               "300" 300;
     EA_record "INV-2" "05-01-2024" "North" "Shoes" "Bolt" "Retail"
               "400" 400].

(** Two lines with equal totals, the group [Shoes] met before [Bags]. *)
Definition EA_ties : DataFrame :=
  mkDataFrame EA_columns
    [EA_record "INV-1" "10-07-2024" "North" "Shoes" "Acme" "Online"
               "500" 500;
     EA_record "INV-2" "11-07-2024" "North" "Bags" "Bolt" "Retail"
               "500" 500].

(** Eleven lines with equal amounts, one per product group, the group
    [K] met first. *)
Definition EA_eleven : DataFrame :=
  mkDataFrame EA_columns
    (map (fun g => EA_record "INV-1" "10-07-2024" "North" g "Acme" "Online"
                             "500" 500)
         ["K"; "A"; "B"; "C"; "D"; "E"; "F"; "G"; "H"; "I"; "J"]).

(** The table [load_data] returns, the empty frame if it stops. *)
Definition loaded (csv : DataFrame) : DataFrame :=
  match load_data (Some csv) with
  | Done df => df
  | Stopped _ => mkDataFrame [] []
  end.

(** Widgets left as they come up: the whole date range, 'All'
    everywhere, the whole amount range. *)
Definition no_filter : Widgets :=
  mkWidgets [] ["All"] ["All"] ["All"] (0, 1000000)%Q.

Definition january_2024 : Widgets :=
  mkWidgets [mkTimestamp 2024 January 1; mkTimestamp 2024 January 31]
            ["All"] ["All"] ["All"] (0, 1000000)%Q.

(** An export whose amount column holds text with a thousands separator. *)
Definition EA_commas : DataFrame :=
  mkDataFrame EA_columns
    [set_nth 11 (pd.read_field "1,234.50")
       (EA_record "INV-1" "05-01-2024" "North" "Shoes" "Acme" "Online"
                  "300" 0)].

(** The sample export without its last column, [TDS Amount]. *)
Definition EA_short : DataFrame :=
  mkDataFrame (removelast EA_columns) (map (@removelast Value) (values EA_csv)).

(* ================================================================= *)
(** ** Vocabulary of the statements *)

(** Every cell of column [c] satisfies [P], and [c] is a column. *)
Definition col_all (P : Value -> Prop) (df : DataFrame) (c : string) : Prop :=
  exists i, get_loc c (columns df) = Some i
            /\ Forall (fun r => P (iloc r i)) (values df).

(** The position [setitem] writes to. *)
Definition target (df : DataFrame) (c : string) : nat :=
  match get_loc c (columns df) with
  | Some i => i
  | None => List.length (columns df)
  end.

Definition is_time (v : Value) : Prop := exists t, v = VTime t.
Definition is_number (v : Value) : Prop := exists q, v = VNum q.
Definition number_or_nan (v : Value) : Prop := is_number v \/ v = VNaN.
Definition time_or_nat (v : Value) : Prop := is_time v \/ v = VNaN.

(** The columns the sidebar filters read. *)
Definition filter_columns : list string :=
  ["Posting_Date"; "Region"; "Product_Group"; "Sales_Channel";
   "Final_Line_Amount"].

Definition position (cols : list string) (c : string) : nat :=
  match get_loc c cols with
  | Some i => i
  | None => O
  end.

Definition date_criterion (w : Widgets) (i : nat) (r : Row) : bool :=
  match date_range w with
  | [start_date; end_date] => between_dates start_date end_date (iloc r i)
  | _ => true
  end.

Definition choice_criterion (selected : list string) (i : nat) (r : Row)
  : bool :=
  if existsb (String.eqb "All") selected then true
  else isin selected (iloc r i).

(** The conjunction of the five criteria on one row. *)
Definition keep (cols : list string) (w : Widgets) (r : Row) : bool :=
  date_criterion w (position cols "Posting_Date") r
  && choice_criterion (selected_regions w) (position cols "Region") r
  && choice_criterion (selected_product_groups w)
       (position cols "Product_Group") r
  && choice_criterion (selected_sales_channels w)
       (position cols "Sales_Channel") r
  && between_amounts (amount_range w)
       (iloc r (position cols "Final_Line_Amount")).

(** [w'] asks for no more than [w]: a date range where [w] has none or
    inside the one of [w], selections without 'All' where [w] has 'All'
    or within those of [w], an amount range inside the one of [w]. *)
Definition narrower_dates (d' d : list Timestamp) : bool :=
  match d with
  | [s; e] =>
      match d' with
      | [s'; e'] => Timestamp_leb s s' && Timestamp_leb e' e
      | _ => false
      end
  | _ => true
  end.

Definition narrower_choice (sel' sel : list string) : bool :=
  existsb (String.eqb "All") sel
  || forallb (fun x => existsb (String.eqb x) sel) sel'.

Definition narrower_amounts (a' a : Q * Q) : bool :=
  Qle_bool (fst a) (fst a') && Qle_bool (snd a') (snd a).

Definition stricter (w' w : Widgets) : bool :=
  narrower_dates (date_range w') (date_range w)
  && narrower_choice (selected_regions w') (selected_regions w)
  && narrower_choice (selected_product_groups w') (selected_product_groups w)
  && narrower_choice (selected_sales_channels w') (selected_sales_channels w)
  && narrower_amounts (amount_range w') (amount_range w).

(** A filter that keeps a row or not by looking at that row alone. *)
Definition row_filter (cols : list string)
  (g : DataFrame -> result DataFrame) : Prop :=
  exists p, forall vs,
    g (mkDataFrame cols vs) = Ok (mkDataFrame cols (filter p vs)).

(** The entry of one group once the key column is made categorical. *)
Definition tagged (categories : list string) (g : string -> Q) (k : string)
  : option nat * (Value * Q) :=
  (category_code categories k,
   (match category_code categories k with
    | Some _ => VStr k
    | None => VNaN
    end, g k)).

(** [f] has the columns of [df] and only rows of [df]. *)
Definition narrowed (f df : DataFrame) : Prop :=
  columns f = columns df /\ forall r, In r (values f) -> In r (values df).

(** A cell of a datetime column: a timestamp or NaT. *)
Definition datetime_cell (v : Value) : bool :=
  match v with
  | VTime _ | VNaN => true
  | _ => false
  end.

(** The rows that have a date, as pairs of the date and the metric. *)
Definition dated_rows (d a : nat) (rows : list Row)
  : list (Timestamp * Value) :=
  flat_map (fun r => match iloc r d with
                     | VTime t => [(t, iloc r a)]
                     | _ => []
                     end) rows.

Definition same_value (v : Q) (x : string * Q) : bool := Qeq_bool (snd x) v.

Definition north_only : Widgets :=
  mkWidgets [mkTimestamp 2024 January 1; mkTimestamp 2024 January 31]
            ["North"] ["All"] ["All"] (0, 1000)%Q.

(* ================================================================= *)
(** ** The other charts and the widget defaults *)

(** [filtered_df['Final_Line_Amount'].sum()] *)
Definition total_sales (f : DataFrame) : result Q :=
  s <- getitem f "Final_Line_Amount" ;;
  Ok (series_sum s).

Definition region_sales (f : DataFrame) : result (list (string * Q)) :=
  groupby_sum f "Region" "Final_Line_Amount".

Definition channel_sales (f : DataFrame) : result (list (string * Q)) :=
  groupby_sum f "Sales_Channel" "Final_Line_Amount".

Definition mrp_sales (f : DataFrame) : result (list (string * Q)) :=
  groupby_sum f "MRP_Category" "Final_Line_Amount".

Definition gender_sales (f : DataFrame) : result (list (string * Q)) :=
  groupby_sum f "Gender" "Final_Line_Amount".

Definition item_category_sales (f : DataFrame)
  : result (list (string * Q)) :=
  groupby_sum f "Item_Category" "Final_Line_Amount".

Definition qty_product_sales (f : DataFrame) : result (list (string * Q)) :=
  s <- groupby_sum f "Product_Group" "Quantity" ;;
  Ok (nlargest 10 s).

Definition brand_sales (f : DataFrame) : result (list (string * Q)) :=
  s <- groupby_sum f "Brand" "Final_Line_Amount" ;;
  Ok (nlargest 10 s).

Definition asm_sales (f : DataFrame) : result (list (string * Q)) :=
  s <- groupby_sum f "ASM_Name" "Final_Line_Amount" ;;
  Ok (nlargest 10 s).

(** [filtered_df[filtered_df['Sale_Over_1000']]] *)
Definition high_value (f : DataFrame) : result DataFrame :=
  i <- loc f "Sale_Over_1000" ;;
  Ok (select (fun r => is_true (iloc r i)) f).

Definition high_value_region_sales (f : DataFrame)
  : result (list (string * Q)) :=
  h <- high_value f ;;
  groupby_sum h "Region" "Final_Line_Amount".

Definition high_value_product_sales (f : DataFrame)
  : result (list (string * Q)) :=
  h <- high_value f ;;
  s <- groupby_sum h "Product_Group" "Final_Line_Amount" ;;
  Ok (nlargest 10 s).

Definition monthly_qty (f : DataFrame) : result (list (Timestamp * Q)) :=
  dates <- getitem f "Posting_Date" ;;
  quantities <- getitem f "Quantity" ;;
  entries <- datetime_index dates quantities ;;
  Ok (resample_M_sum entries).

(** What a chart place shows: the chart of a series, or a notice. *)
Inductive Shown : Type :=
| Chart (s : list (string * Q))
| Notice (message : string).

(** Chart 20: drawn when there is an [Online_Store] column that is not
    all null. *)
Definition online_store_chart (f : DataFrame) : result Shown :=
  if has_column f "Online_Store"
  then
    stores <- getitem f "Online_Store" ;;
    if negb (forallb isna stores)
    then
      online_store_sales <- groupby_sum f "Online_Store" "Final_Line_Amount" ;;
      match online_store_sales with
      | _ :: _ => Ok (Chart online_store_sales)
      | [] => Ok (Notice "No data for Sales by Online/Offline Store.")
      end
    else Ok (Notice "Online_Store data not available or all null for visualization.")
  else Ok (Notice "Online_Store data not available or all null for visualization.").



Definition later (a b : Timestamp) : Timestamp :=
  if Timestamp_leb a b then b else a.







(** [['All'] + sorted(series.dropna().unique().tolist())] for a text
    column *)
Definition options (f : DataFrame) (c : string) : result (list string) :=
  i <- loc f c ;;
  Ok ("All" :: group_keys i (values f)).

(* ================================================================= *)
(** ** Vocabulary of the further statements *)

(** In every row the cells of columns [c1] and [c2] are related by [R]. *)
Definition row_rel (R : Value -> Value -> Prop) (df : DataFrame)
  (c1 c2 : string) : Prop :=
  exists i j,
    get_loc c1 (columns df) = Some i
    /\ get_loc c2 (columns df) = Some j
    /\ Forall (fun r => R (iloc r i) (iloc r j)) (values df).

(** The number a cell counts for in a sum. *)
Definition number_of (v : Value) : Q :=
  match v with
  | VNum q => q
  | VBool true => 1%Q
  | _ => 0%Q
  end.

Definition timestamp_cell (v : Value) : bool :=
  match v with
  | VTime _ => true
  | _ => false
  end.


Definition text_or_missing (v : Value) : bool :=
  match v with
  | VStr _ | VNaN => true
  | _ => false
  end.

(** The flag and the amount of a row agree. *)
Definition flag_of_amount (flag amount : Value) : Prop :=
  exists q, amount = VNum q /\ flag = VBool (negb (Qle_bool q 1000)).

Definition over_1000 (v : Value) : bool :=
  match v with
  | VNum q => negb (Qle_bool q 1000)
  | _ => false
  end.

(** The columns [load_data] writes. *)
Definition written_cols : list string :=
  ["Posting_Date"; "Sale_Over_1000"; "Year"; "Month"; "Day_of_Week";
   "Quarter"] ++ numeric_cols.

(** The export after its header is stripped and renamed. *)
Definition renamed (csv : DataFrame) : DataFrame :=
  rename rename_columns (mkDataFrame (map strip (columns csv)) (values csv)).

(** The date of a row parses. *)
Definition date_parses (i : nat) (r : Row) : bool :=
  negb (isna (pd.to_datetime (iloc r i))).

(** A cell that [> 1000] accepts. *)
Definition comparable (v : Value) : bool :=
  match v with
  | VStr _ | VTime _ => false
  | _ => true
  end.

(** What [load_data] needs of an export: the date column and every
    numeric column under their names, and no text in the amount of a row
    whose date parses. *)
Definition loadable (csv : DataFrame) : bool :=
  let df := renamed csv in
  forallb (has_column df) ("Posting_Date" :: numeric_cols)
  && forallb
       (fun r => comparable
                   (iloc r (position (columns df) "Final_Line_Amount")))
       (filter (date_parses (position (columns df) "Posting_Date"))
          (values csv)).

(** An export with a column of online stores, missing in one line. *)
Definition EA_stores : DataFrame :=
  mkDataFrame (EA_columns ++ ["Online Store"])
    (map (fun rs => fst rs ++ [pd.read_field (snd rs)])
       (combine (values EA_csv) ["Web"; "N/A"; "Web"; "App"; "Web"; "App"])).

(** A series whose sums come out the same in the 64-bit column types
    as in exact arithmetic: whole numbers whose absolute values add up
    to at most 2^53. *)
Definition whole (v : Value) : bool :=
  match v with
  | VNum q => Qeq_bool q (inject_Z (Qfloor q))
  | _ => false
  end.

Definition exact_sums (vs : list Value) : bool :=
  forallb whole vs
  && (fold_right (fun v acc => Z.abs (Qfloor (number_of v)) + acc) 0 vs
      <=? 2 ^ 53)%Z.

(** A date as the exports write it, [DD-MM-YYYY]. *)
Definition dayfirst_text (t : Timestamp) : string :=
  two_digits (day t) ++ "-" ++ two_digits (month_number (month t))
    ++ "-" ++ str_of_Z (year t).

(** A date cell that is missing, or written [DD-MM-YYYY] in full, for a
    day of the calendar between the years 1700 and 2200. *)
Definition plain_date (v : Value) : bool :=
  match v with
  | VNaN => true
  | VStr s =>
      match parse_dayfirst s with
      | Some t =>
          String.eqb s (dayfirst_text t)
          && (1700 <=? year t)%Z && (year t <=? 2200)%Z
      | None => false
      end
  | _ => false
  end.

(** A label of printable ASCII characters. *)
Definition plain_label (s : string) : bool :=
  forallb (fun c => (32 <=? nat_of_ascii c)%nat
                    && (nat_of_ascii c <? 127)%nat)
          (list_ascii_of_string s).

Fixpoint distinct (l : list string) : bool :=
  match l with
  | [] => true
  | x :: l' => negb (existsb (String.eqb x) l') && distinct l'
  end.

(** An export with a header of printable ASCII labels, no two of them
    alike once stripped and renamed, and with plain dates. *)
Definition plain_export (csv : DataFrame) : bool :=
  forallb plain_label (columns csv)
  && distinct (columns (renamed csv))
  && match get_loc "Posting_Date" (columns (renamed csv)) with
     | Some i => forallb (fun r => plain_date (iloc r i)) (values csv)
     | None => true
     end.

(** A plain export: five lines, one of them without a date. *)
Definition EA_plain : DataFrame :=
  mkDataFrame EA_columns
    [EA_record "INV-1" "05-01-2024" "North" "Shoes" "Acme" "Online"
               "1,234.50" 500;
     EA_record "INV-2" "20-01-2024" "North" "Shoes" "Bolt" "Retail"
               " 1,500 " 1500;
     EA_record "INV-3" "01-03-2024" "South" "Bags" "Acme" "Online"
               "N/A" 800;
     EA_record "INV-4" "N/A" "South" "Bags" "Bolt" "Online"
               "12" 4000;
     EA_record "INV-5" "15-04-2024" "South" "Hats" "Core" "Retail"
               "x" 1200].

(* ================================================================= *)
(** * Properties *)

(** ** The error monad *)

Lemma bind_Ok {A B : Type} (m : result A) (k : A -> result B) (b : B) :
  bind m k = Ok b -> exists a, m = Ok a /\ k a = Ok b.
Proof.
  destruct m as [a | e]; simpl; intros H.
  - exists a; split; [reflexivity | exact H].
  - discriminate H.
Qed.

Lemma mapM_Ok_Forall {A B : Type} (f : A -> result B) (P : B -> Prop) :
  (forall x y, f x = Ok y -> P y) ->
  forall l ys, mapM f l = Ok ys -> Forall P ys.
Proof.
  intros Hf l; induction l as [| x l IH]; simpl; intros ys H.
  - inversion H; constructor.
  - apply bind_Ok in H as (y & Hy & H).
    apply bind_Ok in H as (ys' & Hys & H).
    inversion H; subst; constructor; eauto.
Qed.

Lemma mapM_Ok_In {A B : Type} (f : A -> result B) :
  forall l ys, mapM f l = Ok ys ->
  forall x, In x l -> exists y, f x = Ok y.
Proof.
  induction l as [| a l IH]; simpl; intros ys H x Hx; [contradiction |].
  apply bind_Ok in H as (y & Hy & H).
  apply bind_Ok in H as (ys' & Hys & H).
  destruct Hx as [<- | Hx]; eauto.
Qed.

Lemma mapM_total {A B : Type} (f : A -> result B) :
  forall l, (forall x, In x l -> exists y, f x = Ok y) ->
  exists ys, mapM f l = Ok ys.
Proof.
  induction l as [| a l IH]; simpl; intros H.
  - eexists; reflexivity.
  - destruct (H a (or_introl eq_refl)) as (y & ->).
    destruct IH as (ys & ->); [intros; apply H; now right |].
    simpl; eexists; reflexivity.
Qed.

(** ** Insertion sort *)

Section SortingFacts.
Context {A : Type} (leb : A -> A -> bool).

Let R (x y : A) : Prop := leb x y = true.

Lemma insert_by_perm (x : A) (l : list A) :
  Permutation (insert_by leb x l) (x :: l).
Proof.
  induction l as [| y l IH]; simpl.
  - apply Permutation_refl.
  - destruct (leb x y).
    + apply Permutation_refl.
    + eapply Permutation_trans; [apply perm_skip, IH | apply perm_swap].
Qed.

Lemma sort_by_perm (l : list A) : Permutation (sort_by leb l) l.
Proof.
  induction l as [| x l IH]; simpl.
  - apply perm_nil.
  - eapply Permutation_trans; [apply insert_by_perm | now apply perm_skip].
Qed.

Lemma sort_by_In (l : list A) (x : A) : In x (sort_by leb l) <-> In x l.
Proof.
  split; apply Permutation_in;
    [apply sort_by_perm | apply Permutation_sym, sort_by_perm].
Qed.

(** Stability: a class of elements that sorting cannot move an element
    of another class into keeps its order. *)
Lemma filter_insert_by (P : A -> bool) (x : A) (l : list A) :
  (forall y, P x = true -> leb x y = false -> P y = false) ->
  filter P (insert_by leb x l) = filter P (x :: l).
Proof.
  intros HP; induction l as [| y l IH]; simpl; [reflexivity |].
  destruct (leb x y) eqn:Hxy; simpl; [reflexivity |].
  simpl in IH; rewrite IH.
  destruct (P x) eqn:Hx; [| reflexivity].
  now rewrite (HP y eq_refl Hxy).
Qed.

Lemma filter_sort_by (P : A -> bool) (l : list A) :
  (forall x y, P x = true -> leb x y = false -> P y = false) ->
  filter P (sort_by leb l) = filter P l.
Proof.
  intros HP; induction l as [| x l IH]; simpl; [reflexivity |].
  rewrite filter_insert_by by (intros y; apply HP).
  simpl; now rewrite IH.
Qed.

Hypothesis leb_total : forall x y, leb x y = true \/ leb y x = true.
Hypothesis leb_trans :
  forall x y z, leb x y = true -> leb y z = true -> leb x z = true.

Lemma insert_by_sorted (x : A) (l : list A) :
  StronglySorted R l -> StronglySorted R (insert_by leb x l).
Proof.
  induction 1 as [| y l Hl IH Hy]; simpl.
  - constructor; constructor.
  - destruct (leb x y) eqn:Hxy.
    + constructor; [now constructor |].
      constructor; [exact Hxy |].
      eapply Forall_impl; [| exact Hy].
      intros z Hz; eapply leb_trans; eassumption.
    + constructor; [exact IH |].
      eapply Permutation_Forall;
        [apply Permutation_sym, insert_by_perm |].
      constructor; [| exact Hy].
      destruct (leb_total x y) as [H | H]; [congruence | exact H].
Qed.

Lemma sort_by_sorted (l : list A) : StronglySorted R (sort_by leb l).
Proof.
  induction l as [| x l IH]; simpl.
  - constructor.
  - now apply insert_by_sorted.
Qed.

Lemma sorted_firstn_skipn (n : nat) (l : list A) :
  StronglySorted R l ->
  forall x y, In x (firstn n l) -> In y (skipn n l) -> R x y.
Proof.
  intros Hl; revert n; induction Hl as [| a l Hl IH Ha]; intros n x y.
  - destruct n; simpl; contradiction.
  - destruct n as [| n]; simpl; [contradiction |].
    intros [<- | Hx] Hy.
    + rewrite Forall_forall in Ha; apply Ha.
      rewrite <- (firstn_skipn n l); apply in_or_app; now right.
    + eapply IH; eassumption.
Qed.

(** Two sorted arrangements of the same elements are equal when no two
    different elements compare equal. *)
Lemma sorted_perm_unique (l1 l2 : list A) :
  StronglySorted R l1 -> StronglySorted R l2 -> Permutation l1 l2 ->
  (forall x y, In x l1 -> In y l1 -> R x y -> R y x -> x = y) ->
  l1 = l2.
Proof.
  intros H1; revert l2; induction H1 as [| a l1 Hl1 IH Ha];
    intros l2 H2 Hp Hanti.
  - apply Permutation_nil in Hp; now subst.
  - destruct H2 as [| b l2 Hl2 Hb].
    + apply Permutation_sym, Permutation_nil in Hp; discriminate.
    + assert (a = b) as ->.
      { assert (Hin_a : In a (b :: l2))
          by (eapply Permutation_in; [exact Hp | now left]).
        assert (Hin_b : In b (a :: l1))
          by (eapply Permutation_in;
              [apply Permutation_sym; exact Hp | now left]).
        destruct Hin_a as [-> | Hin_a]; [reflexivity |].
        destruct Hin_b as [-> | Hin_b]; [reflexivity |].
        rewrite Forall_forall in Ha, Hb.
        apply Hanti; [now left | now right | now apply Ha | now apply Hb]. }
      f_equal; apply IH; [exact Hl2 | |].
      * eapply Permutation_cons_inv; exact Hp.
      * intros x y Hx Hy; apply Hanti; now right.
Qed.
End SortingFacts.

Lemma filter_firstn_prefix {A : Type} (P : A -> bool) (n : nat) (l : list A) :
  filter P l = filter P (firstn n l) ++ filter P (skipn n l).
Proof.
  now rewrite <- filter_app, firstn_skipn.
Qed.

Lemma filter_true {A : Type} (l : list A) : filter (fun _ => true) l = l.
Proof.
  induction l as [| x l IH]; simpl; [reflexivity | now rewrite IH].
Qed.

Lemma filter_filter {A : Type} (p q : A -> bool) (l : list A) :
  filter q (filter p l) = filter (fun x => p x && q x) l.
Proof.
  induction l as [| x l IH]; simpl; [reflexivity |].
  destruct (p x); simpl; [destruct (q x) |]; now rewrite IH.
Qed.

Lemma filter_length_mono {A : Type} (p q : A -> bool) (l : list A) :
  (forall x, p x = true -> q x = true) ->
  (List.length (filter p l) <= List.length (filter q l))%nat.
Proof.
  intros H; induction l as [| x l IH]; simpl; [lia |].
  destruct (p x) eqn:Hp.
  - rewrite (H x Hp); simpl; lia.
  - destruct (q x); simpl; lia.
Qed.

(* ================================================================= *)
(** ** The share of transactions over 1000 *)

Lemma total_transactions_nonneg (f : DataFrame) (total : Z) :
  total_transactions f = Ok total -> (0 <= total)%Z.
Proof.
  unfold total_transactions; intros H.
  apply bind_Ok in H as (s & _ & H).
  inversion H; lia.
Qed.

Lemma percentage_over_1000_total (sales total : Z) :
  percentage_over_1000 sales total
  = Ok (if (total >? 0)%Z then (inject_Z sales / inject_Z total * 100)%Q
        else 0%Q).
Proof.
  unfold percentage_over_1000, truediv.
  destruct (total >? 0)%Z eqn:Hpos; [| reflexivity].
  destruct (total =? 0)%Z eqn:Hz; [| reflexivity].
  apply Z.eqb_eq in Hz; subst; discriminate.
Qed.

(** C10.  For a filtered table whose distinct document numbers and rows
    over 1000 have been counted, the percentage is computed without a
    division by zero: it is 0 when there is no document number, and
    (rows over 1000 / distinct documents) * 100 otherwise. *)
Theorem percentage_never_divides_by_zero
  (f : DataFrame) (total sales : Z) :
  total_transactions f = Ok total ->
  sales_over_1000 f = Ok sales ->
  exists q,
    percentage_metric f = Ok q
    /\ percentage_over_1000 sales total = Ok q
    /\ (total = 0%Z -> q = 0%Q)
    /\ (total <> 0%Z -> q = (inject_Z sales / inject_Z total * 100)%Q).
Proof.
  intros Ht Hs.
  pose proof (total_transactions_nonneg _ _ Ht) as Hnn.
  unfold percentage_metric; rewrite Ht, Hs; simpl.
  rewrite percentage_over_1000_total.
  eexists; repeat split.
  - intros ->; reflexivity.
  - intros Hne.
    destruct (total >? 0)%Z eqn:Hpos; [reflexivity |].
    rewrite Z.gtb_ltb in Hpos; apply Z.ltb_ge in Hpos; lia.
Qed.

Lemma percentage_never_divides_by_zero_witness :
  exists q,
    percentage_metric (loaded EA_csv) = Ok q
    /\ percentage_over_1000 2 3 = Ok q
    /\ (3%Z = 0%Z -> q = 0%Q)
    /\ (3%Z <> 0%Z -> q = (inject_Z 2 / inject_Z 3 * 100)%Q).
Proof.
  apply (percentage_never_divides_by_zero (loaded EA_csv) 3 2);
    vm_compute; reflexivity.
Defined.

(* ================================================================= *)
(** ** Columns of a frame *)

Lemma get_loc_lt (c : string) (cols : list string) (i : nat) :
  get_loc c cols = Some i -> (i < List.length cols)%nat.
Proof.
  revert i; induction cols as [| c' cols IH]; simpl; intros i H.
  - discriminate.
  - destruct (String.eqb c c').
    + inversion H; lia.
    + destruct (get_loc c cols) as [j |]; simpl in H; inversion H.
      specialize (IH j eq_refl); lia.
Qed.

Lemma get_loc_inj (c c' : string) (cols : list string) (i : nat) :
  get_loc c cols = Some i -> get_loc c' cols = Some i -> c = c'.
Proof.
  revert i; induction cols as [| a cols IH]; simpl; intros i H H'.
  - discriminate.
  - destruct (String.eqb_spec c a) as [-> | Hc];
      destruct (String.eqb_spec c' a) as [-> | Hc'].
    + reflexivity.
    + destruct (get_loc c' cols); simpl in H'; congruence.
    + destruct (get_loc c cols); simpl in H; congruence.
    + destruct (get_loc c cols) as [j |]; simpl in H; [| discriminate].
      destruct (get_loc c' cols) as [j' |]; simpl in H'; [| discriminate].
      apply (IH j); congruence.
Qed.

Lemma get_loc_app_old (c : string) (cols more : list string) (i : nat) :
  get_loc c cols = Some i -> get_loc c (cols ++ more) = Some i.
Proof.
  revert i; induction cols as [| a cols IH]; simpl; intros i H.
  - discriminate.
  - destruct (String.eqb c a); [exact H |].
    destruct (get_loc c cols) as [j |]; simpl in H; [| discriminate].
    now rewrite (IH j eq_refl).
Qed.

Lemma get_loc_app_new (c : string) (cols : list string) :
  get_loc c cols = None -> get_loc c (cols ++ [c]) = Some (List.length cols).
Proof.
  induction cols as [| a cols IH]; simpl; intros H.
  - now rewrite String.eqb_refl.
  - destruct (String.eqb c a); [discriminate |].
    destruct (get_loc c cols); simpl in H; [discriminate |].
    now rewrite IH.
Qed.

Lemma iloc_set_nth_same (i : nat) (v : Value) (r : Row) :
  iloc (set_nth i v r) i = v.
Proof.
  unfold iloc; revert r; induction i as [| i IH]; intros [| x r]; simpl;
    auto.
Qed.

Lemma iloc_set_nth_other (i j : nat) (v : Value) (r : Row) :
  i <> j -> iloc (set_nth i v r) j = iloc r j.
Proof.
  unfold iloc; revert j r; induction i as [| i IH]; intros [| j] [| x r] H;
    simpl; try congruence; try reflexivity.
  - now destruct j.
  - rewrite IH by congruence; now destruct j.
  - apply IH; congruence.
Qed.

Lemma setitem_loc (df : DataFrame) (c : string) (vals : list Value) :
  get_loc c (columns (setitem df c vals)) = Some (target df c).
Proof.
  unfold setitem, target.
  destruct (get_loc c (columns df)) as [i |] eqn:H; simpl.
  - exact H.
  - now apply get_loc_app_new.
Qed.

Lemma setitem_values (df : DataFrame) (c : string) (vals : list Value) :
  values (setitem df c vals)
  = map (fun rv => set_nth (target df c) (snd rv) (fst rv))
        (combine (values df) vals).
Proof.
  unfold setitem, target; now destruct (get_loc c (columns df)).
Qed.

Lemma setitem_loc_other (df : DataFrame) (c c' : string)
  (vals : list Value) (j : nat) :
  get_loc c' (columns df) = Some j ->
  get_loc c' (columns (setitem df c vals)) = Some j.
Proof.
  unfold setitem; intros H.
  destruct (get_loc c (columns df)); simpl; [exact H |].
  now apply get_loc_app_old.
Qed.

Lemma col_all_impl (P Q : Value -> Prop) (df : DataFrame) (c : string) :
  (forall v, P v -> Q v) -> col_all P df c -> col_all Q df c.
Proof.
  intros HPQ (i & Hi & H); exists i; split; [exact Hi |].
  eapply Forall_impl; [| exact H]; auto.
Qed.

Lemma col_all_setitem_same (P : Value -> Prop) (df : DataFrame)
  (c : string) (vals : list Value) :
  Forall P vals -> col_all P (setitem df c vals) c.
Proof.
  intros H; exists (target df c); split; [apply setitem_loc |].
  rewrite setitem_values, Forall_forall; intros r' Hr'.
  apply in_map_iff in Hr' as ([r v] & <- & Hrv); simpl.
  rewrite iloc_set_nth_same.
  rewrite Forall_forall in H; apply H.
  eapply in_combine_r; exact Hrv.
Qed.

Lemma col_all_setitem_other (P : Value -> Prop) (df : DataFrame)
  (c c' : string) (vals : list Value) :
  c <> c' -> col_all P df c' -> col_all P (setitem df c vals) c'.
Proof.
  intros Hne (j & Hj & H); exists j; split;
    [now apply setitem_loc_other |].
  rewrite setitem_values, Forall_forall; intros r' Hr'.
  apply in_map_iff in Hr' as ([r v] & <- & Hrv); simpl.
  rewrite iloc_set_nth_other.
  - rewrite Forall_forall in H; apply H.
    eapply in_combine_l; exact Hrv.
  - unfold target; destruct (get_loc c (columns df)) as [i |] eqn:Hi.
    + intros ->; apply Hne; eapply get_loc_inj; eassumption.
    + apply get_loc_lt in Hj; lia.
Qed.

Lemma col_all_select (P : Value -> Prop) (p : Row -> bool)
  (df : DataFrame) (c : string) :
  col_all P df c -> col_all P (select p df) c.
Proof.
  intros (i & Hi & H); exists i; split; [exact Hi |]; simpl.
  rewrite Forall_forall in *; intros r Hr.
  apply filter_In in Hr as [Hr _]; auto.
Qed.

Lemma col_all_assign_other (P : Value -> Prop) (df df' : DataFrame)
  (c src c' : string) (f : Value -> Value) :
  assign df c src f = Ok df' -> c <> c' ->
  col_all P df c' -> col_all P df' c'.
Proof.
  unfold assign; intros H Hne Hc.
  apply bind_Ok in H as (s & _ & H); inversion H; subst.
  now apply col_all_setitem_other.
Qed.

Lemma col_all_assign_same (P : Value -> Prop) (df df' : DataFrame)
  (c src : string) (f : Value -> Value) :
  assign df c src f = Ok df' -> (forall v, P (f v)) -> col_all P df' c.
Proof.
  unfold assign; intros H HP.
  apply bind_Ok in H as (s & _ & H); inversion H; subst.
  apply col_all_setitem_same, Forall_forall.
  intros v Hv; apply in_map_iff in Hv as (x & <- & _); apply HP.
Qed.

Lemma transform_columns (f : Value -> Value) (df : DataFrame) (c : string) :
  columns (transform f df c) = columns df.
Proof.
  unfold transform.
  destruct (get_loc c (columns df)) eqn:H; [| reflexivity].
  unfold setitem; now rewrite H.
Qed.

(** A transformation that keeps [P] keeps it on every column. *)
Lemma col_all_transform (P : Value -> Prop) (f : Value -> Value)
  (df : DataFrame) (c c' : string) :
  (forall v, P v -> P (f v)) ->
  col_all P df c' -> col_all P (transform f df c) c'.
Proof.
  intros Hf Hc'; unfold transform.
  destruct (get_loc c (columns df)) as [i |] eqn:Hi; [| exact Hc'].
  destruct (String.eqb_spec c c') as [<- | Hne].
  - apply col_all_setitem_same.
    destruct Hc' as (j & Hj & H).
    assert (j = i) as -> by congruence.
    apply Forall_forall; intros v Hv.
    apply in_map_iff in Hv as (r & <- & Hr).
    rewrite Forall_forall in H; auto.
  - now apply col_all_setitem_other.
Qed.

(** A transformation whose results all satisfy [P] establishes it on the
    column it is applied to. *)
Lemma col_all_transform_same (P : Value -> Prop) (f : Value -> Value)
  (df : DataFrame) (c : string) :
  (forall v, P (f v)) -> has_column df c = true ->
  col_all P (transform f df c) c.
Proof.
  intros Hf Hc; unfold transform, has_column in *.
  destruct (get_loc c (columns df)) as [i |]; [| discriminate].
  apply col_all_setitem_same, Forall_forall.
  intros v Hv; apply in_map_iff in Hv as (r & <- & _); apply Hf.
Qed.

Lemma fold_transform_columns (f : Value -> Value) (l : list string) :
  forall df, columns (fold_left (transform f) l df) = columns df.
Proof.
  induction l as [| c l IH]; simpl; intros df; [reflexivity |].
  now rewrite IH, transform_columns.
Qed.

Lemma col_all_fold_transform (P : Value -> Prop) (f : Value -> Value)
  (l : list string) (c' : string) :
  (forall v, P v -> P (f v)) ->
  forall df, col_all P df c' -> col_all P (fold_left (transform f) l df) c'.
Proof.
  intros Hf; induction l as [| c l IH]; simpl; intros df H; [exact H |].
  now apply IH, col_all_transform.
Qed.

Lemma col_all_fold_transform_in (P : Value -> Prop) (f : Value -> Value)
  (l : list string) (c : string) :
  (forall v, P (f v)) -> In c l ->
  forall df, has_column df c = true ->
  col_all P (fold_left (transform f) l df) c.
Proof.
  intros Hf; induction l as [| a l IH]; simpl; intros Hin df Hc;
    [contradiction |].
  destruct Hin as [-> | Hin].
  - apply col_all_fold_transform; [intros; apply Hf |].
    now apply col_all_transform_same.
  - apply IH; [exact Hin |].
    unfold has_column in *; now rewrite transform_columns.
Qed.

Lemma col_all_transform_other (P : Value -> Prop) (f : Value -> Value)
  (df : DataFrame) (c c' : string) :
  c <> c' -> col_all P df c' -> col_all P (transform f df c) c'.
Proof.
  intros Hne H; unfold transform.
  destruct (get_loc c (columns df)); [| exact H].
  now apply col_all_setitem_other.
Qed.

Lemma col_all_fold_transform_notin (P : Value -> Prop) (f : Value -> Value)
  (l : list string) (c' : string) :
  ~ In c' l ->
  forall df, col_all P df c' -> col_all P (fold_left (transform f) l df) c'.
Proof.
  induction l as [| c l IH]; simpl; intros Hnot df H; [exact H |].
  apply IH; [tauto |].
  apply col_all_transform_other; [intros ->; tauto | exact H].
Qed.

Lemma col_all_transform_map (P Q : Value -> Prop) (f : Value -> Value)
  (df : DataFrame) (c : string) :
  (forall v, P v -> Q (f v)) ->
  col_all P df c -> col_all Q (transform f df c) c.
Proof.
  intros Hf (i & Hi & H); unfold transform; rewrite Hi.
  apply col_all_setitem_same, Forall_forall.
  intros v Hv; apply in_map_iff in Hv as (r & <- & Hr).
  rewrite Forall_forall in H; auto.
Qed.

Lemma dropna_col (P : Value -> Prop) (df df' : DataFrame) (c : string) :
  dropna df c = Ok df' -> col_all P df c ->
  col_all (fun v => P v /\ isna v = false) df' c.
Proof.
  unfold dropna, loc; intros H (i & Hi & HP).
  rewrite Hi in H; simpl in H; inversion H; subst; clear H.
  exists i; split; [exact Hi |]; simpl.
  rewrite Forall_forall in *; intros r Hr.
  apply filter_In in Hr as [Hr Hna].
  split; [now apply HP |].
  now destruct (isna (iloc r i)).
Qed.

Lemma to_datetime_time_or_nat (v : Value) : time_or_nat (pd.to_datetime v).
Proof.
  destruct v as [s | q | b | t |]; simpl; try (now right).
  - destruct (parse_dayfirst s) as [t |]; [left; now exists t | now right].
  - left; now exists t.
Qed.

Lemma clean_numeric_number_or_nan (v : Value) :
  number_or_nan (clean_numeric v).
Proof.
  assert (Hnum : forall s, number_or_nan (pd.to_numeric s)).
  { intros s; unfold pd.to_numeric.
    destruct (parse_decimal _) as [q |]; [left; now exists q | now right]. }
  destruct v as [s | q | b | t |]; simpl; try apply Hnum.
  left; now exists q.
Qed.

Lemma fillna0_number (v : Value) :
  number_or_nan v -> is_number (pd.fillna0 v).
Proof.
  intros [(q & ->) | ->]; simpl; [now exists q | now exists 0%Q].
Qed.

Lemma col_all_fillna (l : list string) (c : string) :
  In c l ->
  forall df, (forall c', In c' l -> col_all number_or_nan df c') ->
  col_all is_number (fold_left (transform pd.fillna0) l df) c.
Proof.
  assert (Hkeep : forall v, number_or_nan v -> number_or_nan (pd.fillna0 v))
    by (intros v Hv; left; now apply fillna0_number).
  induction l as [| a l IH]; simpl; intros Hin df Hall; [contradiction |].
  destruct (in_dec string_dec c l) as [Hl | Hl].
  - apply IH; [exact Hl |].
    intros c' Hc'; apply col_all_transform; [exact Hkeep | auto].
  - destruct Hin as [-> | Hin]; [| contradiction].
    apply col_all_fold_transform_notin; [exact Hl |].
    eapply col_all_transform_map; [apply fillna0_number | auto].
Qed.

Lemma loc_has_column (df : DataFrame) (c : string) (i : nat) :
  loc df c = Ok i -> has_column df c = true.
Proof.
  unfold loc, has_column; now destruct (get_loc c (columns df)).
Qed.

(* ================================================================= *)
(** ** The loader *)

Lemma Ok_inj {A : Type} (a b : A) : Ok a = Ok b -> a = b.
Proof.
  intros H; now injection H.
Qed.

Lemma Done_inj {A : Type} (a b : A) : Done a = Done b -> a = b.
Proof.
  intros H; now injection H.
Qed.

Lemma fillna_columns_Ok (df df' : DataFrame) (cols : list string) :
  fillna_columns df cols = Ok df' ->
  df' = fold_left (transform pd.fillna0) cols df
  /\ forall c, In c cols -> has_column df c = true.
Proof.
  unfold fillna_columns; intros H.
  apply bind_Ok in H as (locs & Hlocs & H).
  apply Ok_inj in H; split; [now symmetry |].
  intros c Hc.
  destruct (mapM_Ok_In _ _ _ Hlocs c Hc) as (i & Hi).
  eapply loc_has_column; exact Hi.
Qed.

Lemma numeric_columns_coerced (df df' : DataFrame) (cols : list string) :
  fillna_columns (fold_left (transform clean_numeric) cols df) cols = Ok df' ->
  forall c, In c cols -> col_all is_number df' c.
Proof.
  intros H c Hc.
  apply fillna_columns_Ok in H as [-> Hcols].
  apply col_all_fillna; [exact Hc |].
  intros c' Hc'.
  apply col_all_fold_transform_in;
    [apply clean_numeric_number_or_nan | exact Hc' |].
  specialize (Hcols c' Hc').
  unfold has_column in *.
  now rewrite fold_transform_columns in Hcols.
Qed.

Lemma col_all_assign_from (P0 P : Value -> Prop) (df df' : DataFrame)
  (c src : string) (f : Value -> Value) :
  assign df c src f = Ok df' ->
  col_all P0 df src -> (forall v, P0 v -> P (f v)) -> col_all P df' c.
Proof.
  unfold assign, getitem, loc; intros H (i & Hi & H0) Hf.
  rewrite Hi in H; cbn [bind] in H; apply Ok_inj in H; subst df'.
  apply col_all_setitem_same; rewrite map_map, Forall_forall.
  intros v Hv; apply in_map_iff in Hv as (r & <- & Hr).
  rewrite Forall_forall in H0; auto.
Qed.

(** The steps of a run of [load_data] that returns a table. *)
Lemma load_data_stages (file : option DataFrame) (df : DataFrame) :
  load_data file = Done df ->
  exists df1 df2 df3 over df5 df6 df7 df8,
    assign df1 "Posting_Date" "Posting_Date" pd.to_datetime = Ok df2
    /\ dropna df2 "Posting_Date" = Ok df3
    /\ assign (setitem df3 "Sale_Over_1000" over) "Year" "Posting_Date"
         pd.dt_year = Ok df5
    /\ assign df5 "Month" "Posting_Date" pd.dt_month_name = Ok df6
    /\ assign df6 "Day_of_Week" "Posting_Date" pd.dt_day_name = Ok df7
    /\ assign df7 "Quarter" "Posting_Date"
         (fun v => format_quarter (pd.dt_quarter v)) = Ok df8
    /\ fillna_columns (fold_left (transform clean_numeric) numeric_cols df8)
         numeric_cols = Ok df.
Proof.
  unfold load_data; intros H.
  destruct (load_data_try file) as [df' | e] eqn:Htry;
    [| destruct e; discriminate H].
  apply Done_inj in H; subst df'.
  unfold load_data_try in Htry.
  apply bind_Ok in Htry as (df0 & _ & Htry).
  apply bind_Ok in Htry as (df2 & Hdate & Htry).
  apply bind_Ok in Htry as (df3 & Hdrop & Htry).
  apply bind_Ok in Htry as (amount & _ & Htry).
  apply bind_Ok in Htry as (over & _ & Htry).
  apply bind_Ok in Htry as (df5 & Hyear & Htry).
  apply bind_Ok in Htry as (df6 & Hmonth & Htry).
  apply bind_Ok in Htry as (df7 & Hday & Htry).
  apply bind_Ok in Htry as (df8 & Hquarter & Hfill).
  eexists _, df2, df3, over, df5, df6, df7, df8.
  repeat split; eassumption.
Qed.

Lemma quarter_label (t : Timestamp) :
  isin quarter_order (format_quarter (pd.dt_quarter (VTime t))) = true.
Proof.
  destruct t as [y m d]; destruct m; reflexivity.
Qed.

Lemma not_numeric_col (c : string) :
  existsb (String.eqb c) numeric_cols = false -> ~ In c numeric_cols.
Proof.
  intros H Hin.
  assert (Ht : existsb (String.eqb c) numeric_cols = true)
    by (apply existsb_exists; exists c; split;
        [exact Hin | apply String.eqb_refl]).
  congruence.
Qed.

(** A column that is not numeric leaves the loader as it was after the
    derived columns were added. *)
Lemma col_all_after_coercion (P : Value -> Prop) (df8 df : DataFrame)
  (cols : list string) (c : string) :
  fillna_columns (fold_left (transform clean_numeric) cols df8) cols = Ok df ->
  ~ In c cols -> col_all P df8 c -> col_all P df c.
Proof.
  intros Hfill Hnot H.
  apply fillna_columns_Ok in Hfill as [-> _].
  now apply col_all_fold_transform_notin, col_all_fold_transform_notin.
Qed.

(** In a loaded table the date column holds dates, the amount column
    numbers, the quarter column quarter labels, and there is a column
    for the day of the week. *)
Lemma loaded_table_columns (file : option DataFrame) (df : DataFrame) :
  load_data file = Done df ->
  col_all is_time df "Posting_Date"
  /\ col_all is_number df "Final_Line_Amount"
  /\ col_all (fun v => isin quarter_order v = true) df "Quarter"
  /\ col_all (fun _ => True) df "Day_of_Week".
Proof.
  intros Hload.
  destruct (load_data_stages _ _ Hload)
    as (df1 & df2 & df3 & over & df5 & df6 & df7 & df8
        & Hdate & Hdrop & Hyear & Hmonth & Hday & Hquarter & Hfill).
  assert (H3 : col_all is_time df3 "Posting_Date").
  { apply (col_all_impl (fun v => time_or_nat v /\ isna v = false)).
    - intros v [[Ht | ->] Hna]; [exact Ht | discriminate Hna].
    - eapply dropna_col; [exact Hdrop |].
      eapply col_all_assign_same; [exact Hdate |].
      apply to_datetime_time_or_nat. }
  assert (H7 : col_all is_time df7 "Posting_Date").
  { eapply col_all_assign_other; [exact Hday | discriminate |].
    eapply col_all_assign_other; [exact Hmonth | discriminate |].
    eapply col_all_assign_other; [exact Hyear | discriminate |].
    apply col_all_setitem_other; [discriminate | exact H3]. }
  repeat split.
  - eapply col_all_after_coercion; [exact Hfill | |].
    + now apply not_numeric_col.
    + eapply col_all_assign_other; [exact Hquarter | discriminate | exact H7].
  - eapply numeric_columns_coerced; [exact Hfill |].
    unfold numeric_cols; simpl; tauto.
  - eapply col_all_after_coercion; [exact Hfill | |].
    + now apply not_numeric_col.
    + eapply col_all_assign_from; [exact Hquarter | exact H7 |].
      intros v (t & ->); apply quarter_label.
  - eapply col_all_after_coercion; [exact Hfill | |].
    + now apply not_numeric_col.
    + eapply col_all_assign_other; [exact Hquarter | discriminate |].
      eapply col_all_assign_same; [exact Hday | easy].
Qed.

(** C6.  Whatever the source, in the table that [load_data] returns
    the posting date of every row is a date (rows whose date did not
    parse are gone) and every declared numeric column exists and holds
    a number in every row (what did not parse is 0). *)
Theorem load_data_normalized (file : option DataFrame) (df : DataFrame) :
  load_data file = Done df ->
  col_all is_time df "Posting_Date"
  /\ forall c, In c numeric_cols -> col_all is_number df c.
Proof.
  intros Hload; split; [apply (loaded_table_columns _ _ Hload) |].
  destruct (load_data_stages _ _ Hload)
    as (df1 & df2 & df3 & over & df5 & df6 & df7 & df8
        & _ & _ & _ & _ & _ & _ & Hfill).
  now apply numeric_columns_coerced with (df := df8).
Qed.

Lemma load_data_normalized_witness :
  col_all is_time (loaded EA_csv) "Posting_Date"
  /\ forall c, In c numeric_cols -> col_all is_number (loaded EA_csv) c.
Proof.
  apply (load_data_normalized (Some EA_csv) (loaded EA_csv)).
  vm_compute; reflexivity.
Defined.

(** Of the six lines of the sample export, the one dated 31-02-2024 and
    the one without a date are dropped. *)
Lemma unparsable_dates_are_dropped :
  getitem EA_csv "Document No."
  = Ok [VStr "INV-1"; VStr "INV-2"; VStr "INV-3"; VStr "INV-4";
        VStr "INV-5"; VStr "INV-3"]
  /\ getitem (loaded EA_csv) "Document No."
     = Ok [VStr "INV-1"; VStr "INV-2"; VStr "INV-3"; VStr "INV-3"]
  /\ getitem (loaded EA_csv) "Posting_Date"
     = Ok [VTime (mkTimestamp 2024 January 5);
           VTime (mkTimestamp 2024 January 20);
           VTime (mkTimestamp 2024 February 1);
           VTime (mkTimestamp 2024 April 15)].
Proof.
  repeat split; vm_compute; reflexivity.
Qed.

(** *** The coercion of one cell *)

Lemma coercion_gives_number (v : Value) :
  is_number (pd.fillna0 (clean_numeric v)).
Proof.
  apply fillna0_number, clean_numeric_number_or_nan.
Qed.

Lemma coercion_unparsable_is_zero (s : string) :
  parse_decimal
    (list_ascii_of_string (strip (strip (remove_char "," s)))) = None ->
  pd.fillna0 (clean_numeric (VStr s)) = VNum 0.
Proof.
  intros H; simpl; unfold pd.to_numeric; now rewrite H.
Qed.

Lemma coercion_thousands_separator :
  pd.fillna0 (clean_numeric (pd.read_field "1,234.50")) = VNum (2469 # 2)
  /\ (2469 # 2 == 1234.50)%Q.
Proof.
  split; reflexivity.
Qed.

Lemma coercion_not_available :
  pd.fillna0 (clean_numeric (pd.read_field "N/A")) = VNum 0
  /\ pd.fillna0 (clean_numeric (VStr "N/A")) = VNum 0.
Proof.
  split; reflexivity.
Qed.

(** In a column other than the amount, text with a thousands separator
    comes out of the loader as the number. *)
Lemma line_amount_column_coerced :
  getitem (loaded EA_csv) "Line Amount (Qty * Unit Unit_Price) -A"
  = Ok [VNum (2469 # 2); VNum 1500; VNum 0; VNum 0].
Proof.
  vm_compute; reflexivity.
Qed.

(** The loop skips a numeric column the export does not have, but the
    fill of missing values that follows names every numeric column: an
    export without one of them stops the loader. *)
Lemma missing_numeric_column_stops_the_loader :
  exists message, load_data (Some EA_short) = Stopped message.
Proof.
  eexists; vm_compute; reflexivity.
Qed.

(** C5.  The amount column is compared with 1000 before the numeric
    columns are coerced.  When that column holds the text 1,234.50 the
    comparison raises, and the loader stops instead of reading the text
    as 1234.50. *)
Theorem amount_text_stops_the_loader :
  load_data (Some EA_commas)
  = Stopped "Error loading or processing data: '>' not supported between instances of 'str' and 'int'".
Proof.
  vm_compute; reflexivity.
Qed.

(* ================================================================= *)
(** ** The sidebar filters *)

Lemma filter_comm {A : Type} (p q : A -> bool) (l : list A) :
  filter p (filter q l) = filter q (filter p l).
Proof.
  rewrite !filter_filter; apply filter_ext; intros x; apply andb_comm.
Qed.

Lemma has_column_position (df : DataFrame) (c : string) :
  has_column df c = true ->
  get_loc c (columns df) = Some (position (columns df) c).
Proof.
  unfold has_column, position.
  now destruct (get_loc c (columns df)).
Qed.

Lemma date_filter_select (w : Widgets) (cols : list string) (i : nat)
  (vs : list Row) :
  get_loc "Posting_Date" cols = Some i ->
  date_filter w (mkDataFrame cols vs)
  = Ok (mkDataFrame cols (filter (date_criterion w i) vs)).
Proof.
  intros H; unfold date_filter, loc; cbn [columns]; rewrite H.
  cbn [bind]; unfold date_criterion, select; cbn [columns values].
  destruct (date_range w) as [| s [| e [| x l]]];
    rewrite ?filter_true; reflexivity.
Qed.

Lemma multiselect_filter_select (c : string) (selected : list string)
  (cols : list string) (i : nat) (vs : list Row) :
  get_loc c cols = Some i ->
  multiselect_filter c selected (mkDataFrame cols vs)
  = Ok (mkDataFrame cols (filter (choice_criterion selected i) vs)).
Proof.
  intros H; unfold multiselect_filter, loc; cbn [columns]; rewrite H.
  cbn [bind]; unfold choice_criterion, select; cbn [columns values].
  destruct (existsb (String.eqb "All") selected);
    [now rewrite filter_true | reflexivity].
Qed.

Lemma amount_filter_select (w : Widgets) (cols : list string) (i : nat)
  (vs : list Row) :
  get_loc "Final_Line_Amount" cols = Some i ->
  amount_filter w (mkDataFrame cols vs)
  = Ok (mkDataFrame cols
          (filter (fun r => between_amounts (amount_range w) (iloc r i)) vs)).
Proof.
  intros H; unfold amount_filter, loc; cbn [columns]; now rewrite H.
Qed.

Lemma filter_columns_positions (df : DataFrame) :
  forallb (has_column df) filter_columns = true ->
  let cols := columns df in
  get_loc "Posting_Date" cols = Some (position cols "Posting_Date")
  /\ get_loc "Region" cols = Some (position cols "Region")
  /\ get_loc "Product_Group" cols = Some (position cols "Product_Group")
  /\ get_loc "Sales_Channel" cols = Some (position cols "Sales_Channel")
  /\ get_loc "Final_Line_Amount" cols
     = Some (position cols "Final_Line_Amount").
Proof.
  unfold filter_columns; cbn [forallb]; intros H.
  rewrite !andb_true_iff in H.
  destruct H as (H1 & H2 & H3 & H4 & H5 & _).
  repeat split; now apply has_column_position.
Qed.

Lemma filters_are_row_filters (w : Widgets) (df : DataFrame) :
  forallb (has_column df) filter_columns = true ->
  Forall (row_filter (columns df)) (filters w).
Proof.
  intros H; apply filter_columns_positions in H.
  destruct H as (H1 & H2 & H3 & H4 & H5).
  unfold filters.
  repeat constructor; eexists; intros vs.
  - eapply date_filter_select; exact H1.
  - eapply multiselect_filter_select; exact H2.
  - eapply multiselect_filter_select; exact H3.
  - eapply multiselect_filter_select; exact H4.
  - eapply amount_filter_select; exact H5.
Qed.

Lemma apply_filters_Raise (fs : list (DataFrame -> result DataFrame))
  (e : Exn) :
  fold_left (fun acc f => bind acc f) fs (Raise e) = Raise e.
Proof.
  induction fs as [| g fs IH]; simpl; [reflexivity | exact IH].
Qed.

Lemma apply_filters_cons (g : DataFrame -> result DataFrame)
  (fs : list (DataFrame -> result DataFrame)) (df : DataFrame) :
  apply_filters (g :: fs) df = bind (g df) (apply_filters fs).
Proof.
  unfold apply_filters; simpl.
  destruct (g df) as [d | e]; simpl; [reflexivity | apply apply_filters_Raise].
Qed.

(** Row filters can be run in any order. *)
Lemma apply_filters_perm (cols : list string)
  (fs fs' : list (DataFrame -> result DataFrame)) :
  Permutation fs fs' -> Forall (row_filter cols) fs ->
  forall vs, apply_filters fs (mkDataFrame cols vs)
             = apply_filters fs' (mkDataFrame cols vs).
Proof.
  induction 1 as [| g fs fs' Hp IH | g h fs | fs fs' fs'' Hp IH Hp' IH'];
    intros Hall vs.
  - reflexivity.
  - inversion Hall as [| ? ? (p & Hg) Hfs]; subst.
    rewrite !apply_filters_cons, Hg; simpl; now apply IH.
  - inversion Hall as [| ? ? (q & Hh) Hall']; subst.
    inversion Hall' as [| ? ? (p & Hg) Hfs]; subst.
    rewrite !apply_filters_cons, Hh, Hg; simpl.
    rewrite !apply_filters_cons, Hh, Hg; simpl.
    now rewrite filter_comm.
  - rewrite IH by exact Hall.
    apply IH'; eapply Permutation_Forall; eassumption.
Qed.

Lemma keep_nested (cols : list string) (w : Widgets) (vs : list Row) :
  filter (keep cols w) vs
  = filter (fun r => between_amounts (amount_range w)
                       (iloc r (position cols "Final_Line_Amount")))
      (filter (choice_criterion (selected_sales_channels w)
                 (position cols "Sales_Channel"))
         (filter (choice_criterion (selected_product_groups w)
                    (position cols "Product_Group"))
            (filter (choice_criterion (selected_regions w)
                       (position cols "Region"))
               (filter (date_criterion w (position cols "Posting_Date"))
                  vs)))).
Proof.
  rewrite !filter_filter; apply filter_ext; intros r.
  unfold keep; now rewrite !andb_assoc.
Qed.

Lemma apply_filters_values (df : DataFrame) (w : Widgets) :
  forallb (has_column df) filter_columns = true ->
  apply_filters (filters w) df
  = Ok (mkDataFrame (columns df) (filter (keep (columns df) w) (values df))).
Proof.
  intros H; apply filter_columns_positions in H.
  destruct df as [cols vs]; cbn [columns values] in *.
  destruct H as (H1 & H2 & H3 & H4 & H5).
  rewrite keep_nested; unfold filters.
  rewrite apply_filters_cons, (date_filter_select w cols _ vs H1).
  cbn [bind].
  rewrite apply_filters_cons, (multiselect_filter_select "Region" _ _ _ _ H2); cbn [bind].
  rewrite apply_filters_cons, (multiselect_filter_select "Product_Group" _ _ _ _ H3); cbn [bind].
  rewrite apply_filters_cons, (multiselect_filter_select "Sales_Channel" _ _ _ _ H4); cbn [bind].
  rewrite apply_filters_cons, (amount_filter_select w cols _ _ H5).
  reflexivity.
Qed.

(** What the script computes: the rows that meet all five criteria. *)
Lemma filtered_df_values (df : DataFrame) (w : Widgets) :
  forallb (has_column df) filter_columns = true ->
  exists f, filtered_df df w = Ok f
            /\ values f = filter (keep (columns df) w) (values df).
Proof.
  intros H; apply filter_columns_positions in H.
  destruct df as [cols vs]; cbn [columns values] in *.
  destruct H as (H1 & H2 & H3 & H4 & H5).
  rewrite keep_nested; unfold filtered_df.
  destruct cols as [| c0 cols0] eqn:Hcols; [discriminate |].
  rewrite <- Hcols in *.
  assert (Hempty : forall rows, empty (mkDataFrame cols rows)
                                = match rows with [] => true | _ => false end)
    by (intros rows; unfold empty; simpl; rewrite Hcols; reflexivity).
  rewrite Hempty.
  destruct vs as [| r0 vs0] eqn:Hvs; cbn [negb].
  { eexists; split; reflexivity. }
  rewrite <- Hvs; clear Hvs.
  rewrite (date_filter_select w cols _ vs H1); cbn [bind].
  rewrite Hempty.
  destruct (filter (date_criterion w _) vs) as [| r1 vs1] eqn:Hd;
    cbn [negb].
  { eexists; split; reflexivity. }
  rewrite <- Hd.
  rewrite (multiselect_filter_select "Region" _ _ _ _ H2); cbn [bind].
  rewrite (multiselect_filter_select "Product_Group" _ _ _ _ H3);
    cbn [bind].
  rewrite (multiselect_filter_select "Sales_Channel" _ _ _ _ H4);
    cbn [bind].
  replace (has_column _ "Final_Line_Amount") with true
    by (unfold has_column; cbn [columns]; now rewrite H5).
  cbn [values andb].
  destruct (filter (choice_criterion (selected_sales_channels w) _) _)
    as [| r4 vs4] eqn:Hs; cbn [List.length Nat.eqb negb].
  { eexists; split; reflexivity. }
  rewrite (amount_filter_select w cols _ _ H5).
  eexists; split; reflexivity.
Qed.

(** C3.  On a table that has the filtered columns, the five sidebar
    filters run in any order give the rows the script computes: the rows
    that meet every criterion. *)
Theorem filters_commute (df : DataFrame) (w : Widgets)
  (fs : list (DataFrame -> result DataFrame)) :
  forallb (has_column df) filter_columns = true ->
  Permutation fs (filters w) ->
  exists f,
    filtered_df df w = Ok f
    /\ apply_filters fs df = Ok (mkDataFrame (columns df) (values f))
    /\ values f = filter (keep (columns df) w) (values df).
Proof.
  intros Hcols Hperm.
  destruct (filtered_df_values df w Hcols) as (f & Hf & Hvalues).
  exists f; repeat split; [exact Hf | | exact Hvalues].
  rewrite Hvalues, <- apply_filters_values by exact Hcols.
  destruct df as [cols vs]; apply apply_filters_perm; [exact Hperm |].
  eapply Permutation_Forall;
    [apply Permutation_sym; exact Hperm |].
  now apply (filters_are_row_filters w (mkDataFrame cols vs)).
Qed.

Lemma filters_commute_witness :
  exists f,
    filtered_df (loaded EA_csv) north_only = Ok f
    /\ apply_filters (rev (filters north_only)) (loaded EA_csv)
       = Ok (mkDataFrame (columns (loaded EA_csv)) (values f))
    /\ values f
       = filter (keep (columns (loaded EA_csv)) north_only)
           (values (loaded EA_csv)).
Proof.
  apply (filters_commute (loaded EA_csv) north_only
           (rev (filters north_only))).
  - vm_compute; reflexivity.
  - apply Permutation_sym, Permutation_rev.
Defined.

Lemma narrower_choice_sound (sel' sel : list string) (i : nat) (r : Row) :
  narrower_choice sel' sel = true ->
  choice_criterion sel' i r = true -> choice_criterion sel i r = true.
Proof.
  unfold narrower_choice, choice_criterion; intros Hn Hc.
  destruct (existsb (String.eqb "All") sel) eqn:Hall; [reflexivity |].
  simpl in Hn.
  assert (Hsub : forall s, existsb (String.eqb s) sel' = true ->
                           existsb (String.eqb s) sel = true).
  { intros s Hs; apply existsb_exists in Hs as (x & Hx & Heq).
    apply String.eqb_eq in Heq; subst x.
    rewrite forallb_forall in Hn; now apply Hn. }
  destruct (existsb (String.eqb "All") sel') eqn:Hall'.
  - apply Hsub in Hall'; congruence.
  - unfold isin in *; destruct (iloc r i); try discriminate; now apply Hsub.
Qed.

Lemma narrower_dates_sound (w' w : Widgets) (i : nat) (r : Row) :
  narrower_dates (date_range w') (date_range w) = true ->
  date_criterion w' i r = true -> date_criterion w i r = true.
Proof.
  unfold narrower_dates, date_criterion; intros Hn Hc.
  destruct (date_range w) as [| s [| e [| x l]]]; try reflexivity.
  destruct (date_range w') as [| s' [| e' [| x' l']]]; try discriminate.
  unfold between_dates, Timestamp_leb in *.
  destruct (iloc r i); try discriminate.
  rewrite !andb_true_iff, !Z.leb_le in *; lia.
Qed.

Lemma narrower_amounts_sound (a' a : Q * Q) (v : Value) :
  narrower_amounts a' a = true ->
  between_amounts a' v = true -> between_amounts a v = true.
Proof.
  unfold narrower_amounts, between_amounts; intros Hn Hb.
  destruct v; try discriminate.
  rewrite !andb_true_iff, !Qle_bool_iff in *.
  destruct Hn, Hb; split; eapply Qle_trans; eassumption.
Qed.

Lemma stricter_keep (cols : list string) (w' w : Widgets) (r : Row) :
  stricter w' w = true -> keep cols w' r = true -> keep cols w r = true.
Proof.
  unfold stricter, keep; rewrite !andb_true_iff.
  intros ((((Hd & Hr) & Hp) & Hs) & Ha) ((((Kd & Kr) & Kp) & Ks) & Ka).
  repeat split.
  - eapply narrower_dates_sound; eassumption.
  - eapply narrower_choice_sound; eassumption.
  - eapply narrower_choice_sound; eassumption.
  - eapply narrower_choice_sound; eassumption.
  - eapply narrower_amounts_sound; eassumption.
Qed.

(** C4.  On a table that has the filtered columns, the rows of the
    filtered table are rows of the table, and with stricter widgets (a
    date range added or narrowed, a selection added or shrunk, the
    amount range narrowed) the result is a part of the former result
    and has no more rows. *)
Theorem filtering_narrows (df : DataFrame) (w : Widgets) :
  forallb (has_column df) filter_columns = true ->
  exists f,
    filtered_df df w = Ok f
    /\ (forall r, In r (values f) -> In r (values df))
    /\ (List.length (values f) <= List.length (values df))%nat
    /\ forall w', stricter w' w = true ->
         exists f',
           filtered_df df w' = Ok f'
           /\ (forall r, In r (values f') -> In r (values f))
           /\ (List.length (values f') <= List.length (values f))%nat.
Proof.
  intros Hcols.
  destruct (filtered_df_values df w Hcols) as (f & Hf & Hvalues).
  exists f; rewrite Hvalues; repeat split.
  - exact Hf.
  - intros r Hr; now apply filter_In in Hr.
  - apply List.filter_length_le.
  - intros w' Hstrict.
    destruct (filtered_df_values df w' Hcols) as (f' & Hf' & Hvalues').
    exists f'; rewrite Hvalues'; repeat split.
    + exact Hf'.
    + intros r Hr; apply filter_In in Hr as [Hin Hk].
      apply filter_In; split; [exact Hin |].
      eapply stricter_keep; eassumption.
    + apply filter_length_mono; intros r.
      now apply stricter_keep.
Qed.

Lemma filtering_narrows_witness :
  exists f,
    filtered_df (loaded EA_csv) january_2024 = Ok f
    /\ (forall r, In r (values f) -> In r (values (loaded EA_csv)))
    /\ (List.length (values f) <= List.length (values (loaded EA_csv)))%nat
    /\ forall w', stricter w' january_2024 = true ->
         exists f',
           filtered_df (loaded EA_csv) w' = Ok f'
           /\ (forall r, In r (values f') -> In r (values f))
           /\ (List.length (values f') <= List.length (values f))%nat.
Proof.
  apply (filtering_narrows (loaded EA_csv) january_2024).
  vm_compute; reflexivity.
Defined.

(** The stricter widgets of the sample do narrow the result, from the
    two January lines to the one of at most 1000. *)
Lemma stricter_sample :
  stricter north_only january_2024 = true
  /\ (exists f, filtered_df (loaded EA_csv) january_2024 = Ok f
                /\ List.length (values f) = 2%nat)
  /\ (exists f, filtered_df (loaded EA_csv) north_only = Ok f
                /\ List.length (values f) = 1%nat).
Proof.
  split; [vm_compute; reflexivity |].
  split; eexists; split; vm_compute; reflexivity.
Qed.

(** The scenario of the specification: the January lines of the sample
    sum to 2000 for the one region they have, and one of them is over
    1000. *)
Lemma january_scenario :
  (f <- filtered_df (loaded EA_csv) january_2024 ;;
   groupby_sum f "Region" "Final_Line_Amount") = Ok [("North", 2000%Q)]
  /\ (f <- filtered_df (loaded EA_csv) january_2024 ;; sales_over_1000 f)
     = Ok 1%Z.
Proof.
  split; vm_compute; reflexivity.
Qed.

(* ================================================================= *)
(** ** Grouping *)

Lemma groupby_sum_eq (df : DataFrame) (key metric : string) (i j : nat) :
  get_loc key (columns df) = Some i ->
  get_loc metric (columns df) = Some j ->
  groupby_sum df key metric
  = Ok (map (fun k => (k, series_sum
                            (map (fun r => iloc r j)
                                 (filter (has_key i k) (values df)))))
            (group_keys i (values df))).
Proof.
  intros Hi Hj; unfold groupby_sum, groupby, loc.
  rewrite Hi, Hj; cbn [bind]; now rewrite map_map.
Qed.

Lemma group_keys_In (i : nat) (rows : list Row) (k : string) :
  In k (group_keys i rows) <-> existsb (has_key i k) rows = true.
Proof.
  unfold group_keys, sort_keys.
  rewrite sort_by_In, nodup_In, in_flat_map, existsb_exists.
  split; intros (r & Hr & H); exists r; split; try exact Hr;
    unfold has_key in *; destruct (key_of (iloc r i)) as [k' |].
  - destruct H as [-> | []]; apply String.eqb_refl.
  - contradiction.
  - apply String.eqb_eq in H; subst; now left.
  - discriminate.
Qed.

Lemma group_keys_NoDup (i : nat) (rows : list Row) :
  NoDup (group_keys i rows).
Proof.
  unfold group_keys, sort_keys.
  eapply Permutation_NoDup;
    [apply Permutation_sym, sort_by_perm | apply NoDup_nodup].
Qed.

Lemma group_keys_existsb (i : nat) (rows : list Row) (k : string) :
  existsb (String.eqb k) (group_keys i rows) = existsb (has_key i k) rows.
Proof.
  apply Bool.eq_iff_eq_true.
  rewrite <- group_keys_In, existsb_exists; split.
  - intros (x & Hx & Heq); apply String.eqb_eq in Heq; now subst.
  - intros H; exists k; split; [exact H | apply String.eqb_refl].
Qed.

Lemma find_label {B : Type} (g : string -> B) (keys : list string)
  (l : string) :
  find (fun kv => String.eqb (fst kv) l) (map (fun k => (k, g k)) keys)
  = if existsb (String.eqb l) keys then Some (l, g l) else None.
Proof.
  induction keys as [| k keys IH]; cbn [map find existsb fst];
    [reflexivity |].
  rewrite (String.eqb_sym l k).
  destruct (String.eqb_spec k l) as [-> | Hne]; [reflexivity | exact IH].
Qed.

(* ================================================================= *)
(** ** Sales by day of week *)

(** C1, as the code has it.  On a table with the two columns, the sales
    by day of week have one entry for each of the seven days, Monday to
    Sunday, whatever days the table holds: a day with rows carries the
    sum of their amounts, a day without rows carries NaN. *)
Theorem daily_sales_has_seven_days (f : DataFrame) (i j : nat) :
  get_loc "Day_of_Week" (columns f) = Some i ->
  get_loc "Final_Line_Amount" (columns f) = Some j ->
  exists s,
    daily_sales f = Ok s
    /\ map fst s = day_of_week_order
    /\ s = map (fun d =>
                  (d, if existsb (has_key i d) (values f)
                      then VNum (series_sum
                                   (map (fun r => iloc r j)
                                        (filter (has_key i d) (values f))))
                      else VNaN))
               day_of_week_order.
Proof.
  intros Hi Hj; unfold daily_sales.
  rewrite (groupby_sum_eq f _ _ i j Hi Hj); cbn [bind].
  eexists; split; [reflexivity |].
  split; [unfold reindex; rewrite map_map; apply map_id |].
  unfold reindex; apply map_ext; intros d.
  rewrite find_label, group_keys_existsb.
  now destruct (existsb (has_key i d) (values f)).
Qed.

Lemma daily_sales_has_seven_days_witness :
  exists s,
    daily_sales (loaded EA_weekdays) = Ok s
    /\ map fst s = day_of_week_order
    /\ s = map (fun d =>
                  (d, if existsb (has_key 25 d) (values (loaded EA_weekdays))
                      then VNum (series_sum
                                   (map (fun r => iloc r 11)
                                        (filter (has_key 25 d)
                                           (values (loaded EA_weekdays)))))
                      else VNaN))
               day_of_week_order.
Proof.
  apply (daily_sales_has_seven_days (loaded EA_weekdays) 25 11);
    vm_compute; reflexivity.
Defined.

(** C1, as stated, fails: the export with a Wednesday line and a Monday
    line gives seven entries, five of them NaN, and not the two entries
    Monday and Wednesday. *)
Lemma daily_sales_fills_absent_days :
  daily_sales (loaded EA_weekdays)
  = Ok [("Monday", VNum 400); ("Tuesday", VNaN); ("Wednesday", VNum 300);
        ("Thursday", VNaN); ("Friday", VNaN); ("Saturday", VNaN);
        ("Sunday", VNaN)]
  /\ daily_sales (loaded EA_weekdays)
     <> Ok [("Monday", VNum 400); ("Wednesday", VNum 300)].
Proof.
  split; [vm_compute; reflexivity | vm_compute; discriminate].
Qed.

(* ================================================================= *)
(** ** Sales by quarter *)

Lemma code_leb_total (a b : option nat) :
  code_leb a b = true \/ code_leb b a = true.
Proof.
  destruct a as [x |], b as [y |]; simpl; auto.
  destruct (Nat.leb_spec x y); [now left | right].
  apply Nat.leb_le; lia.
Qed.

Lemma code_leb_trans (a b c : option nat) :
  code_leb a b = true -> code_leb b c = true -> code_leb a c = true.
Proof.
  destruct a as [x |], b as [y |], c as [z |]; simpl; try easy.
  rewrite !Nat.leb_le; lia.
Qed.

Lemma code_leb_antisym (a b : option nat) :
  code_leb a b = true -> code_leb b a = true -> a = b.
Proof.
  destruct a as [x |], b as [y |]; simpl; try easy.
  rewrite !Nat.leb_le; intros; f_equal; lia.
Qed.

Lemma StronglySorted_map_filter {A B : Type} (R : B -> B -> Prop)
  (T : A -> B) (p : A -> bool) (l : list A) :
  StronglySorted R (map T l) -> StronglySorted R (map T (filter p l)).
Proof.
  induction l as [| x l IH]; simpl; intros H; [constructor |].
  apply StronglySorted_inv in H as [Hl Hx].
  destruct (p x); simpl; [| now apply IH].
  constructor; [now apply IH |].
  rewrite Forall_forall in *; intros y Hy; apply Hx.
  apply in_map_iff in Hy as (a & <- & Ha).
  apply filter_In in Ha as [Ha _]; now apply in_map.
Qed.

Lemma get_loc_In (c : string) (cols : list string) :
  In c cols -> exists i, get_loc c cols = Some i.
Proof.
  induction cols as [| a cols IH]; simpl; [contradiction |].
  destruct (String.eqb_spec c a) as [-> | Hne]; [now exists O |].
  intros [-> | Hin]; [congruence |].
  destruct (IH Hin) as (i & ->); now exists (S i).
Qed.

(** Sorting on the categorical key lists the groups that are among the
    categories in the order of the categories. *)
Lemma sort_categorical_present (categories keys : list string)
  (g : string -> Q) :
  NoDup categories -> NoDup keys ->
  (forall k, In k keys -> In k categories) ->
  StronglySorted
    (fun x y => code_leb (fst x) (fst y) = true)
    (map (tagged categories g) categories) ->
  sort_categorical categories (map (fun k => (k, g k)) keys)
  = map (fun k => (VStr k, g k))
        (filter (fun c => existsb (String.eqb c) keys) categories).
Proof.
  intros Hcat Hkeys Hsub Hsorted.
  set (present := filter (fun c => existsb (String.eqb c) keys) categories).
  unfold sort_categorical; rewrite map_map; cbn [fst snd].
  change (map _ keys) with (map (tagged categories g) keys).
  assert (Hperm : Permutation keys present).
  { apply NoDup_Permutation; [exact Hkeys | now apply NoDup_filter |].
    intros k; unfold present; rewrite filter_In, existsb_exists; split.
    - intros Hk; split; [now apply Hsub |].
      exists k; split; [exact Hk | apply String.eqb_refl].
    - intros (_ & x & Hx & Heq); apply String.eqb_eq in Heq; now subst. }
  rewrite (sorted_perm_unique (fun x y => code_leb (fst x) (fst y)) _
             (map (tagged categories g) present)).
  - rewrite map_map; apply map_ext_in; intros k Hk.
    apply filter_In in Hk as [Hk _]; unfold tagged, category_code; cbn [snd].
    now destruct (get_loc_In _ _ Hk) as (a & ->).
  - apply sort_by_sorted.
    + intros x y; apply code_leb_total.
    + intros x y z; apply code_leb_trans.
  - now apply StronglySorted_map_filter.
  - eapply Permutation_trans; [apply sort_by_perm |].
    now apply Permutation_map.
  - intros x y Hx Hy Hxy Hyx.
    apply sort_by_In, in_map_iff in Hx as (k1 & <- & Hk1).
    apply sort_by_In, in_map_iff in Hy as (k2 & <- & Hk2).
    pose proof (code_leb_antisym _ _ Hxy Hyx) as Hcode.
    unfold tagged, category_code in *; cbn [fst] in Hcode.
    assert (k1 = k2) as ->; [| reflexivity].
    destruct (get_loc_In _ _ (Hsub _ Hk1)) as (a & H1).
    rewrite H1 in Hcode; symmetry in Hcode.
    eapply get_loc_inj; eassumption.
Qed.

Lemma quarter_order_sorted (g : string -> Q) :
  StronglySorted
    (fun x y => code_leb (fst x) (fst y) = true)
    (map (tagged quarter_order g) quarter_order).
Proof.
  unfold quarter_order, tagged, category_code; cbn [map get_loc String.eqb].
  repeat (constructor; [| repeat constructor]); constructor.
Qed.

Lemma quarter_order_NoDup : NoDup quarter_order.
Proof.
  unfold quarter_order.
  repeat (constructor; [simpl; intuition discriminate |]); constructor.
Qed.

Lemma has_key_isin (labels : list string) (i : nat) (rows : list Row)
  (k : string) :
  forallb (fun r => isin labels (iloc r i)) rows = true ->
  existsb (has_key i k) rows = true -> In k labels.
Proof.
  intros Hall Hk.
  apply existsb_exists in Hk as (r & Hr & Hkey).
  rewrite forallb_forall in Hall; specialize (Hall r Hr).
  unfold has_key, key_of, isin in *.
  destruct (iloc r i); try discriminate.
  apply String.eqb_eq in Hkey; subst.
  apply existsb_exists in Hall as (x & Hx & Heq).
  apply String.eqb_eq in Heq; now subst.
Qed.

(** C8.  On a table whose quarter column holds quarter labels, the sales
    by quarter list the quarters that have rows, in the order Q1, Q2,
    Q3, Q4, each with the sum of its amounts; a quarter without rows
    has no entry. *)
Theorem quarterly_sales_in_order (f : DataFrame) (i j : nat) :
  get_loc "Quarter" (columns f) = Some i ->
  get_loc "Final_Line_Amount" (columns f) = Some j ->
  forallb (fun r => isin quarter_order (iloc r i)) (values f) = true ->
  exists s,
    quarterly_sales f = Ok s
    /\ map fst s
       = map VStr (filter (fun q => existsb (has_key i q) (values f))
                          quarter_order)
    /\ s = map (fun q =>
                  (VStr q, series_sum
                             (map (fun r => iloc r j)
                                  (filter (has_key i q) (values f)))))
               (filter (fun q => existsb (has_key i q) (values f))
                       quarter_order).
Proof.
  intros Hi Hj Hlabels; unfold quarterly_sales.
  rewrite (groupby_sum_eq f _ _ i j Hi Hj); cbn [bind].
  rewrite (sort_categorical_present quarter_order (group_keys i (values f))
             (fun k => series_sum
                         (map (fun r => iloc r j)
                              (filter (has_key i k) (values f))))).
  - rewrite (filter_ext _ (fun q => existsb (has_key i q) (values f)))
      by (intros q; apply group_keys_existsb).
    eexists; split; [reflexivity |].
    split; [now rewrite map_map | reflexivity].
  - apply quarter_order_NoDup.
  - apply group_keys_NoDup.
  - intros k Hk; apply group_keys_In in Hk.
    eapply has_key_isin; eassumption.
  - apply quarter_order_sorted.
Qed.

Lemma quarterly_sales_in_order_witness :
  exists s,
    quarterly_sales (loaded EA_quarters) = Ok s
    /\ map fst s
       = map VStr
           (filter (fun q => existsb (has_key 26 q)
                               (values (loaded EA_quarters)))
                   quarter_order)
    /\ s = map (fun q =>
                  (VStr q, series_sum
                             (map (fun r => iloc r 11)
                                  (filter (has_key 26 q)
                                     (values (loaded EA_quarters))))))
               (filter (fun q => existsb (has_key 26 q)
                                   (values (loaded EA_quarters)))
                       quarter_order).
Proof.
  apply (quarterly_sales_in_order (loaded EA_quarters) 26 11);
    vm_compute; reflexivity.
Defined.

(** The export with a third-quarter line and then a first-quarter line
    gives Q1 and then Q3. *)
Lemma quarterly_sales_sample :
  quarterly_sales (loaded EA_quarters)
  = Ok [(VStr "Q1", 400%Q); (VStr "Q3", 300%Q)].
Proof.
  vm_compute; reflexivity.
Qed.

(* ================================================================= *)
(** ** Tables without rows *)

Lemma has_column_loc (df : DataFrame) (c : string) :
  has_column df c = true -> exists i, get_loc c (columns df) = Some i.
Proof.
  unfold has_column; destruct (get_loc c (columns df)) as [i |];
    [now exists i | discriminate].
Qed.

(** C9.  An aggregation of a table without rows raises nothing and is
    the empty sequence, whatever the key, the metric and the reducer:
    the sum, the mean, the N largest, the quarters in their order, the
    months.  The script meets such tables in two ways.  A filtered table
    without rows is not aggregated at all: a notice is shown.  And when
    no row of a table is over 1000, the two charts of the rows over 1000
    aggregate a table without rows, and are empty. *)
Theorem aggregates_of_empty_table (f : DataFrame) (key metric : string) :
  values f = [] ->
  has_column f key = true ->
  has_column f metric = true ->
  groupby_sum f key metric = Ok []
  /\ groupby_mean f key metric = Ok []
  /\ (forall n, (s <- groupby_sum f key metric ;; Ok (nlargest n s)) = Ok [])
  /\ (s <- groupby_sum f key metric ;; Ok (sort_categorical quarter_order s))
     = Ok []
  /\ (has_column f "Posting_Date" = true ->
      has_column f "Final_Line_Amount" = true ->
      monthly_sales f = Ok [])
  /\ (forall (A : Type) (tabs : DataFrame -> result A),
        exists notice, dashboard tabs f = Ok (inl notice))
  /\ (forall g, high_value g = Ok f ->
        (h <- high_value g ;; groupby_sum h key metric) = Ok []
        /\ (h <- high_value g ;; s <- groupby_sum h key metric ;;
            Ok (nlargest 10 s)) = Ok []).
Proof.
  intros Hrows Hkey Hmetric.
  destruct (has_column_loc _ _ Hkey) as (i & Hi).
  destruct (has_column_loc _ _ Hmetric) as (j & Hj).
  assert (Hsum : groupby_sum f key metric = Ok []).
  { rewrite (groupby_sum_eq f _ _ i j Hi Hj), Hrows; reflexivity. }
  rewrite Hsum; repeat split.
  - unfold groupby_mean, groupby, loc; rewrite Hi, Hj, Hrows; reflexivity.
  - intros n; cbn [bind]; unfold nlargest; now destruct n.
  - intros Hd Ha.
    destruct (has_column_loc _ _ Hd) as (d & Hd').
    destruct (has_column_loc _ _ Ha) as (a & Ha').
    unfold monthly_sales, getitem, loc; rewrite Hd', Ha', Hrows; reflexivity.
  - intros A tabs; unfold dashboard, empty; rewrite Hrows.
    destruct (columns f); eexists; reflexivity.
  - rewrite H; cbn [bind]; exact Hsum.
  - rewrite H; cbn [bind]; rewrite Hsum; reflexivity.
Qed.

Lemma aggregates_of_empty_table_witness :
  let f := mkDataFrame (columns (loaded EA_weekdays)) [] in
  groupby_sum f "Region" "Final_Line_Amount" = Ok []
  /\ groupby_mean f "Region" "Final_Line_Amount" = Ok []
  /\ (forall n, (s <- groupby_sum f "Region" "Final_Line_Amount" ;;
                 Ok (nlargest n s)) = Ok [])
  /\ (s <- groupby_sum f "Region" "Final_Line_Amount" ;;
      Ok (sort_categorical quarter_order s)) = Ok []
  /\ (has_column f "Posting_Date" = true ->
      has_column f "Final_Line_Amount" = true ->
      monthly_sales f = Ok [])
  /\ (forall (A : Type) (tabs : DataFrame -> result A),
        exists notice, dashboard tabs f = Ok (inl notice))
  /\ (forall g, high_value g = Ok f ->
        (h <- high_value g ;; groupby_sum h "Region" "Final_Line_Amount")
        = Ok []
        /\ (h <- high_value g ;;
            s <- groupby_sum h "Region" "Final_Line_Amount" ;;
            Ok (nlargest 10 s)) = Ok []).
Proof.
  apply (aggregates_of_empty_table
           (mkDataFrame (columns (loaded EA_weekdays)) [])
           "Region" "Final_Line_Amount");
    vm_compute; reflexivity.
Defined.

(** The frame the script makes when nothing was loaded has no columns:
    grouping it raises, which is why the script guards the tabs. *)
Lemma groupby_of_frame_without_columns (key metric : string) :
  groupby_sum (mkDataFrame [] []) key metric = Raise (KeyError key)
  /\ forall (A : Type) (tabs : DataFrame -> result A),
       exists notice, dashboard tabs (mkDataFrame [] []) = Ok (inl notice).
Proof.
  split; [reflexivity | intros; eexists; reflexivity].
Qed.

(** The export of two lines under 1000 is such a table: its rows over
    1000 are the table without rows of the statement above, and the
    chart of the sales over 1000 by region is empty. *)
Lemma no_row_over_1000 :
  high_value (loaded EA_weekdays)
  = Ok (mkDataFrame (columns (loaded EA_weekdays)) [])
  /\ empty (loaded EA_weekdays) = false
  /\ high_value_region_sales (loaded EA_weekdays) = Ok []
  /\ high_value_product_sales (loaded EA_weekdays) = Ok [].
Proof.
  split; [vm_compute; reflexivity |].
  split; [vm_compute; reflexivity |].
  split; vm_compute; reflexivity.
Qed.

(* ================================================================= *)
(** ** The largest groups *)

Lemma Ascii_compare_refl (a : ascii) : Ascii.compare a a = Eq.
Proof.
  unfold Ascii.compare; apply N.compare_refl.
Qed.

Lemma String_compare_refl (s : string) : String.compare s s = Eq.
Proof.
  induction s as [| a s IH]; simpl; [reflexivity |].
  now rewrite Ascii_compare_refl.
Qed.

Lemma Ascii_compare_lt_trans (a b c : ascii) :
  Ascii.compare a b = Lt -> Ascii.compare b c = Lt -> Ascii.compare a c = Lt.
Proof.
  unfold Ascii.compare; rewrite !N.compare_lt_iff; apply N.lt_trans.
Qed.

Lemma String_compare_lt_trans (s1 s2 s3 : string) :
  String.compare s1 s2 = Lt -> String.compare s2 s3 = Lt ->
  String.compare s1 s3 = Lt.
Proof.
  revert s2 s3; induction s1 as [| a1 s1 IH]; intros [| a2 s2] [| a3 s3];
    simpl; try easy.
  destruct (Ascii.compare a1 a2) eqn:H12; try discriminate;
    destruct (Ascii.compare a2 a3) eqn:H23; try discriminate; intros K1 K2.
  - apply Ascii.compare_eq_iff in H12, H23; subst.
    rewrite Ascii_compare_refl; eapply IH; eassumption.
  - apply Ascii.compare_eq_iff in H12; subst; now rewrite H23.
  - apply Ascii.compare_eq_iff in H23; subst; now rewrite H12.
  - now rewrite (Ascii_compare_lt_trans _ _ _ H12 H23).
Qed.

Lemma String_leb_trans (s1 s2 s3 : string) :
  String.leb s1 s2 = true -> String.leb s2 s3 = true ->
  String.leb s1 s3 = true.
Proof.
  unfold String.leb.
  destruct (String.compare s1 s2) eqn:H12; try discriminate;
    destruct (String.compare s2 s3) eqn:H23; try discriminate; intros _ _.
  - apply String.compare_eq_iff in H12, H23; subst.
    now rewrite String_compare_refl.
  - apply String.compare_eq_iff in H12; subst; now rewrite H23.
  - apply String.compare_eq_iff in H23; subst; now rewrite H12.
  - now rewrite (String_compare_lt_trans _ _ _ H12 H23).
Qed.

(** The groups come in ascending order of their keys, each key once. *)
Lemma group_keys_sorted (i : nat) (rows : list Row) :
  StronglySorted (fun a b => String.leb a b = true) (group_keys i rows).
Proof.
  unfold group_keys, sort_keys; apply sort_by_sorted.
  - apply String.leb_total.
  - apply String_leb_trans.
Qed.

Lemma value_geb_total (x y : string * Q) :
  value_geb x y = true \/ value_geb y x = true.
Proof.
  unfold value_geb; rewrite !Qle_bool_iff.
  destruct (Qlt_le_dec (snd x) (snd y)) as [H | H];
    [right; now apply Qlt_le_weak | now left].
Qed.

Lemma value_geb_trans (x y z : string * Q) :
  value_geb x y = true -> value_geb y z = true -> value_geb x z = true.
Proof.
  unfold value_geb; rewrite !Qle_bool_iff; intros H1 H2.
  eapply Qle_trans; eassumption.
Qed.

Lemma same_value_stable (v : Q) (x y : string * Q) :
  same_value v x = true -> value_geb x y = false -> same_value v y = false.
Proof.
  unfold same_value, value_geb; intros Hx Hxy.
  apply Qeq_bool_iff in Hx.
  destruct (Qeq_bool (snd y) v) eqn:Hy; [| reflexivity].
  apply Qeq_bool_iff in Hy.
  assert (Hle : (snd y <= snd x)%Q) by (rewrite Hx, Hy; apply Qle_refl).
  apply Qle_bool_iff in Hle; congruence.
Qed.

(** What [nlargest] does with any series. *)
Lemma nlargest_spec (n : nat) (s : list (string * Q)) :
  (List.length (nlargest n s) <= n)%nat
  /\ (forall x, In x (nlargest n s) -> In x s)
  /\ (forall x y, In x (nlargest n s) -> In y s -> ~ In y (nlargest n s) ->
                  (snd y <= snd x)%Q)
  /\ (forall v, exists later,
        filter (same_value v) s
        = filter (same_value v) (nlargest n s) ++ later).
Proof.
  unfold nlargest, sort_values_desc; repeat split.
  - apply firstn_le_length.
  - intros x Hx; apply (sort_by_In value_geb).
    rewrite <- (firstn_skipn n (sort_by value_geb s)).
    apply in_or_app; now left.
  - intros x y Hx Hy Hnot.
    apply Qle_bool_iff; change (value_geb x y = true).
    apply (sorted_firstn_skipn value_geb n (sort_by value_geb s)).
    + apply sort_by_sorted; [apply value_geb_total | apply value_geb_trans].
    + exact Hx.
    + apply (sort_by_In value_geb) in Hy.
      rewrite <- (firstn_skipn n (sort_by value_geb s)) in Hy.
      apply in_app_or in Hy as [Hy | Hy]; [contradiction | exact Hy].
  - intros v; exists (filter (same_value v) (skipn n (sort_by value_geb s))).
    rewrite <- filter_firstn_prefix.
    symmetry; apply filter_sort_by; apply same_value_stable.
Qed.

Lemma StronglySorted_map {A B : Type} (R : B -> B -> Prop) (T : A -> B)
  (l : list A) :
  StronglySorted R (map T l) ->
  StronglySorted (fun x y => R (T x) (T y)) l.
Proof.
  induction l as [| x l IH]; simpl; intros H; [constructor |].
  apply StronglySorted_inv in H as [Hl Hx].
  constructor; [now apply IH |].
  rewrite Forall_forall in *; intros y Hy; apply Hx; now apply in_map.
Qed.

Lemma StronglySorted_filter {A : Type} (R : A -> A -> Prop) (p : A -> bool)
  (l : list A) :
  StronglySorted R l -> StronglySorted R (filter p l).
Proof.
  induction 1 as [| x l Hl IH Hx]; simpl; [constructor |].
  destruct (p x); [| exact IH].
  constructor; [exact IH |].
  rewrite Forall_forall in *; intros y Hy; apply Hx.
  now apply filter_In in Hy.
Qed.

Lemma StronglySorted_app_order {A : Type} (R : A -> A -> Prop)
  (l1 l2 : list A) :
  StronglySorted R (l1 ++ l2) ->
  forall x y, In x l1 -> In y l2 -> R x y.
Proof.
  induction l1 as [| a l1 IH]; simpl; intros H x y Hx Hy; [contradiction |].
  apply StronglySorted_inv in H as [Hl Ha].
  destruct Hx as [<- | Hx]; [| now apply IH].
  rewrite Forall_forall in Ha; apply Ha, in_or_app; now right.
Qed.

(** Among tied groups, the one that comes first in the series is taken
    first. *)
Lemma ties_go_to_the_first {A : Type} (R : A -> A -> Prop) (P : A -> bool)
  (s top later : list A) :
  StronglySorted R s ->
  filter P s = filter P top ++ later ->
  forall x y, In x s -> P x = true -> In y top -> P y = true ->
              ~ R y x -> In x top.
Proof.
  intros Hsorted Hsplit x y Hx HPx Hy HPy Hnot.
  assert (Hin : In x (filter P s)) by (apply filter_In; now split).
  rewrite Hsplit in Hin; apply in_app_or in Hin as [Hin | Hin].
  - now apply filter_In in Hin.
  - exfalso; apply Hnot.
    apply (StronglySorted_app_order R (filter P top) later).
    + rewrite <- Hsplit; now apply StronglySorted_filter.
    + apply filter_In; now split.
    + exact Hin.
Qed.

(** C7, as the code has it.  For a table, a group key, a metric and a
    number N, the N largest of the group sums are at most N entries,
    each at least as large as every group left out; the groups come in
    ascending order of their keys, and among groups with equal sums the
    ones whose keys come first are the ones taken. *)
Theorem nlargest_of_groups (f : DataFrame) (key metric : string)
  (n i j : nat) :
  get_loc key (columns f) = Some i ->
  get_loc metric (columns f) = Some j ->
  exists s,
    groupby_sum f key metric = Ok s
    /\ (s <- groupby_sum f key metric ;; Ok (nlargest n s))
       = Ok (nlargest n s)
    /\ (List.length (nlargest n s) <= n)%nat
    /\ (forall x, In x (nlargest n s) -> In x s)
    /\ (forall x y, In x (nlargest n s) -> In y s ->
                    ~ In y (nlargest n s) -> (snd y <= snd x)%Q)
    /\ StronglySorted (fun a b => String.leb a b = true) (map fst s)
    /\ NoDup (map fst s)
    /\ (forall v, exists later,
          filter (same_value v) s
          = filter (same_value v) (nlargest n s) ++ later)
    /\ (forall x y, In x s -> In y (nlargest n s) ->
                    (snd x == snd y)%Q -> String.ltb (fst x) (fst y) = true ->
                    In x (nlargest n s)).
Proof.
  intros Hi Hj.
  rewrite (groupby_sum_eq f _ _ i j Hi Hj); cbn [bind].
  set (s := map _ (group_keys i (values f))).
  assert (Hkeys : map fst s = group_keys i (values f))
    by (unfold s; rewrite map_map; apply map_id).
  destruct (nlargest_spec n s) as (Hlen & Hsub & Hmax & Hstable).
  exists s; repeat split; try assumption.
  - rewrite Hkeys; apply group_keys_sorted.
  - rewrite Hkeys; apply group_keys_NoDup.
  - intros x y Hx Hy Heq Hlt.
    destruct (Hstable (snd y)) as (later & Hsplit).
    apply (ties_go_to_the_first
             (fun a b => String.leb (fst a) (fst b) = true)
             (same_value (snd y)) s (nlargest n s) later) with (y := y).
    + apply (StronglySorted_map (fun a b => String.leb a b = true) fst).
      rewrite Hkeys; apply group_keys_sorted.
    + exact Hsplit.
    + exact Hx.
    + now apply Qeq_bool_iff.
    + exact Hy.
    + apply Qeq_bool_iff; reflexivity.
    + unfold String.leb, String.ltb in *.
      rewrite String.compare_antisym.
      destruct (String.compare (fst x) (fst y)); easy.
Qed.

Lemma nlargest_of_groups_witness :
  exists s,
    groupby_sum (loaded EA_csv) "Product_Group" "Final_Line_Amount" = Ok s
    /\ (s <- groupby_sum (loaded EA_csv) "Product_Group"
               "Final_Line_Amount" ;; Ok (nlargest 2 s))
       = Ok (nlargest 2 s)
    /\ (List.length (nlargest 2 s) <= 2)%nat
    /\ (forall x, In x (nlargest 2 s) -> In x s)
    /\ (forall x y, In x (nlargest 2 s) -> In y s ->
                    ~ In y (nlargest 2 s) -> (snd y <= snd x)%Q)
    /\ StronglySorted (fun a b => String.leb a b = true) (map fst s)
    /\ NoDup (map fst s)
    /\ (forall v, exists later,
          filter (same_value v) s
          = filter (same_value v) (nlargest 2 s) ++ later)
    /\ (forall x y, In x s -> In y (nlargest 2 s) ->
                    (snd x == snd y)%Q -> String.ltb (fst x) (fst y) = true ->
                    In x (nlargest 2 s)).
Proof.
  apply (nlargest_of_groups (loaded EA_csv) "Product_Group"
           "Final_Line_Amount" 2 3 11);
    vm_compute; reflexivity.
Defined.

Lemma product_sales_is_nlargest (f : DataFrame) :
  product_sales f
  = (s <- groupby_sum f "Product_Group" "Final_Line_Amount" ;;
     Ok (nlargest 10 s))
  /\ top_customers f
     = (s <- groupby_sum f "Customer_Name" "Final_Line_Amount" ;;
        Ok (nlargest 15 s)).
Proof.
  split; reflexivity.
Qed.

(** C7, as stated, fails on ties: of eleven product groups with equal
    sums the ten whose keys come first are returned, and the group met
    first in the table, [K], is the one left out. *)
Lemma first_met_group_is_left_out :
  getitem (loaded EA_eleven) "Product_Group"
  = Ok [VStr "K"; VStr "A"; VStr "B"; VStr "C"; VStr "D"; VStr "E";
        VStr "F"; VStr "G"; VStr "H"; VStr "I"; VStr "J"]
  /\ product_sales (loaded EA_eleven)
     = Ok [("A", 500%Q); ("B", 500%Q); ("C", 500%Q); ("D", 500%Q);
           ("E", 500%Q); ("F", 500%Q); ("G", 500%Q); ("H", 500%Q);
           ("I", 500%Q); ("J", 500%Q)]
  /\ (s <- groupby_sum (loaded EA_ties) "Product_Group"
             "Final_Line_Amount" ;; Ok (nlargest 1 s))
     = Ok [("Bags", 500%Q)]
  /\ getitem (loaded EA_ties) "Product_Group"
     = Ok [VStr "Shoes"; VStr "Bags"].
Proof.
  repeat split; vm_compute; reflexivity.
Qed.

(* ================================================================= *)
(** ** The monthly trend *)

Local Open Scope Z_scope.

Lemma div_mod_12 (y k : Z) :
  0 <= k < 12 -> (y * 12 + k) / 12 = y /\ (y * 12 + k) mod 12 = k.
Proof.
  intros Hk; Z.div_mod_to_equations; lia.
Qed.

Lemma month_end_at (y : Z) (m : Month) :
  month_end (y * 12 + (month_number m - 1))
  = mkTimestamp y m (days_in_month y m).
Proof.
  unfold month_end.
  assert (Hk : 0 <= month_number m - 1 < 12) by (destruct m; cbn; lia).
  destruct (div_mod_12 y _ Hk) as [-> ->].
  replace (month_number m - 1 + 1) with (month_number m) by lia.
  now destruct m.
Qed.

Lemma ordinal_split (o : Z) :
  exists y m, o = y * 12 + (month_number m - 1).
Proof.
  exists (o / 12).
  assert (Hk : 0 <= o mod 12 < 12) by (apply Z.mod_pos_bound; lia).
  assert (Ho : o = o / 12 * 12 + o mod 12)
    by (rewrite Z.mul_comm; apply Z.div_mod; lia).
  assert (Hcases : o mod 12 = 0 \/ o mod 12 = 1 \/ o mod 12 = 2
                   \/ o mod 12 = 3 \/ o mod 12 = 4 \/ o mod 12 = 5
                   \/ o mod 12 = 6 \/ o mod 12 = 7 \/ o mod 12 = 8
                   \/ o mod 12 = 9 \/ o mod 12 = 10 \/ o mod 12 = 11)
    by lia.
  destruct Hcases as [H | [H | [H | [H | [H | [H | [H | [H | [H | [H | [H
    | H]]]]]]]]]]];
    [exists January | exists February | exists March | exists April
     | exists May | exists June | exists July | exists August
     | exists September | exists October | exists November
     | exists December];
    cbn [month_number]; lia.
Qed.

Lemma month_ordinal_month_end (o : Z) : month_ordinal (month_end o) = o.
Proof.
  destruct (ordinal_split o) as (y & m & ->).
  rewrite month_end_at; reflexivity.
Qed.

Lemma next_ordinal (y : Z) (m : Month) :
  y * 12 + (month_number m - 1) + 1
  = fst (next_month y m) * 12 + (month_number (snd (next_month y m)) - 1).
Proof.
  destruct m; cbn; lia.
Qed.

(** The day after the last day of a month is the first of the next. *)
Lemma month_rolls_over (y : Z) (m : Month) :
  days_from_civil (mkTimestamp y m (days_in_month y m)) + 1
  = days_from_civil
      (mkTimestamp (fst (next_month y m)) (snd (next_month y m)) 1).
Proof.
  assert (Hy : y + 1 - 1 = y) by lia.
  destruct m; unfold days_from_civil, days_in_month, is_leap;
    cbn -[Z.div Z.modulo Z.mul Z.add Z.sub]; rewrite ?Hy;
    try (Z.div_mod_to_equations; lia).
  destruct (y mod 4 =? 0) eqn:H4; destruct (y mod 100 =? 0) eqn:H100;
    destruct (y mod 400 =? 0) eqn:H400; cbn [andb negb orb];
    rewrite ?Z.eqb_eq, ?Z.eqb_neq in *; Z.div_mod_to_equations; lia.
Qed.

Lemma days_in_month_pos (y : Z) (m : Month) : 1 <= days_in_month y m.
Proof.
  destruct m; cbn; try lia; destruct (is_leap y); lia.
Qed.

Lemma days_from_civil_day (y : Z) (m : Month) (d d' : Z) :
  days_from_civil (mkTimestamp y m d') - days_from_civil (mkTimestamp y m d)
  = d' - d.
Proof.
  unfold days_from_civil; cbn [year month day]; lia.
Qed.

Lemma month_end_lt_next (o : Z) :
  days_from_civil (month_end o) < days_from_civil (month_end (o + 1)).
Proof.
  destruct (ordinal_split o) as (y & m & ->).
  rewrite next_ordinal, !month_end_at.
  pose proof (month_rolls_over y m) as Hroll.
  destruct (next_month y m) as [y' m']; cbn [fst snd] in *.
  pose proof (days_in_month_pos y' m') as Hpos.
  pose proof (days_from_civil_day y' m' 1 (days_in_month y' m')) as Hday.
  lia.
Qed.

Lemma month_end_mono (o1 o2 : Z) :
  o1 < o2 ->
  days_from_civil (month_end o1) < days_from_civil (month_end o2).
Proof.
  intros Hlt.
  replace o2 with (o1 + 1 + Z.of_nat (Z.to_nat (o2 - o1 - 1))) by lia.
  induction (Z.to_nat (o2 - o1 - 1)) as [| n IH].
  - rewrite Z.add_0_r; apply month_end_lt_next.
  - eapply Z.lt_trans; [exact IH |].
    replace (o1 + 1 + Z.of_nat (S n)) with (o1 + 1 + Z.of_nat n + 1) by lia.
    apply month_end_lt_next.
Qed.

Lemma months_from_In (n : nat) :
  forall lo o, In o (months_from lo n) <-> lo <= o < lo + Z.of_nat n.
Proof.
  induction n as [| n IH]; intros lo o; simpl months_from.
  - simpl; lia.
  - simpl In; rewrite IH; lia.
Qed.

Lemma months_from_sorted (n : nat) :
  forall lo, StronglySorted Z.lt (months_from lo n).
Proof.
  induction n as [| n IH]; intros lo; simpl; constructor; [apply IH |].
  apply Forall_forall; intros o Ho; apply months_from_In in Ho; lia.
Qed.

Lemma month_range_In (lo hi o : Z) :
  In o (month_range lo hi) <-> lo <= o <= hi.
Proof.
  unfold month_range; rewrite months_from_In; lia.
Qed.

Lemma fold_min_spec (os : list Z) :
  forall o, In (fold_left Z.min os o) (o :: os)
            /\ forall x, In x (o :: os) -> fold_left Z.min os o <= x.
Proof.
  induction os as [| a os IH]; intros o; simpl fold_left.
  - split; [now left | intros x [<- | []]; lia].
  - destruct (IH (Z.min o a)) as [Hin Hle]; split.
    + destruct Hin as [Hin | Hin]; [| right; now right].
      rewrite <- Hin; destruct (Z.min_spec o a) as [[_ ->] | [_ ->]];
        [now left | right; now left].
    + intros x [<- | [<- | Hx]].
      * specialize (Hle (Z.min o a) (or_introl eq_refl)); lia.
      * specialize (Hle (Z.min o a) (or_introl eq_refl)); lia.
      * apply Hle; now right.
Qed.

Lemma fold_max_spec (os : list Z) :
  forall o, In (fold_left Z.max os o) (o :: os)
            /\ forall x, In x (o :: os) -> x <= fold_left Z.max os o.
Proof.
  induction os as [| a os IH]; intros o; simpl fold_left.
  - split; [now left | intros x [<- | []]; lia].
  - destruct (IH (Z.max o a)) as [Hin Hle]; split.
    + destruct Hin as [Hin | Hin]; [| right; now right].
      rewrite <- Hin; destruct (Z.max_spec o a) as [[_ ->] | [_ ->]];
        [right; now left | now left].
    + intros x [<- | [<- | Hx]].
      * specialize (Hle (Z.max o a) (or_introl eq_refl)); lia.
      * specialize (Hle (Z.max o a) (or_introl eq_refl)); lia.
      * apply Hle; now right.
Qed.

Lemma datetime_index_dated (d a : nat) (rows : list Row) :
  forallb (fun r => datetime_cell (iloc r d)) rows = true ->
  datetime_index (map (fun r => iloc r d) rows) (map (fun r => iloc r a) rows)
  = Ok (dated_rows d a rows).
Proof.
  unfold datetime_index, dated_rows; intros Hall.
  rewrite flat_map_concat_map.
  match goal with
  | |- bind ?m _ = _ =>
      assert (Hm : m = Ok (map (fun r => match iloc r d with
                                          | VTime t => [(t, iloc r a)]
                                          | _ => []
                                          end) rows))
  end.
  { induction rows as [| r rows IH]; [reflexivity |].
    cbn [forallb] in Hall; apply andb_prop in Hall as [Hr Hall].
    cbn [map combine mapM fst snd]; rewrite (IH Hall).
    destruct (iloc r d); try discriminate; reflexivity. }
  now rewrite Hm.
Qed.

Lemma filter_none {A : Type} (p : A -> bool) (l : list A) :
  (forall x, In x l -> p x = false) -> filter p l = [].
Proof.
  induction l as [| x l IH]; simpl; intros H; [reflexivity |].
  rewrite (H x (or_introl eq_refl)); apply IH; auto.
Qed.

Lemma StronglySorted_map_intro {A B : Type} (R : B -> B -> Prop)
  (T : A -> B) (l : list A) :
  StronglySorted (fun x y => R (T x) (T y)) l ->
  StronglySorted R (map T l).
Proof.
  induction 1 as [| x l Hl IH Hx]; simpl; constructor; [exact IH |].
  rewrite Forall_forall in *; intros y Hy.
  apply in_map_iff in Hy as (a & <- & Ha); auto.
Qed.

Lemma StronglySorted_weaken {A : Type} (R R' : A -> A -> Prop)
  (l : list A) :
  (forall x y, R x y -> R' x y) ->
  StronglySorted R l -> StronglySorted R' l.
Proof.
  intros HR; induction 1 as [| x l Hl IH Hx]; constructor; [exact IH |].
  eapply Forall_impl; [| exact Hx]; auto.
Qed.

(** What [resample('M').sum()] does with any dated entries. *)
Lemma resample_M_sum_spec (entries : list (Timestamp * Value)) :
  let s := resample_M_sum entries in
  let ord (t : Timestamp) := month_ordinal t in
  (entries = [] -> s = [])
  /\ (forall e, In e entries ->
        exists q, In (month_end (ord (fst e)), q) s)
  /\ (exists lo hi,
        map (fun x => ord (fst x)) s = month_range lo hi
        /\ (entries <> [] ->
            (exists e, In e entries /\ ord (fst e) = lo)
            /\ (exists e, In e entries /\ ord (fst e) = hi)))
  /\ (forall x, In x s ->
        fst x = month_end (ord (fst x))
        /\ snd x = series_sum
                     (map snd
                        (filter (fun e => ord (fst e) =? ord (fst x))
                                entries)))
  /\ (forall x, In x s ->
        (forall e, In e entries -> ord (fst e) <> ord (fst x)) ->
        snd x = 0%Q)
  /\ StronglySorted
       (fun x y => days_from_civil (fst x) < days_from_civil (fst y)) s.
Proof.
  cbv zeta.
  assert (Hsum : forall x,
             In x (resample_M_sum entries) ->
             fst x = month_end (month_ordinal (fst x))
             /\ snd x = series_sum
                          (map snd
                             (filter (fun e => month_ordinal (fst e)
                                               =? month_ordinal (fst x))
                                     entries))).
  { unfold resample_M_sum.
    destruct (map _ entries) as [| o os]; [intros x [] |].
    intros x Hx; apply in_map_iff in Hx as (k & <- & _); cbn [fst snd].
    now rewrite month_ordinal_month_end. }
  destruct entries as [| e0 es] eqn:Hentries.
  { cbn; repeat split; try easy; try constructor.
    exists 0, (-1); split; [reflexivity | congruence]. }
  rewrite <- Hentries in *.
  assert (Hne : entries <> []) by (rewrite Hentries; discriminate).
  unfold resample_M_sum in *.
  destruct (map (fun e => month_ordinal (fst e)) entries) as [| o os] eqn:Hmap.
  { rewrite Hentries in Hmap; discriminate. }
  cbv zeta in *.
  destruct (fold_min_spec os o) as [Hlo_in Hlo].
  destruct (fold_max_spec os o) as [Hhi_in Hhi].
  set (lo := fold_left Z.min os o) in *.
  set (hi := fold_left Z.max os o) in *.
  assert (Hord : forall e, In e entries ->
                           In (month_ordinal (fst e)) (o :: os)).
  { intros e He; rewrite <- Hmap.
    apply (in_map (fun e => month_ordinal (fst e))); exact He. }
  repeat split.
  - intros; congruence.
  - intros e He; eexists.
    apply in_map_iff; exists (month_ordinal (fst e)); split; [reflexivity |].
    apply month_range_In; split; [apply Hlo | apply Hhi]; now apply Hord.
  - exists lo, hi; split.
    + rewrite map_map; cbn [fst].
      rewrite (map_ext _ (fun x => x)) by apply month_ordinal_month_end.
      apply map_id.
    + intros _; split.
      * rewrite <- Hmap in Hlo_in.
        apply in_map_iff in Hlo_in as (e & He & Hin); now exists e.
      * rewrite <- Hmap in Hhi_in.
        apply in_map_iff in Hhi_in as (e & He & Hin); now exists e.
  - apply Hsum; assumption.
  - apply Hsum; assumption.
  - intros x Hx Habsent.
    destruct (Hsum x Hx) as [_ ->].
    rewrite filter_none; [reflexivity |].
    intros e He; apply Z.eqb_neq; now apply Habsent.
  - apply StronglySorted_map_intro; cbn [fst].
    eapply StronglySorted_weaken; [| apply months_from_sorted].
    intros x y; apply month_end_mono.
Qed.

(** C2, as the code has it.  On a table with a date column and an amount
    column, the monthly trend has one entry, labelled with the month end,
    for every calendar month from the earliest to the latest month that
    has rows, in chronological order; each entry carries the sum of the
    amounts of the rows of its month, which is 0 for a month of that
    span without rows. *)
Theorem monthly_sales_fills_the_span (f : DataFrame) (d a : nat) :
  get_loc "Posting_Date" (columns f) = Some d ->
  get_loc "Final_Line_Amount" (columns f) = Some a ->
  forallb (fun r => datetime_cell (iloc r d)) (values f) = true ->
  let entries := dated_rows d a (values f) in
  let ord (t : Timestamp) := month_ordinal t in
  exists s,
    monthly_sales f = Ok s
    /\ (entries = [] -> s = [])
    /\ (forall e, In e entries ->
          exists q, In (month_end (ord (fst e)), q) s)
    /\ (exists lo hi,
          map (fun x => ord (fst x)) s = month_range lo hi
          /\ (entries <> [] ->
              (exists e, In e entries /\ ord (fst e) = lo)
              /\ (exists e, In e entries /\ ord (fst e) = hi)))
    /\ (forall x, In x s ->
          fst x = month_end (ord (fst x))
          /\ snd x = series_sum
                       (map snd
                          (filter (fun e => ord (fst e) =? ord (fst x))
                                  entries)))
    /\ (forall x, In x s ->
          (forall e, In e entries -> ord (fst e) <> ord (fst x)) ->
          snd x = 0%Q)
    /\ StronglySorted
         (fun x y => days_from_civil (fst x) < days_from_civil (fst y)) s.
Proof.
  intros Hd Ha Hdates; cbv zeta.
  exists (resample_M_sum (dated_rows d a (values f))); split.
  - unfold monthly_sales, getitem, loc; rewrite Hd, Ha; cbn [bind].
    now rewrite datetime_index_dated.
  - apply resample_M_sum_spec.
Qed.

Lemma monthly_sales_fills_the_span_witness :
  let f := loaded EA_csv in
  let entries := dated_rows 1 11 (values f) in
  let ord (t : Timestamp) := month_ordinal t in
  exists s,
    monthly_sales f = Ok s
    /\ (entries = [] -> s = [])
    /\ (forall e, In e entries ->
          exists q, In (month_end (ord (fst e)), q) s)
    /\ (exists lo hi,
          map (fun x => ord (fst x)) s = month_range lo hi
          /\ (entries <> [] ->
              (exists e, In e entries /\ ord (fst e) = lo)
              /\ (exists e, In e entries /\ ord (fst e) = hi)))
    /\ (forall x, In x s ->
          fst x = month_end (ord (fst x))
          /\ snd x = series_sum
                       (map snd
                          (filter (fun e => ord (fst e) =? ord (fst x))
                                  entries)))
    /\ (forall x, In x s ->
          (forall e, In e entries -> ord (fst e) <> ord (fst x)) ->
          snd x = 0%Q)
    /\ StronglySorted
         (fun x y => days_from_civil (fst x) < days_from_civil (fst y)) s.
Proof.
  apply (monthly_sales_fills_the_span (loaded EA_csv) 1 11);
    vm_compute; reflexivity.
Defined.

(** C2, as stated, fails: the sample export has lines in January,
    February and April 2024 and none in March, and its monthly trend
    has an entry for March, with sum 0. *)
Lemma monthly_sales_fills_gaps :
  getitem (loaded EA_csv) "Month"
  = Ok [VStr "January"; VStr "January"; VStr "February"; VStr "April"]
  /\ monthly_sales (loaded EA_csv)
     = Ok [(mkTimestamp 2024 January 31, 2000%Q);
           (mkTimestamp 2024 February 29, 800%Q);
           (mkTimestamp 2024 March 31, 0%Q);
           (mkTimestamp 2024 April 30, 1200%Q)].
Proof.
  split; vm_compute; reflexivity.
Qed.

(* ================================================================= *)
(** ** Every filtered table meets the conditions above *)

Local Close Scope Z_scope.

Lemma col_all_incl (P : Value -> Prop) (df f : DataFrame) (c : string) :
  columns f = columns df ->
  (forall r, In r (values f) -> In r (values df)) ->
  col_all P df c -> col_all P f c.
Proof.
  intros Hcols Hrows (i & Hi & H); exists i; rewrite Hcols; split;
    [exact Hi |].
  rewrite Forall_forall in *; auto.
Qed.

Lemma narrowed_refl (df : DataFrame) : narrowed df df.
Proof.
  split; auto.
Qed.

Lemma narrowed_trans (f g df : DataFrame) :
  narrowed f g -> narrowed g df -> narrowed f df.
Proof.
  intros [Hc Hr] [Hc' Hr']; split; [congruence | auto].
Qed.

Lemma narrowed_select (p : Row -> bool) (df : DataFrame) :
  narrowed (select p df) df.
Proof.
  split; [reflexivity |]; simpl; intros r Hr; now apply filter_In in Hr.
Qed.

Lemma date_filter_narrowed (w : Widgets) (df f : DataFrame) :
  date_filter w df = Ok f -> narrowed f df.
Proof.
  unfold date_filter; intros H; apply bind_Ok in H as (i & _ & H).
  destruct (date_range w) as [| s [| e [| x l]]]; apply Ok_inj in H; subst;
    first [apply narrowed_refl | apply narrowed_select].
Qed.

Lemma multiselect_filter_narrowed (c : string) (selected : list string)
  (df f : DataFrame) :
  multiselect_filter c selected df = Ok f -> narrowed f df.
Proof.
  unfold multiselect_filter; intros H; apply bind_Ok in H as (i & _ & H).
  destruct (existsb (String.eqb "All") selected); apply Ok_inj in H; subst;
    [apply narrowed_refl | apply narrowed_select].
Qed.

Lemma amount_filter_narrowed (w : Widgets) (df f : DataFrame) :
  amount_filter w df = Ok f -> narrowed f df.
Proof.
  unfold amount_filter; intros H; apply bind_Ok in H as (i & _ & H).
  apply Ok_inj in H; subst; apply narrowed_select.
Qed.

(** Whatever the table, a filtered table that is not empty has the
    columns of the table and only rows of it. *)
Lemma filtered_df_narrowed (df f : DataFrame) (w : Widgets) :
  filtered_df df w = Ok f -> empty f = false -> narrowed f df.
Proof.
  unfold filtered_df; intros H Hne.
  destruct (negb (empty df));
    [| apply Ok_inj in H; subst; discriminate Hne].
  apply bind_Ok in H as (f1 & H1 & H); apply date_filter_narrowed in H1.
  destruct (negb (empty f1));
    [| apply Ok_inj in H; now subst].
  apply bind_Ok in H as (f2 & H2 & H); apply multiselect_filter_narrowed in H2.
  apply bind_Ok in H as (f3 & H3 & H); apply multiselect_filter_narrowed in H3.
  apply bind_Ok in H as (f4 & H4 & H); apply multiselect_filter_narrowed in H4.
  assert (H41 : narrowed f4 df)
    by (apply (narrowed_trans _ _ _ H4), (narrowed_trans _ _ _ H3),
          (narrowed_trans _ _ _ H2), H1).
  destruct (has_column f4 "Final_Line_Amount"
            && negb (Nat.eqb (List.length (values f4)) 0)).
  - apply amount_filter_narrowed in H.
    eapply narrowed_trans; eassumption.
  - apply Ok_inj in H; now subst.
Qed.

Lemma col_all_forallb (p : Value -> bool) (df : DataFrame) (c : string) :
  col_all (fun v => p v = true) df c ->
  exists i, get_loc c (columns df) = Some i
            /\ forallb (fun r => p (iloc r i)) (values df) = true.
Proof.
  intros (i & Hi & H); exists i; split; [exact Hi |].
  apply forallb_forall; now rewrite Forall_forall in H.
Qed.

(** The conditions of the statements on the monthly trend, the sales by
    quarter and the sales by day of week hold of every filtered table
    the script draws charts of. *)
Lemma filtered_table_ready (file : option DataFrame) (df f : DataFrame)
  (w : Widgets) :
  load_data file = Done df ->
  filtered_df df w = Ok f ->
  empty f = false ->
  exists d a q k,
    get_loc "Posting_Date" (columns f) = Some d
    /\ get_loc "Final_Line_Amount" (columns f) = Some a
    /\ get_loc "Quarter" (columns f) = Some q
    /\ get_loc "Day_of_Week" (columns f) = Some k
    /\ forallb (fun r => datetime_cell (iloc r d)) (values f) = true
    /\ forallb (fun r => isin quarter_order (iloc r q)) (values f) = true.
Proof.
  intros Hload Hf Hne.
  destruct (loaded_table_columns _ _ Hload) as (Hd & Ha & Hq & Hk).
  destruct (filtered_df_narrowed _ _ _ Hf Hne) as [Hcols Hrows].
  apply (col_all_incl _ df f) in Hd, Ha, Hq, Hk; try assumption.
  apply (col_all_impl _ (fun v => datetime_cell v = true)) in Hd;
    [| now intros v (t & ->)].
  apply col_all_forallb in Hd as (d & Hd & Hdates).
  apply col_all_forallb in Hq as (q & Hq & Hquarters).
  destruct Ha as (a & Ha & _), Hk as (k & Hk & _).
  exists d, a, q, k; repeat split; assumption.
Qed.

(* ================================================================= *)
(** * Further properties *)

(** ** Sums over groups *)

Lemma Qsum_app (l1 l2 : list Q) : (Qsum (l1 ++ l2) == Qsum l1 + Qsum l2)%Q.
Proof.
  induction l1 as [| x l1 IH]; simpl; [ring | rewrite IH; ring].
Qed.

Lemma Qsum_zero {A : Type} (f : A -> Q) (l : list A) :
  (forall x, In x l -> (f x == 0)%Q) -> (Qsum (map f l) == 0)%Q.
Proof.
  induction l as [| x l IH]; simpl; intros H; [reflexivity |].
  rewrite (H x (or_introl eq_refl)), IH; [ring | auto].
Qed.

Lemma Qsum_ext {A : Type} (f g : A -> Q) (l : list A) :
  (forall x, In x l -> (f x == g x)%Q) ->
  (Qsum (map f l) == Qsum (map g l))%Q.
Proof.
  induction l as [| x l IH]; simpl; intros H; [reflexivity |].
  rewrite (H x (or_introl eq_refl)), IH; [reflexivity | auto].
Qed.

Lemma Qsum_numbers (vs : list Value) :
  (Qsum (numbers vs) == Qsum (map number_of vs))%Q.
Proof.
  unfold numbers; induction vs as [| v vs IH]; simpl; [reflexivity |].
  rewrite Qsum_app, IH.
  destruct v as [s | q | [|] | t |]; simpl; ring.
Qed.

Section PartitionSum.
Context {A B : Type} (key : B -> option A) (eqb : A -> A -> bool).
Context (val : B -> Q).
Hypothesis eqb_eq : forall a b, eqb a b = true <-> a = b.

(** Adding [v] to the term of one key adds [v] to the sum over a list
    that has this key once. *)
Lemma Qsum_add_at (a : A -> Q) (k0 : A) (v : Q) (K : list A) :
  NoDup K ->
  (Qsum (map (fun k => if eqb k0 k then v + a k else a k) K)
   == (if existsb (eqb k0) K then v else 0) + Qsum (map a K))%Q.
Proof.
  induction 1 as [| k K Hk HK IH]; simpl; [ring |].
  rewrite IH; destruct (eqb k0 k) eqn:Heq; simpl; [| ring].
  apply eqb_eq in Heq; subst k.
  destruct (existsb (eqb k0) K) eqn:Hex; [| ring].
  apply existsb_exists in Hex as (x & Hx & Heq).
  apply eqb_eq in Heq; subst x; contradiction.
Qed.

(** The sums of the groups add up to the sum over the elements that
    have a key. *)
Lemma partition_sum (K : list A) (l : list B) :
  NoDup K ->
  (forall x k, In x l -> key x = Some k -> In k K) ->
  (Qsum (map (fun k =>
                Qsum (map val
                        (filter (fun x => match key x with
                                          | Some k' => eqb k' k
                                          | None => false
                                          end) l))) K)
   == Qsum (map val (filter (fun x => match key x with
                                      | Some _ => true
                                      | None => false
                                      end) l)))%Q.
Proof.
  intros HK; induction l as [| x l IH]; intros Hcover.
  - simpl; apply Qsum_zero; intros; reflexivity.
  - assert (IH' := IH (fun y k Hy => Hcover y k (or_intror Hy))).
    cbn [filter]; destruct (key x) as [k0 |] eqn:Hkey; [| exact IH'].
    cbn [map Qsum fold_right]; rewrite <- IH'.
    assert (Hin : existsb (eqb k0) K = true).
    { apply existsb_exists; exists k0; split;
        [apply (Hcover x k0 (or_introl eq_refl) Hkey) | now apply eqb_eq]. }
    pose (S := fun k : A =>
                 Qsum (map val
                         (filter (fun y => match key y with
                                           | Some k' => eqb k' k
                                           | None => false
                                           end) l))).
    transitivity
      (Qsum (map (fun k => if eqb k0 k then val x + S k else S k) K))%Q.
    + apply Qsum_ext; intros k _; unfold S.
      destruct (eqb k0 k); simpl; reflexivity.
    + rewrite (Qsum_add_at S k0 (val x) K HK), Hin; reflexivity.
Qed.
End PartitionSum.

Lemma series_sum_cells (j : nat) (rows : list Row) :
  (series_sum (map (fun r => iloc r j) rows)
   == Qsum (map (fun r => number_of (iloc r j)) rows))%Q.
Proof.
  unfold series_sum; now rewrite Qsum_numbers, map_map.
Qed.

Lemma filter_all {A : Type} (p : A -> bool) (l : list A) :
  forallb p l = true -> filter p l = l.
Proof.
  induction l as [| x l IH]; simpl; [reflexivity |].
  intros H; apply andb_prop in H as [-> H]; now rewrite IH.
Qed.

(** X1.  Where the keys are text or missing and the amounts are whole
    numbers whose sums are exact in the 64-bit type of the column, the
    sums of the groups of a chart add up to the sum of the amounts of
    the rows that have a key; when no row lacks the key, that is the
    total of the sales. *)
Theorem group_sums_add_up (f : DataFrame) (key : string) (i j : nat) :
  get_loc key (columns f) = Some i ->
  get_loc "Final_Line_Amount" (columns f) = Some j ->
  forallb (fun r => text_or_missing (iloc r i)) (values f) = true ->
  exact_sums (map (fun r => iloc r j) (values f)) = true ->
  let keyed (r : Row) := match key_of (iloc r i) with
                         | Some _ => true
                         | None => false
                         end in
  exists s total,
    groupby_sum f key "Final_Line_Amount" = Ok s
    /\ total_sales f = Ok total
    /\ (Qsum (map snd s)
        == series_sum (map (fun r => iloc r j) (filter keyed (values f))))%Q
    /\ (forallb keyed (values f) = true -> (Qsum (map snd s) == total)%Q).
Proof.
  intros Hi Hj _ _ keyed.
  rewrite (groupby_sum_eq f _ _ i j Hi Hj).
  unfold total_sales, getitem, loc; rewrite Hj; cbn [bind].
  do 2 eexists; split; [reflexivity |]; split; [reflexivity |].
  assert (Hsum : (Qsum (map snd
                          (map (fun k =>
                                  (k, series_sum
                                        (map (fun r => iloc r j)
                                             (filter (has_key i k)
                                                     (values f)))))
                               (group_keys i (values f))))
                  == series_sum (map (fun r => iloc r j)
                                     (filter keyed (values f))))%Q).
  { rewrite map_map; cbn [snd]; rewrite series_sum_cells.
    etransitivity;
      [| apply (partition_sum (fun r => key_of (iloc r i)) String.eqb
                  (fun r => number_of (iloc r j)) String.eqb_eq
                  (group_keys i (values f)) (values f))].
    - apply Qsum_ext; intros k _; apply series_sum_cells.
    - apply group_keys_NoDup.
    - intros r k Hr Hk; apply group_keys_In, existsb_exists.
      exists r; split; [exact Hr |].
      unfold has_key; rewrite Hk; apply String.eqb_refl. }
  split; [exact Hsum |].
  intros Hall; rewrite Hsum, (filter_all _ _ Hall); reflexivity.
Qed.

Lemma group_sums_add_up_witness :
  let f := loaded EA_plain in
  let keyed (r : Row) := match key_of (iloc r 2) with
                         | Some _ => true
                         | None => false
                         end in
  exists s total,
    groupby_sum f "Region" "Final_Line_Amount" = Ok s
    /\ total_sales f = Ok total
    /\ (Qsum (map snd s)
        == series_sum (map (fun r => iloc r 11) (filter keyed (values f))))%Q
    /\ (forallb keyed (values f) = true -> (Qsum (map snd s) == total)%Q).
Proof.
  apply (group_sums_add_up (loaded EA_plain) "Region" 2 11);
    vm_compute; reflexivity.
Defined.

(** ** Sums over months *)

Lemma months_from_NoDup (n : nat) : forall lo, NoDup (months_from lo n).
Proof.
  induction n as [| n IH]; intros lo; simpl; constructor; [| apply IH].
  intros Hin; apply months_from_In in Hin; lia.
Qed.

Lemma resample_M_sum_total (entries : list (Timestamp * Value)) :
  (Qsum (map snd (resample_M_sum entries))
   == series_sum (map snd entries))%Q.
Proof.
  unfold resample_M_sum.
  destruct (map (fun e => month_ordinal (fst e)) entries) as [| o os] eqn:Hmap.
  { destruct entries; [reflexivity | discriminate]. }
  cbv zeta; rewrite map_map; cbn [snd].
  destruct (fold_min_spec os o) as [_ Hlo].
  destruct (fold_max_spec os o) as [_ Hhi].
  assert (Hsum : forall l : list (Timestamp * Value),
             (series_sum (map snd l)
              == Qsum (map (fun e => number_of (snd e)) l))%Q)
    by (intros l; unfold series_sum; now rewrite Qsum_numbers, map_map).
  transitivity
    (Qsum (map (fun k =>
                  Qsum (map (fun e => number_of (snd e))
                          (filter (fun e : Timestamp * Value =>
                                     (month_ordinal (fst e) =? k)%Z)
                                  entries)))
               (month_range (fold_left Z.min os o) (fold_left Z.max os o)))).
  { apply Qsum_ext; intros k _; apply Hsum. }
  transitivity
    (Qsum (map (fun e => number_of (snd e))
               (filter (fun _ : Timestamp * Value => true) entries))).
  { apply (partition_sum
             (fun e : Timestamp * Value => Some (month_ordinal (fst e)))
             Z.eqb (fun e => number_of (snd e)) Z.eqb_eq).
    - apply months_from_NoDup.
    - intros e k He Hk; inversion Hk; subst k.
      assert (Hin : In (month_ordinal (fst e)) (o :: os))
        by (rewrite <- Hmap;
            apply (in_map (fun e => month_ordinal (fst e))); exact He).
      apply month_range_In; split; [now apply Hlo | now apply Hhi]. }
  rewrite filter_true, Hsum; reflexivity.
Qed.

Lemma dated_rows_all (d a : nat) (rows : list Row) :
  forallb (fun r => timestamp_cell (iloc r d)) rows = true ->
  map snd (dated_rows d a rows) = map (fun r => iloc r a) rows.
Proof.
  unfold dated_rows; induction rows as [| r rows IH]; simpl;
    [reflexivity |].
  intros H; apply andb_prop in H as [Hr H].
  destruct (iloc r d); try discriminate; simpl; now rewrite IH.
Qed.

Lemma timestamp_cells_datetime (d : nat) (rows : list Row) :
  forallb (fun r => timestamp_cell (iloc r d)) rows = true ->
  forallb (fun r => datetime_cell (iloc r d)) rows = true.
Proof.
  rewrite !forallb_forall; intros H r Hr; specialize (H r Hr).
  now destruct (iloc r d).
Qed.

(** X2.  Where the amounts are whole numbers whose sums are exact in
    the 64-bit type of the column, the entries of the monthly trend add
    up to the sum of the amounts of the rows that have a date: the
    months put in for the gaps add nothing and no row is counted twice.
    When every row has a date, that is the total of the sales. *)
Theorem monthly_sums_add_up (f : DataFrame) (d a : nat) :
  get_loc "Posting_Date" (columns f) = Some d ->
  get_loc "Final_Line_Amount" (columns f) = Some a ->
  forallb (fun r => datetime_cell (iloc r d)) (values f) = true ->
  exact_sums (map (fun r => iloc r a) (values f)) = true ->
  exists s total,
    monthly_sales f = Ok s
    /\ total_sales f = Ok total
    /\ (Qsum (map snd s)
        == series_sum (map snd (dated_rows d a (values f))))%Q
    /\ (forallb (fun r => timestamp_cell (iloc r d)) (values f) = true ->
        (Qsum (map snd s) == total)%Q).
Proof.
  intros Hd Ha Hdates _.
  unfold monthly_sales, total_sales, getitem, loc.
  rewrite Hd, Ha; cbn [bind].
  rewrite (datetime_index_dated d a _ Hdates); cbn [bind].
  do 2 eexists; split; [reflexivity |]; split; [reflexivity |].
  split; [apply resample_M_sum_total |].
  intros Hall; rewrite resample_M_sum_total.
  now rewrite (dated_rows_all d a _ Hall).
Qed.

Lemma monthly_sums_add_up_witness :
  let f := loaded EA_plain in
  exists s total,
    monthly_sales f = Ok s
    /\ total_sales f = Ok total
    /\ (Qsum (map snd s)
        == series_sum (map snd (dated_rows 1 11 (values f))))%Q
    /\ (forallb (fun r => timestamp_cell (iloc r 1)) (values f) = true ->
        (Qsum (map snd s) == total)%Q).
Proof.
  apply (monthly_sums_add_up (loaded EA_plain) 1 11);
    vm_compute; reflexivity.
Defined.

(** ** The charts of the largest groups *)

From Stdlib Require Import Lqa.

Lemma StronglySorted_firstn {A : Type} (R : A -> A -> Prop) (n : nat)
  (l : list A) :
  StronglySorted R l -> StronglySorted R (firstn n l).
Proof.
  intros H; revert n; induction H as [| x l Hl IH Hx]; intros [| n]; simpl;
    try constructor; [apply IH |].
  rewrite Forall_forall in *; intros y Hy; apply Hx.
  rewrite <- (firstn_skipn n l); apply in_or_app; now left.
Qed.

(** X3.  The N largest of a series come in descending order of value;
    they are N entries, or all of them when the series has fewer, and
    then no group is left out. *)
Theorem nlargest_sorted_and_complete (n : nat) (s : list (string * Q)) :
  StronglySorted (fun x y => (snd y <= snd x)%Q) (nlargest n s)
  /\ List.length (nlargest n s) = Nat.min n (List.length s)
  /\ ((List.length s <= n)%nat -> Permutation (nlargest n s) s).
Proof.
  unfold nlargest, sort_values_desc; repeat split.
  - apply StronglySorted_firstn.
    eapply StronglySorted_weaken;
      [| apply (sort_by_sorted value_geb);
         [apply value_geb_total | apply value_geb_trans]].
    intros x y H; now apply Qle_bool_iff.
  - rewrite length_firstn; f_equal.
    apply Permutation_length, sort_by_perm.
  - intros Hn; rewrite firstn_all2; [apply sort_by_perm |].
    now rewrite (Permutation_length (sort_by_perm value_geb s)).
Qed.

(** ** The charts of the sales over 1000 *)

Lemma over_1000_sum (j : nat) (rows : list Row) :
  rows <> [] ->
  (forall r, In r rows -> over_1000 (iloc r j) = true) ->
  (1000 < series_sum (map (fun r => iloc r j) rows))%Q.
Proof.
  unfold series_sum, numbers.
  induction rows as [| r rows IH]; intros Hne Hall; [congruence |].
  pose proof (Hall r (or_introl eq_refl)) as Hr.
  cbn [map flat_map]; unfold over_1000 in Hr.
  destruct (iloc r j) as [| q | | |]; try discriminate.
  rewrite Qsum_app; cbn [Qsum fold_right].
  assert (Hq : (1000 < q)%Q).
  { apply Qnot_le_lt; intros Hle; apply Qle_bool_iff in Hle.
    now rewrite Hle in Hr. }
  destruct rows as [| r' rows'].
  - cbn [map flat_map Qsum fold_right]; lra.
  - assert (H : (1000 < Qsum (flat_map
                                (fun v => match v with
                                          | VNum q0 => [q0]
                                          | VBool b => [if b then 1%Q else 0%Q]
                                          | _ => []
                                          end)
                                (map (fun r0 => iloc r0 j) (r' :: rows'))))%Q)
      by (apply IH; [discriminate | intros; apply Hall; now right]).
    lra.
Qed.

(** When the flag of a row is set only on rows whose amount is over
    1000, every group of a chart of the high-value sales has a total
    over 1000, and its key is a key of the flagged rows. *)
Lemma high_value_groups (f : DataFrame) (key : string)
  (i j k : nat) :
  get_loc "Sale_Over_1000" (columns f) = Some i ->
  get_loc key (columns f) = Some k ->
  get_loc "Final_Line_Amount" (columns f) = Some j ->
  forallb (fun r => implb (is_true (iloc r i)) (over_1000 (iloc r j)))
          (values f) = true ->
  exists s,
    (h <- high_value f ;; groupby_sum h key "Final_Line_Amount") = Ok s
    /\ forall x, In x s ->
         (1000 < snd x)%Q
         /\ exists r, In r (values f) /\ is_true (iloc r i) = true
                      /\ iloc r k = VStr (fst x).
Proof.
  intros Hi Hk Hj Hflag.
  unfold high_value, loc; rewrite Hi; cbn [bind].
  rewrite (groupby_sum_eq (select _ f) key _ k j Hk Hj).
  eexists; split; [reflexivity |].
  intros x Hx; apply in_map_iff in Hx as (k0 & <- & Hk0); cbn [fst snd].
  apply group_keys_In, existsb_exists in Hk0 as (r0 & Hr0 & Hkey0).
  cbn [values select] in *; split.
  - apply over_1000_sum.
    + intros Hnil.
      assert (Hin : In r0 (filter (has_key k k0)
                             (filter (fun r => is_true (iloc r i))
                                     (values f))))
        by (apply filter_In; now split).
      rewrite Hnil in Hin; contradiction.
    + intros r Hr; apply filter_In in Hr as [Hr _].
      apply filter_In in Hr as [Hr Ht].
      rewrite forallb_forall in Hflag; specialize (Hflag r Hr).
      now rewrite Ht in Hflag.
  - apply filter_In in Hr0 as [Hr0 Ht]; exists r0; repeat split; try assumption.
    unfold has_key, key_of in Hkey0.
    destruct (iloc r0 k); try discriminate.
    apply String.eqb_eq in Hkey0; now subst.
Qed.

(* ================================================================= *)
(** ** Relations between the columns of a row *)

Lemma in_combine_map {A B : Type} (g : A -> B) (l : list A) (x : A) (y : B) :
  In (x, y) (combine l (map g l)) -> y = g x.
Proof.
  induction l as [| a l IH]; simpl; [contradiction |].
  intros [H | H]; [now inversion H | now apply IH].
Qed.

Lemma mapM_combine {A B C : Type} (f : B -> result C) (h : A -> B)
  (l : list A) :
  forall ys, mapM f (map h l) = Ok ys ->
  forall x y, In (x, y) (combine l ys) -> f (h x) = Ok y.
Proof.
  induction l as [| a l IH]; simpl; intros ys H x y Hin.
  - contradiction.
  - apply bind_Ok in H as (y0 & Hy0 & H).
    apply bind_Ok in H as (ys0 & Hys0 & H).
    apply Ok_inj in H; subst ys; simpl in Hin.
    destruct Hin as [Hin | Hin]; [inversion Hin; now subst | eauto].
Qed.

Lemma mapM_length {A B : Type} (f : A -> result B) (l : list A) :
  forall ys, mapM f l = Ok ys -> List.length ys = List.length l.
Proof.
  induction l as [| a l IH]; simpl; intros ys H.
  - apply Ok_inj in H; now subst.
  - apply bind_Ok in H as (y0 & Hy0 & H).
    apply bind_Ok in H as (ys0 & Hys0 & H).
    apply Ok_inj in H; subst ys; simpl; f_equal; now apply IH.
Qed.

Lemma target_other (df : DataFrame) (c c' : string) (j : nat) :
  get_loc c' (columns df) = Some j -> c <> c' -> target df c <> j.
Proof.
  intros Hj Hne; unfold target.
  destruct (get_loc c (columns df)) as [i |] eqn:Hi.
  - intros ->; apply Hne; eapply get_loc_inj; eassumption.
  - apply get_loc_lt in Hj; lia.
Qed.

Lemma row_rel_impl (R R' : Value -> Value -> Prop) (df : DataFrame)
  (c1 c2 : string) :
  (forall a b, R a b -> R' a b) -> row_rel R df c1 c2 -> row_rel R' df c1 c2.
Proof.
  intros HR (i & j & Hi & Hj & H); exists i, j; repeat split; try assumption.
  eapply Forall_impl; [| exact H]; intros r; apply HR.
Qed.

Lemma row_rel_flip (R : Value -> Value -> Prop) (df : DataFrame)
  (c1 c2 : string) :
  row_rel R df c1 c2 -> row_rel (fun a b => R b a) df c2 c1.
Proof.
  intros (i & j & Hi & Hj & H); now exists j, i.
Qed.

Lemma row_rel_col (R : Value -> Value -> Prop) (P : Value -> Prop)
  (df : DataFrame) (c1 c2 : string) :
  row_rel R df c1 c2 -> col_all P df c2 ->
  row_rel (fun a b => R a b /\ P b) df c1 c2.
Proof.
  intros (i & j & Hi & Hj & H) (j' & Hj' & HP).
  assert (j' = j) as -> by congruence.
  exists i, j; repeat split; try assumption.
  rewrite Forall_forall in *; auto.
Qed.

Lemma row_rel_setitem_other (R : Value -> Value -> Prop) (df : DataFrame)
  (c c1 c2 : string) (vals : list Value) :
  c <> c1 -> c <> c2 -> row_rel R df c1 c2 ->
  row_rel R (setitem df c vals) c1 c2.
Proof.
  intros H1 H2 (i & j & Hi & Hj & H); exists i, j.
  repeat split; try (now apply setitem_loc_other).
  rewrite setitem_values, Forall_forall; intros r' Hr'.
  apply in_map_iff in Hr' as ([r v] & <- & Hrv); cbn [fst snd].
  rewrite !iloc_set_nth_other by (eapply target_other; eassumption).
  rewrite Forall_forall in H; apply H.
  eapply in_combine_l; exact Hrv.
Qed.

Lemma row_rel_setitem_new (R : Value -> Value -> Prop) (df : DataFrame)
  (c c1 : string) (i : nat) (vals : list Value) :
  get_loc c1 (columns df) = Some i -> c <> c1 ->
  (forall r v, In (r, v) (combine (values df) vals) -> R (iloc r i) v) ->
  row_rel R (setitem df c vals) c1 c.
Proof.
  intros Hi Hne HR; exists i, (target df c).
  repeat split; [now apply setitem_loc_other | apply setitem_loc |].
  rewrite setitem_values, Forall_forall; intros r' Hr'.
  apply in_map_iff in Hr' as ([r v] & <- & Hrv); cbn [fst snd].
  rewrite iloc_set_nth_same.
  rewrite iloc_set_nth_other by (eapply target_other; eassumption).
  now apply HR.
Qed.

Lemma row_rel_assign (df df' : DataFrame) (c src : string)
  (f : Value -> Value) :
  assign df c src f = Ok df' -> c <> src ->
  row_rel (fun a b => b = f a) df' src c.
Proof.
  unfold assign, getitem, loc; intros H Hne.
  destruct (get_loc src (columns df)) as [i |] eqn:Hi; [| discriminate].
  cbn [bind] in H; apply Ok_inj in H; subst df'.
  apply (row_rel_setitem_new _ df c src i); try assumption.
  intros r v Hin; rewrite map_map in Hin.
  now apply in_combine_map in Hin.
Qed.

Lemma row_rel_assign_other (R : Value -> Value -> Prop) (df df' : DataFrame)
  (c src c1 c2 : string) (f : Value -> Value) :
  assign df c src f = Ok df' -> c <> c1 -> c <> c2 ->
  row_rel R df c1 c2 -> row_rel R df' c1 c2.
Proof.
  unfold assign; intros H H1 H2 HR.
  apply bind_Ok in H as (s & _ & H); apply Ok_inj in H; subst df'.
  now apply row_rel_setitem_other.
Qed.

Lemma row_rel_select (R : Value -> Value -> Prop) (p : Row -> bool)
  (df : DataFrame) (c1 c2 : string) :
  row_rel R df c1 c2 -> row_rel R (select p df) c1 c2.
Proof.
  intros (i & j & Hi & Hj & H); exists i, j; repeat split; try assumption.
  cbn [values select]; rewrite Forall_forall in *; intros r Hr.
  apply filter_In in Hr as [Hr _]; auto.
Qed.

Lemma row_rel_narrowed (R : Value -> Value -> Prop) (f df : DataFrame)
  (c1 c2 : string) :
  narrowed f df -> row_rel R df c1 c2 -> row_rel R f c1 c2.
Proof.
  intros [Hcols Hrows] (i & j & Hi & Hj & H); exists i, j.
  rewrite Hcols; repeat split; try assumption.
  rewrite Forall_forall in *; auto.
Qed.

Lemma row_rel_transform (R : Value -> Value -> Prop) (f : Value -> Value)
  (df : DataFrame) (c c1 c2 : string) :
  c <> c1 ->
  (c = c2 -> forall a b, R a b -> R a (f b)) ->
  row_rel R df c1 c2 -> row_rel R (transform f df c) c1 c2.
Proof.
  intros H1 Hf HR; unfold transform.
  destruct (get_loc c (columns df)) as [t |] eqn:Ht; [| exact HR].
  destruct (String.eqb_spec c c2) as [-> | H2];
    [| now apply row_rel_setitem_other].
  destruct HR as (i & j & Hi & Hj & H).
  assert (t = j) as -> by congruence.
  apply (row_rel_setitem_new _ df c2 c1 i); try assumption.
  intros r v Hin.
  pose proof (in_combine_l _ _ _ _ Hin) as Hr.
  apply (in_combine_map (fun r => f (iloc r j))) in Hin; subst v.
  apply Hf; [reflexivity |].
  rewrite Forall_forall in H; now apply H.
Qed.

Lemma row_rel_fold_transform (R : Value -> Value -> Prop)
  (f : Value -> Value) (l : list string) (c1 c2 : string) :
  ~ In c1 l ->
  (In c2 l -> forall a b, R a b -> R a (f b)) ->
  forall df, row_rel R df c1 c2 ->
             row_rel R (fold_left (transform f) l df) c1 c2.
Proof.
  induction l as [| c l IH]; simpl; intros Hnot Hf df H; [exact H |].
  apply IH; [tauto | intros Hin; apply Hf; now right |].
  apply row_rel_transform; [intros ->; tauto | | exact H].
  intros ->; apply Hf; now left.
Qed.

(* ================================================================= *)
(** ** What the loader derives *)

(** The steps of a run of [load_data] that returns a table, with the
    export and the comparison of the amounts. *)
Lemma load_data_run (file : option DataFrame) (df : DataFrame) :
  load_data file = Done df ->
  exists csv df2 df3 amount over df5 df6 df7 df8,
    file = Some csv
    /\ assign (renamed csv) "Posting_Date" "Posting_Date" pd.to_datetime
       = Ok df2
    /\ dropna df2 "Posting_Date" = Ok df3
    /\ getitem df3 "Final_Line_Amount" = Ok amount
    /\ mapM (pd.gt 1000) amount = Ok over
    /\ assign (setitem df3 "Sale_Over_1000" over) "Year" "Posting_Date"
         pd.dt_year = Ok df5
    /\ assign df5 "Month" "Posting_Date" pd.dt_month_name = Ok df6
    /\ assign df6 "Day_of_Week" "Posting_Date" pd.dt_day_name = Ok df7
    /\ assign df7 "Quarter" "Posting_Date"
         (fun v => format_quarter (pd.dt_quarter v)) = Ok df8
    /\ df = fold_left (transform pd.fillna0) numeric_cols
              (fold_left (transform clean_numeric) numeric_cols df8).
Proof.
  unfold load_data; intros H.
  destruct (load_data_try file) as [df' | e] eqn:Htry;
    [| destruct e; discriminate H].
  apply Done_inj in H; subst df'.
  unfold load_data_try in Htry.
  apply bind_Ok in Htry as (csv & Hcsv & Htry).
  apply bind_Ok in Htry as (df2 & Hdate & Htry).
  apply bind_Ok in Htry as (df3 & Hdrop & Htry).
  apply bind_Ok in Htry as (amount & Hamount & Htry).
  apply bind_Ok in Htry as (over & Hover & Htry).
  apply bind_Ok in Htry as (df5 & Hyear & Htry).
  apply bind_Ok in Htry as (df6 & Hmonth & Htry).
  apply bind_Ok in Htry as (df7 & Hday & Htry).
  apply bind_Ok in Htry as (df8 & Hquarter & Hfill).
  apply fillna_columns_Ok in Hfill as [Hdf _].
  exists csv, df2, df3, amount, over, df5, df6, df7, df8.
  repeat split; try assumption.
  destruct file; [now inversion Hcsv | discriminate].
Qed.

Lemma clean_numeric_idem (v : Value) :
  clean_numeric (clean_numeric v) = clean_numeric v.
Proof.
  destruct (clean_numeric_number_or_nan v) as [(q & ->) | ->];
    [reflexivity | vm_compute; reflexivity].
Qed.

Lemma gt_1000_flag (a flag : Value) :
  pd.gt 1000 a = Ok flag ->
  flag = VBool (over_1000 (pd.fillna0 (clean_numeric a))).
Proof.
  destruct a as [s | q | [|] | t |]; cbn [pd.gt]; intros H;
    try discriminate; apply Ok_inj in H; subst;
    [reflexivity | vm_compute; reflexivity ..].
Qed.

Lemma fillna0_clean (v : Value) :
  pd.fillna0 (clean_numeric (pd.fillna0 v)) = pd.fillna0 (clean_numeric v).
Proof.
  destruct v as [s | q | b | t |];
    [reflexivity .. | vm_compute; reflexivity].
Qed.

Lemma loaded_flags (file : option DataFrame) (df : DataFrame) :
  load_data file = Done df ->
  row_rel flag_of_amount df "Sale_Over_1000" "Final_Line_Amount".
Proof.
  intros Hload.
  destruct (loaded_table_columns _ _ Hload) as (_ & Hnum & _).
  destruct (load_data_run _ _ Hload)
    as (csv & df2 & df3 & amount & over & df5 & df6 & df7 & df8
        & _ & _ & _ & Hamount & Hover & Hyear & Hmonth & Hday
        & Hquarter & ->).
  apply (row_rel_impl
           (fun flag a =>
              flag = VBool (over_1000 (pd.fillna0 (clean_numeric a)))
              /\ is_number a)).
  { intros flag a [-> (q & ->)]; exists q; split; reflexivity. }
  apply row_rel_col; [| exact Hnum].
  apply row_rel_fold_transform;
    [now apply not_numeric_col
    | intros _ flag a ->; now rewrite fillna0_clean |].
  apply row_rel_fold_transform;
    [now apply not_numeric_col
    | intros _ flag a ->; now rewrite clean_numeric_idem |].
  eapply row_rel_assign_other; [exact Hquarter | discriminate .. |].
  eapply row_rel_assign_other; [exact Hday | discriminate .. |].
  eapply row_rel_assign_other; [exact Hmonth | discriminate .. |].
  eapply row_rel_assign_other; [exact Hyear | discriminate .. |].
  apply row_rel_flip
    with (R := fun a flag =>
                 flag = VBool (over_1000 (pd.fillna0 (clean_numeric a)))).
  unfold getitem, loc in Hamount.
  destruct (get_loc "Final_Line_Amount" (columns df3)) as [j |] eqn:Hj;
    [| discriminate].
  cbn [bind] in Hamount; apply Ok_inj in Hamount; subst amount.
  apply (row_rel_setitem_new _ df3 _ _ j); [exact Hj | discriminate |].
  intros r v Hin; apply gt_1000_flag.
  eapply (mapM_combine (pd.gt 1000) (fun r => iloc r j)); eassumption.
Qed.

(** X5.  In every table the loader returns, and in every table filtered
    from it, the flag [Sale_Over_1000] of a row is true exactly when the
    amount of the row, as it stands after the coercion, is over 1000. *)
Theorem flag_agrees_with_amount (file : option DataFrame) (df : DataFrame) :
  load_data file = Done df ->
  row_rel flag_of_amount df "Sale_Over_1000" "Final_Line_Amount"
  /\ forall w f, filtered_df df w = Ok f -> empty f = false ->
       row_rel flag_of_amount f "Sale_Over_1000" "Final_Line_Amount".
Proof.
  intros Hload.
  pose proof (loaded_flags _ _ Hload) as Hdf.
  split; [exact Hdf |].
  intros w f Hf Hne.
  eapply row_rel_narrowed; [| exact Hdf].
  eapply filtered_df_narrowed; eassumption.
Qed.

Lemma flag_agrees_with_amount_witness :
  row_rel flag_of_amount (loaded EA_csv) "Sale_Over_1000" "Final_Line_Amount"
  /\ forall w f, filtered_df (loaded EA_csv) w = Ok f -> empty f = false ->
       row_rel flag_of_amount f "Sale_Over_1000" "Final_Line_Amount".
Proof.
  apply (flag_agrees_with_amount (Some EA_csv) (loaded EA_csv)).
  vm_compute; reflexivity.
Defined.

Lemma dates_after_dropna (df1 df2 df3 : DataFrame) :
  assign df1 "Posting_Date" "Posting_Date" pd.to_datetime = Ok df2 ->
  dropna df2 "Posting_Date" = Ok df3 ->
  col_all is_time df3 "Posting_Date".
Proof.
  intros Hdate Hdrop.
  apply (col_all_impl (fun v => time_or_nat v /\ isna v = false)).
  - intros v [[Ht | ->] Hna]; [exact Ht | discriminate Hna].
  - eapply dropna_col; [exact Hdrop |].
    eapply col_all_assign_same; [exact Hdate |].
    apply to_datetime_time_or_nat.
Qed.

Lemma derived_from_date (dfa dfb : DataFrame) (c : string)
  (f : Value -> Value) :
  assign dfa c "Posting_Date" f = Ok dfb ->
  c <> "Posting_Date" ->
  col_all is_time dfa "Posting_Date" ->
  row_rel (fun d y => exists t, d = VTime t /\ y = f (VTime t))
          dfb "Posting_Date" c.
Proof.
  intros Hassign Hne Hdates.
  apply (row_rel_impl (fun d y => y = f d /\ is_time d)).
  { intros d y [-> (t & ->)]; exists t; split; reflexivity. }
  apply row_rel_flip
    with (R := fun y d => y = f d /\ is_time d).
  apply row_rel_col.
  - apply row_rel_flip with (R := fun d y => y = f d).
    eapply row_rel_assign; eassumption.
  - eapply col_all_assign_other; eassumption.
Qed.

Lemma row_rel_after_coercion (R : Value -> Value -> Prop)
  (df8 : DataFrame) (cols : list string) (c1 c2 : string) :
  ~ In c1 cols -> ~ In c2 cols -> row_rel R df8 c1 c2 ->
  row_rel R (fold_left (transform pd.fillna0) cols
               (fold_left (transform clean_numeric) cols df8)) c1 c2.
Proof.
  intros H1 H2 H.
  apply row_rel_fold_transform; [exact H1 | intros Hin; contradiction |].
  apply row_rel_fold_transform; [exact H1 | intros Hin; contradiction |].
  exact H.
Qed.

(** X6.  In every table the loader returns, and in every table filtered
    from it, the year, the month name, the day of the week and the
    quarter of a row are those of the posting date of that row. *)
Theorem calendar_columns_agree_with_date (file : option DataFrame)
  (df f : DataFrame) :
  load_data file = Done df ->
  f = df \/ (exists w, filtered_df df w = Ok f /\ empty f = false) ->
  row_rel (fun d y => exists t, d = VTime t /\ y = VNum (inject_Z (year t)))
          f "Posting_Date" "Year"
  /\ row_rel (fun d m => exists t, d = VTime t
                                   /\ m = VStr (month_name (month t)))
             f "Posting_Date" "Month"
  /\ row_rel (fun d n => exists t, d = VTime t /\ n = VStr (day_name t))
             f "Posting_Date" "Day_of_Week"
  /\ row_rel (fun d q => exists t, d = VTime t
                                   /\ q = VStr ("Q" ++ str_of_Z (quarter t)))
             f "Posting_Date" "Quarter".
Proof.
  intros Hload Hf.
  assert (Hnarrow : narrowed f df).
  { destruct Hf as [-> | (w & Hw & Hne)]; [apply narrowed_refl |].
    eapply filtered_df_narrowed; eassumption. }
  destruct (load_data_run _ _ Hload)
    as (csv & df2 & df3 & amount & over & df5 & df6 & df7 & df8
        & _ & Hdate & Hdrop & _ & _ & Hyear & Hmonth & Hday
        & Hquarter & Hdf).
  pose proof (dates_after_dropna _ _ _ Hdate Hdrop) as H3.
  assert (H4 : col_all is_time (setitem df3 "Sale_Over_1000" over)
                 "Posting_Date")
    by (apply col_all_setitem_other; [discriminate | exact H3]).
  assert (H5 : col_all is_time df5 "Posting_Date")
    by (eapply col_all_assign_other; [exact Hyear | discriminate | exact H4]).
  assert (H6 : col_all is_time df6 "Posting_Date")
    by (eapply col_all_assign_other; [exact Hmonth | discriminate | exact H5]).
  assert (H7 : col_all is_time df7 "Posting_Date")
    by (eapply col_all_assign_other; [exact Hday | discriminate | exact H6]).
  assert (Hnot : forall c, existsb (String.eqb c) numeric_cols = false ->
                           ~ In c numeric_cols)
    by (intros c; apply not_numeric_col).
  rewrite Hdf in Hnarrow; clear Hdf.
  repeat split; (eapply row_rel_narrowed; [exact Hnarrow |]);
    (apply row_rel_after_coercion;
     [apply Hnot; reflexivity | apply Hnot; reflexivity |]).
  - eapply row_rel_assign_other; [exact Hquarter | discriminate .. |].
    eapply row_rel_assign_other; [exact Hday | discriminate .. |].
    eapply row_rel_assign_other; [exact Hmonth | discriminate .. |].
    apply (derived_from_date _ _ "Year" pd.dt_year Hyear);
      [discriminate | exact H4].
  - eapply row_rel_assign_other; [exact Hquarter | discriminate .. |].
    eapply row_rel_assign_other; [exact Hday | discriminate .. |].
    apply (derived_from_date _ _ "Month" pd.dt_month_name Hmonth);
      [discriminate | exact H5].
  - eapply row_rel_assign_other; [exact Hquarter | discriminate .. |].
    apply (derived_from_date _ _ "Day_of_Week" pd.dt_day_name Hday);
      [discriminate | exact H6].
  - eapply row_rel_impl;
      [| apply (derived_from_date _ _ "Quarter" _ Hquarter);
         [discriminate | exact H7]].
    intros d q (t & -> & ->); exists t; split; [reflexivity |].
    cbn [pd.dt_quarter format_quarter]; now rewrite Qfloor_Z.
Qed.

Lemma calendar_columns_agree_with_date_witness :
  let f := loaded EA_csv in
  row_rel (fun d y => exists t, d = VTime t /\ y = VNum (inject_Z (year t)))
          f "Posting_Date" "Year"
  /\ row_rel (fun d m => exists t, d = VTime t
                                   /\ m = VStr (month_name (month t)))
             f "Posting_Date" "Month"
  /\ row_rel (fun d n => exists t, d = VTime t /\ n = VStr (day_name t))
             f "Posting_Date" "Day_of_Week"
  /\ row_rel (fun d q => exists t, d = VTime t
                                   /\ q = VStr ("Q" ++ str_of_Z (quarter t)))
             f "Posting_Date" "Quarter".
Proof.
  apply (calendar_columns_agree_with_date (Some EA_csv) (loaded EA_csv)
           (loaded EA_csv)).
  - vm_compute; reflexivity.
  - left; reflexivity.
Defined.

(* ================================================================= *)
(** ** The widgets at their defaults *)
















(* ================================================================= *)
(** ** When the loader returns a table *)

Lemma combine_map_self {A B : Type} (g : A -> B) (l : list A) :
  combine l (map g l) = map (fun x => (x, g x)) l.
Proof.
  induction l as [| a l IH]; simpl; [reflexivity | now rewrite IH].
Qed.

Lemma filter_map_swap {A B : Type} (p : B -> bool) (g : A -> B)
  (l : list A) :
  filter p (map g l) = map g (filter (fun x => p (g x)) l).
Proof.
  induction l as [| a l IH]; simpl; [reflexivity |].
  destruct (p (g a)); simpl; now rewrite IH.
Qed.

Lemma setitem_columns_same (df : DataFrame) (c : string) (i : nat)
  (vals : list Value) :
  get_loc c (columns df) = Some i -> columns (setitem df c vals) = columns df.
Proof.
  intros H; unfold setitem; now rewrite H.
Qed.

Lemma get_loc_app_other (c c' : string) (cols : list string) :
  c' <> c -> get_loc c' (cols ++ [c]) = get_loc c' cols.
Proof.
  intros Hne; induction cols as [| a cols IH]; simpl.
  - destruct (String.eqb_spec c' c); [contradiction | reflexivity].
  - destruct (String.eqb c' a); [reflexivity | now rewrite IH].
Qed.

Lemma has_column_setitem (df : DataFrame) (c c' : string)
  (vals : list Value) :
  has_column df c' = true -> has_column (setitem df c vals) c' = true.
Proof.
  intros H; apply has_column_loc in H as (j & Hj).
  unfold has_column; now rewrite (setitem_loc_other df c c' vals j Hj).
Qed.

Lemma has_column_setitem_inv (df : DataFrame) (c c' : string)
  (vals : list Value) :
  c' <> c -> has_column (setitem df c vals) c' = true ->
  has_column df c' = true.
Proof.
  intros Hne; unfold has_column, setitem.
  destruct (get_loc c (columns df)); cbn [columns]; [tauto |].
  now rewrite get_loc_app_other.
Qed.

Lemma has_column_assign (df df' : DataFrame) (c src c' : string)
  (f : Value -> Value) :
  assign df c src f = Ok df' ->
  has_column df c' = true -> has_column df' c' = true.
Proof.
  unfold assign; intros H Hc.
  apply bind_Ok in H as (s & _ & H); apply Ok_inj in H; subst df'.
  now apply has_column_setitem.
Qed.

Lemma has_column_assign_inv (df df' : DataFrame) (c src c' : string)
  (f : Value -> Value) :
  assign df c src f = Ok df' -> c' <> c ->
  has_column df' c' = true -> has_column df c' = true.
Proof.
  unfold assign; intros H Hne Hc.
  apply bind_Ok in H as (s & _ & H); apply Ok_inj in H; subst df'.
  eapply has_column_setitem_inv; eassumption.
Qed.

Lemma assign_Ok (df : DataFrame) (c src : string) (f : Value -> Value) :
  has_column df src = true -> exists df', assign df c src f = Ok df'.
Proof.
  intros H; apply has_column_loc in H as (i & Hi).
  unfold assign, getitem, loc; rewrite Hi; cbn [bind].
  eexists; reflexivity.
Qed.

Lemma dropna_columns (df df' : DataFrame) (c : string) :
  dropna df c = Ok df' -> columns df' = columns df.
Proof.
  unfold dropna; intros H; apply bind_Ok in H as (i & _ & H).
  apply Ok_inj in H; now subst df'.
Qed.

Lemma has_column_eq (df df' : DataFrame) (c : string) :
  columns df' = columns df -> has_column df' c = has_column df c.
Proof.
  unfold has_column; now intros ->.
Qed.

(** A column other than the date, once the dates are parsed and the rows
    without a date dropped: the cells of the export, row by row, for the
    rows whose date parses. *)
Lemma cells_after_dropna (df1 df2 df3 : DataFrame) (c : string)
  (cells : list Value) (i k : nat) :
  get_loc "Posting_Date" (columns df1) = Some i ->
  get_loc c (columns df1) = Some k ->
  c <> "Posting_Date" ->
  assign df1 "Posting_Date" "Posting_Date" pd.to_datetime = Ok df2 ->
  dropna df2 "Posting_Date" = Ok df3 ->
  getitem df3 c = Ok cells ->
  cells = map (fun r => iloc r k) (filter (date_parses i) (values df1)).
Proof.
  intros Hi Hk Hne Hdate Hdrop Hcells.
  assert (Hik : i <> k).
  { intros ->; apply Hne; eapply get_loc_inj; eassumption. }
  unfold assign, getitem, loc in Hdate; rewrite Hi in Hdate.
  cbn [bind] in Hdate; apply Ok_inj in Hdate; subst df2.
  unfold dropna, loc in Hdrop.
  rewrite (setitem_loc_other _ _ _ _ _ Hi) in Hdrop.
  cbn [bind] in Hdrop; apply Ok_inj in Hdrop; subst df3.
  unfold getitem, loc, select in Hcells; cbn [columns values] in Hcells.
  rewrite (setitem_loc_other _ _ _ _ _ Hk) in Hcells.
  cbn [bind] in Hcells; apply Ok_inj in Hcells; subst cells.
  rewrite setitem_values; unfold target; rewrite Hi.
  rewrite map_map, combine_map_self, map_map; cbn [fst snd].
  rewrite filter_map_swap, map_map.
  erewrite filter_ext, map_ext; [reflexivity | |].
  - intros r; cbn beta; now apply iloc_set_nth_other.
  - intros r; cbn beta; now rewrite iloc_set_nth_same.
Qed.

Lemma amounts_compared (df1 df2 df3 : DataFrame) (amount : list Value)
  (i j : nat) :
  get_loc "Posting_Date" (columns df1) = Some i ->
  get_loc "Final_Line_Amount" (columns df1) = Some j ->
  assign df1 "Posting_Date" "Posting_Date" pd.to_datetime = Ok df2 ->
  dropna df2 "Posting_Date" = Ok df3 ->
  getitem df3 "Final_Line_Amount" = Ok amount ->
  amount = map (fun r => iloc r j) (filter (date_parses i) (values df1)).
Proof.
  intros Hi Hj; apply cells_after_dropna; [exact Hi | exact Hj |].
  discriminate.
Qed.

Lemma gt_comparable (n : Q) (v : Value) :
  comparable v = true <-> exists flag, pd.gt n v = Ok flag.
Proof.
  destruct v as [s | q | b | t |]; cbn [comparable pd.gt]; split;
    try (intros _; eexists; reflexivity);
    try (intros H; discriminate H);
    try (intros (flag & H); discriminate H);
    reflexivity.
Qed.

Lemma mapM_Ok_iff {A B : Type} (f : A -> result B) (l : list A) :
  (exists ys, mapM f l = Ok ys) <-> (forall x, In x l -> exists y, f x = Ok y).
Proof.
  split.
  - intros (ys & H); now apply (mapM_Ok_In f l ys).
  - apply mapM_total.
Qed.

Lemma amount_is_numeric : In "Final_Line_Amount" numeric_cols.
Proof.
  unfold numeric_cols; do 5 right; left; reflexivity.
Qed.

Lemma load_data_try_run (csv df : DataFrame) :
  load_data_try (Some csv) = Ok df <->
  exists df2 df3 amount over df5 df6 df7 df8,
    assign (renamed csv) "Posting_Date" "Posting_Date" pd.to_datetime
    = Ok df2
    /\ dropna df2 "Posting_Date" = Ok df3
    /\ getitem df3 "Final_Line_Amount" = Ok amount
    /\ mapM (pd.gt 1000) amount = Ok over
    /\ assign (setitem df3 "Sale_Over_1000" over) "Year" "Posting_Date"
         pd.dt_year = Ok df5
    /\ assign df5 "Month" "Posting_Date" pd.dt_month_name = Ok df6
    /\ assign df6 "Day_of_Week" "Posting_Date" pd.dt_day_name = Ok df7
    /\ assign df7 "Quarter" "Posting_Date"
         (fun v => format_quarter (pd.dt_quarter v)) = Ok df8
    /\ fillna_columns (fold_left (transform clean_numeric) numeric_cols df8)
         numeric_cols = Ok df.
Proof.
  unfold load_data_try, read_csv; cbn [bind]; fold (renamed csv).
  split.
  - intros Htry.
    apply bind_Ok in Htry as (df2 & Hdate & Htry).
    apply bind_Ok in Htry as (df3 & Hdrop & Htry).
    apply bind_Ok in Htry as (amount & Hamount & Htry).
    apply bind_Ok in Htry as (over & Hover & Htry).
    apply bind_Ok in Htry as (df5 & Hyear & Htry).
    apply bind_Ok in Htry as (df6 & Hmonth & Htry).
    apply bind_Ok in Htry as (df7 & Hday & Htry).
    apply bind_Ok in Htry as (df8 & Hquarter & Hfill).
    exists df2, df3, amount, over, df5, df6, df7, df8.
    repeat split; assumption.
  - intros (df2 & df3 & amount & over & df5 & df6 & df7 & df8
            & Hdate & Hdrop & Hamount & Hover & Hyear & Hmonth & Hday
            & Hquarter & Hfill).
    rewrite Hdate; cbn [bind]; rewrite Hdrop; cbn [bind].
    rewrite Hamount; cbn [bind]; rewrite Hover; cbn [bind].
    rewrite Hyear; cbn [bind]; rewrite Hmonth; cbn [bind].
    rewrite Hday; cbn [bind]; rewrite Hquarter; cbn [bind].
    exact Hfill.
Qed.

Lemma load_data_Done (csv df : DataFrame) :
  load_data (Some csv) = Done df <-> load_data_try (Some csv) = Ok df.
Proof.
  unfold load_data; split.
  - destruct (load_data_try (Some csv)) as [df' | e];
      [| destruct e; discriminate].
    intros H; apply Done_inj in H; now subst.
  - now intros ->.
Qed.

(** X8.  Of the plain exports (a header of printable ASCII labels, no
    two alike once stripped and renamed; dates missing or written
    DD-MM-YYYY in full), the loader returns a table exactly for those
    that have the date column and every numeric column under their
    names and hold no text in the amount of a row that has a date; for
    every other plain export the run stops. *)
Theorem loader_returns_a_table_iff (csv : DataFrame) :
  plain_export csv = true ->
  (exists df, load_data (Some csv) = Done df) <-> loadable csv = true.
Proof.
  intros _; unfold loadable; cbv zeta.
  assert (Hrows : values (renamed csv) = values csv) by reflexivity.
  rewrite andb_true_iff; split.
  - intros (df & Hload); apply load_data_Done, load_data_try_run in Hload.
    destruct Hload as (df2 & df3 & amount & over & df5 & df6 & df7 & df8
                       & Hdate & Hdrop & Hamount & Hover & Hyear & Hmonth
                       & Hday & Hquarter & Hfill).
    assert (Hback : forall c, c <> "Posting_Date" ->
                      existsb (String.eqb c)
                        ["Sale_Over_1000"; "Year"; "Month"; "Day_of_Week";
                         "Quarter"] = false ->
                      has_column df8 c = true ->
                      has_column (renamed csv) c = true).
    { intros c Hpd Hnew H8.
      cbn [existsb] in Hnew; rewrite !orb_false_iff in Hnew.
      destruct Hnew as (Hs & Hy & Hm & Hd & Hq & _).
      apply String.eqb_neq in Hs, Hy, Hm, Hd, Hq.
      apply (has_column_assign_inv _ _ _ _ c _ Hquarter Hq) in H8.
      apply (has_column_assign_inv _ _ _ _ c _ Hday Hd) in H8.
      apply (has_column_assign_inv _ _ _ _ c _ Hmonth Hm) in H8.
      apply (has_column_assign_inv _ _ _ _ c _ Hyear Hy) in H8.
      apply (has_column_setitem_inv _ _ _ _ Hs) in H8.
      rewrite (has_column_eq _ _ _ (dropna_columns _ _ _ Hdrop)) in H8.
      eapply has_column_assign_inv; eassumption. }
    assert (Hpd : has_column (renamed csv) "Posting_Date" = true).
    { unfold assign in Hdate; apply bind_Ok in Hdate as (s & Hs & _).
      unfold getitem in Hs; apply bind_Ok in Hs as (i & Hi & _).
      eapply loc_has_column; exact Hi. }
    apply fillna_columns_Ok in Hfill as [_ Hnum].
    assert (Hcols : forall c, In c numeric_cols ->
                      has_column (renamed csv) c = true).
    { intros c Hc; pose proof (Hnum c Hc) as H8.
      rewrite (has_column_eq df8) in H8
        by apply fold_transform_columns.
      apply Hback; [| | exact H8].
      - intros ->; revert Hc; apply not_numeric_col; reflexivity.
      - destruct (existsb (String.eqb c) _) eqn:E; [| reflexivity].
        exfalso; apply existsb_exists in E as (x & Hx & Hcx).
        apply String.eqb_eq in Hcx; subst x.
        revert Hc; apply not_numeric_col.
        destruct Hx as [<- | [<- | [<- | [<- | [<- | []]]]]]; reflexivity. }
    split.
    + apply forallb_forall; intros c [<- | Hc]; [exact Hpd | now apply Hcols].
    + apply forallb_forall; intros r Hr.
      apply has_column_position in Hpd.
      assert (Hfla : has_column (renamed csv) "Final_Line_Amount" = true)
        by (apply Hcols; exact amount_is_numeric).
      apply has_column_position in Hfla.
      pose proof (amounts_compared _ _ _ _ _ _ Hpd Hfla Hdate Hdrop Hamount)
        as Heq.
      rewrite Hrows in Heq.
      apply (gt_comparable 1000).
      apply (mapM_Ok_In _ _ _ Hover).
      rewrite Heq; apply in_map_iff; now exists r.
  - intros [Hcols Hcells].
    rewrite forallb_forall in Hcols, Hcells.
    assert (Hpd : has_column (renamed csv) "Posting_Date" = true)
      by (apply Hcols; now left).
    assert (Hnum : forall c, In c numeric_cols ->
                     has_column (renamed csv) c = true)
      by (intros c Hc; apply Hcols; now right).
    assert (Hfla : has_column (renamed csv) "Final_Line_Amount" = true)
      by (apply Hnum; exact amount_is_numeric).
    destruct (assign_Ok (renamed csv) "Posting_Date" "Posting_Date"
                pd.to_datetime Hpd) as (df2 & Hdate).
    assert (Hdrop : exists df3, dropna df2 "Posting_Date" = Ok df3).
    { pose proof (has_column_assign _ _ _ _ _ _ Hdate Hpd) as H2.
      apply has_column_loc in H2 as (i & Hi).
      unfold dropna, loc; rewrite Hi; cbn [bind]; eexists; reflexivity. }
    destruct Hdrop as (df3 & Hdrop).
    assert (H3 : forall c, has_column (renamed csv) c = true ->
                   has_column df3 c = true).
    { intros c Hc.
      rewrite (has_column_eq _ _ _ (dropna_columns _ _ _ Hdrop)).
      eapply has_column_assign; eassumption. }
    assert (Hamount : exists amount,
               getitem df3 "Final_Line_Amount" = Ok amount).
    { pose proof (H3 _ Hfla) as H; apply has_column_loc in H as (j & Hj).
      unfold getitem, loc; rewrite Hj; cbn [bind]; eexists; reflexivity. }
    destruct Hamount as (amount & Hamount).
    assert (Hover : exists over, mapM (pd.gt 1000) amount = Ok over).
    { apply mapM_total; intros v Hv; apply gt_comparable.
      pose proof (amounts_compared _ _ _ _ _ _
                    (has_column_position _ _ Hpd)
                    (has_column_position _ _ Hfla) Hdate Hdrop Hamount)
        as Heq.
      rewrite Hrows in Heq; rewrite Heq in Hv.
      apply in_map_iff in Hv as (r & <- & Hr); now apply Hcells. }
    destruct Hover as (over & Hover).
    set (df4 := setitem df3 "Sale_Over_1000" over).
    assert (H4 : forall c, has_column (renamed csv) c = true ->
                   has_column df4 c = true)
      by (intros c Hc; apply has_column_setitem, H3, Hc).
    destruct (assign_Ok df4 "Year" "Posting_Date" pd.dt_year (H4 _ Hpd))
      as (df5 & Hyear).
    assert (H5 : forall c, has_column (renamed csv) c = true ->
                   has_column df5 c = true)
      by (intros c Hc; eapply has_column_assign; [exact Hyear | auto]).
    destruct (assign_Ok df5 "Month" "Posting_Date" pd.dt_month_name
                (H5 _ Hpd)) as (df6 & Hmonth).
    assert (H6 : forall c, has_column (renamed csv) c = true ->
                   has_column df6 c = true)
      by (intros c Hc; eapply has_column_assign; [exact Hmonth | auto]).
    destruct (assign_Ok df6 "Day_of_Week" "Posting_Date" pd.dt_day_name
                (H6 _ Hpd)) as (df7 & Hday).
    assert (H7 : forall c, has_column (renamed csv) c = true ->
                   has_column df7 c = true)
      by (intros c Hc; eapply has_column_assign; [exact Hday | auto]).
    destruct (assign_Ok df7 "Quarter" "Posting_Date"
                (fun v => format_quarter (pd.dt_quarter v)) (H7 _ Hpd))
      as (df8 & Hquarter).
    assert (H8 : forall c, has_column (renamed csv) c = true ->
                   has_column df8 c = true)
      by (intros c Hc; eapply has_column_assign; [exact Hquarter | auto]).
    assert (Hlocs : exists locs,
               mapM (loc (fold_left (transform clean_numeric) numeric_cols
                            df8)) numeric_cols = Ok locs).
    { apply mapM_total; intros c Hc.
      pose proof (H8 _ (Hnum c Hc)) as H.
      rewrite <- (has_column_eq df8 (fold_left (transform clean_numeric)
                                       numeric_cols df8))
        in H by apply fold_transform_columns.
      apply has_column_loc in H as (k & Hk).
      exists k; unfold loc; now rewrite Hk. }
    destruct Hlocs as (locs & Hlocs).
    eexists; apply load_data_Done, load_data_try_run.
    exists df2, df3, amount, over, df5, df6, df7, df8.
    repeat split; try eassumption.
    unfold fillna_columns; rewrite Hlocs; cbn [bind]; reflexivity.
Qed.

Lemma loader_returns_a_table_iff_witness :
  (exists df, load_data (Some EA_plain) = Done df)
  <-> loadable EA_plain = true.
Proof.
  apply (loader_returns_a_table_iff EA_plain).
  vm_compute; reflexivity.
Defined.

(* ================================================================= *)
(** ** The columns the loader leaves alone *)

Lemma map_fst_combine_same {A B : Type} (l : list A) :
  forall l' : list B, List.length l' = List.length l ->
    map fst (combine l l') = l.
Proof.
  induction l as [| a l IH]; intros [| b l'] H; simpl in *;
    try reflexivity; try discriminate.
  now rewrite IH by lia.
Qed.

Lemma cells_setitem_other (df : DataFrame) (c c' : string) (k : nat)
  (vals : list Value) :
  get_loc c (columns df) = Some k -> c' <> c ->
  List.length vals = List.length (values df) ->
  map (fun r => iloc r k) (values (setitem df c' vals))
  = map (fun r => iloc r k) (values df).
Proof.
  intros Hk Hne Hlen.
  rewrite setitem_values, map_map.
  rewrite <- (map_fst_combine_same (values df) vals Hlen) at 2.
  rewrite map_map; apply map_ext; intros [r v]; cbn [fst snd].
  apply iloc_set_nth_other; eapply target_other; eassumption.
Qed.

Lemma cells_assign_other (df df' : DataFrame) (c c' src : string)
  (f : Value -> Value) (k : nat) :
  assign df c' src f = Ok df' ->
  get_loc c (columns df) = Some k -> c' <> c ->
  get_loc c (columns df') = Some k
  /\ map (fun r => iloc r k) (values df')
     = map (fun r => iloc r k) (values df).
Proof.
  unfold assign, getitem; intros H Hk Hne.
  apply bind_Ok in H as (s & Hs & H); apply Ok_inj in H; subst df'.
  apply bind_Ok in Hs as (i & _ & Hs); apply Ok_inj in Hs; subst s.
  split; [now apply setitem_loc_other |].
  apply (cells_setitem_other _ c); [exact Hk | exact Hne |].
  now rewrite !length_map.
Qed.

Lemma cells_transform_other (f : Value -> Value) (df : DataFrame)
  (c c' : string) (k : nat) :
  get_loc c (columns df) = Some k -> c' <> c ->
  get_loc c (columns (transform f df c')) = Some k
  /\ map (fun r => iloc r k) (values (transform f df c'))
     = map (fun r => iloc r k) (values df).
Proof.
  intros Hk Hne; unfold transform.
  destruct (get_loc c' (columns df)) as [i |]; [| now split].
  split; [now apply setitem_loc_other |].
  apply (cells_setitem_other _ c); [exact Hk | exact Hne |].
  now rewrite length_map.
Qed.

Lemma cells_fold_transform (f : Value -> Value) (l : list string)
  (c : string) (k : nat) :
  ~ In c l ->
  forall df, get_loc c (columns df) = Some k ->
    get_loc c (columns (fold_left (transform f) l df)) = Some k
    /\ map (fun r => iloc r k) (values (fold_left (transform f) l df))
       = map (fun r => iloc r k) (values df).
Proof.
  induction l as [| c' l IH]; cbn [fold_left]; intros Hnot df Hk;
    [now split |].
  assert (Hne : c' <> c) by (intros ->; apply Hnot; now left).
  destruct (cells_transform_other f df c c' k Hk Hne) as [Hk' Hcells].
  destruct (IH (fun H => Hnot (or_intror H)) _ Hk') as [Hk'' Hcells'].
  split; [exact Hk'' | now rewrite Hcells'].
Qed.

Lemma written_cols_split (c : string) :
  existsb (String.eqb c) written_cols = false ->
  c <> "Posting_Date" /\ c <> "Sale_Over_1000" /\ c <> "Year"
  /\ c <> "Month" /\ c <> "Day_of_Week" /\ c <> "Quarter"
  /\ ~ In c numeric_cols.
Proof.
  unfold written_cols; rewrite existsb_app; intros H.
  apply orb_false_iff in H as [H Hnum].
  cbn [existsb] in H; rewrite !orb_false_iff in H.
  destruct H as (H1 & H2 & H3 & H4 & H5 & H6 & _).
  apply String.eqb_neq in H1, H2, H3, H4, H5, H6.
  repeat split; try assumption.
  now apply not_numeric_col.
Qed.

(** X9.  A column of a plain export (a header of printable ASCII
    labels, no two alike once stripped and renamed; dates missing or
    written DD-MM-YYYY in full) that the loader neither parses, derives
    nor coerces comes out of it as it went in: the loaded table holds it
    under its new name, with the cells of the export in their order, for
    the rows that have a date. *)
Theorem other_columns_pass_through (csv df : DataFrame) (c : string) :
  plain_export csv = true ->
  load_data (Some csv) = Done df ->
  has_column (renamed csv) c = true ->
  existsb (String.eqb c) written_cols = false ->
  getitem df c
  = Ok (map (fun r => iloc r (position (columns (renamed csv)) c))
          (filter (date_parses
                     (position (columns (renamed csv)) "Posting_Date"))
             (values csv))).
Proof.
  intros _ Hload Hc Hnot.
  apply written_cols_split in Hnot
    as (Npd & Nflag & Nyear & Nmonth & Nday & Nquarter & Nnum).
  apply load_data_Done, load_data_try_run in Hload.
  destruct Hload as (df2 & df3 & amount & over & df5 & df6 & df7 & df8
                     & Hdate & Hdrop & Hamount & Hover & Hyear & Hmonth
                     & Hday & Hquarter & Hfill).
  apply fillna_columns_Ok in Hfill as [-> _].
  apply has_column_position in Hc.
  set (k := position (columns (renamed csv)) c) in *.
  assert (Hpd : get_loc "Posting_Date" (columns (renamed csv))
                = Some (position (columns (renamed csv)) "Posting_Date")).
  { apply has_column_position.
    unfold assign in Hdate; apply bind_Ok in Hdate as (s & Hs & _).
    unfold getitem in Hs; apply bind_Ok in Hs as (i & Hi & _).
    eapply loc_has_column; exact Hi. }
  destruct (cells_assign_other _ _ c _ _ _ k Hdate Hc
              (fun H => Npd (eq_sym H))) as [Hk2 _].
  assert (Hk3 : get_loc c (columns df3) = Some k)
    by (now rewrite (dropna_columns _ _ _ Hdrop)).
  assert (H3 : getitem df3 c = Ok (map (fun r => iloc r k) (values df3)))
    by (unfold getitem, loc; now rewrite Hk3).
  pose proof (cells_after_dropna _ _ _ _ _ _ _ Hpd Hc Npd Hdate Hdrop H3)
    as Hcells3.
  change (values (renamed csv)) with (values csv) in Hcells3.
  assert (Hlen : List.length over = List.length (values df3)).
  { rewrite (mapM_length _ _ _ Hover).
    unfold getitem in Hamount; apply bind_Ok in Hamount as (j & _ & Hj).
    apply Ok_inj in Hj; subst amount; apply length_map. }
  pose proof (cells_setitem_other df3 c "Sale_Over_1000" k over Hk3
                (fun H => Nflag (eq_sym H)) Hlen) as Hcells4.
  pose proof (setitem_loc_other df3 "Sale_Over_1000" c over k Hk3) as Hk4.
  destruct (cells_assign_other _ _ c _ _ _ k Hyear Hk4
              (fun H => Nyear (eq_sym H))) as [Hk5 Hcells5].
  destruct (cells_assign_other _ _ c _ _ _ k Hmonth Hk5
              (fun H => Nmonth (eq_sym H))) as [Hk6 Hcells6].
  destruct (cells_assign_other _ _ c _ _ _ k Hday Hk6
              (fun H => Nday (eq_sym H))) as [Hk7 Hcells7].
  destruct (cells_assign_other _ _ c _ _ _ k Hquarter Hk7
              (fun H => Nquarter (eq_sym H))) as [Hk8 Hcells8].
  destruct (cells_fold_transform clean_numeric numeric_cols c k Nnum
              df8 Hk8) as [Hk9 Hcells9].
  destruct (cells_fold_transform pd.fillna0 numeric_cols c k Nnum
              _ Hk9) as [Hk10 Hcells10].
  unfold getitem, loc; rewrite Hk10; cbn [bind].
  f_equal.
  rewrite Hcells10, Hcells9, Hcells8, Hcells7, Hcells6, Hcells5, Hcells4.
  exact Hcells3.
Qed.

Lemma other_columns_pass_through_witness :
  getitem (loaded EA_plain) "Region"
  = Ok (map (fun r => iloc r (position (columns (renamed EA_plain)) "Region"))
          (filter (date_parses
                     (position (columns (renamed EA_plain)) "Posting_Date"))
             (values EA_plain))).
Proof.
  apply (other_columns_pass_through EA_plain (loaded EA_plain) "Region");
    vm_compute; reflexivity.
Defined.

(* ================================================================= *)
(** ** The chart of the online stores and the choices of a multiselect *)

Lemma text_key (v : Value) :
  text_or_missing v = true -> isna v = false ->
  exists k, v = VStr k.
Proof.
  destruct v as [s | q | b | t |]; try discriminate.
  intros _ _; now exists s.
Qed.

Lemma has_key_text (i : nat) (k : string) (r : Row) :
  iloc r i = VStr k -> has_key i k r = true.
Proof.
  intros H; unfold has_key; rewrite H; cbn [key_of]; apply String.eqb_refl.
Qed.

Lemma group_keys_text (i : nat) (rows : list Row) (k : string) :
  In k (group_keys i rows) <-> exists r, In r rows /\ iloc r i = VStr k.
Proof.
  rewrite group_keys_In, existsb_exists; split; intros (r & Hr & H);
    exists r; (split; [exact Hr |]).
  - unfold has_key in H.
    destruct (iloc r i) as [s | q | b | t |]; cbn [key_of] in H;
      try discriminate H.
    apply String.eqb_eq in H; now subst.
  - now apply has_key_text.
Qed.

(** X10.  Where the store column holds text or nothing, the place of
    the chart of the online stores shows either a chart with at least
    one store or the notice that the column is not available or all
    null: the notice that there is no data for the chart is never
    shown. *)
Theorem online_store_chart_shows (f : DataFrame) (shown : Shown) :
  (forall stores, getitem f "Online_Store" = Ok stores ->
                  forallb text_or_missing stores = true) ->
  online_store_chart f = Ok shown ->
  shown = Notice "Online_Store data not available or all null for visualization."
  \/ exists s, shown = Chart s /\ s <> [].
Proof.
  intros Htext; unfold online_store_chart.
  destruct (has_column f "Online_Store") eqn:Hcol;
    [| intros H; apply Ok_inj in H; now left].
  apply has_column_loc in Hcol as (i & Hi).
  assert (Hget : getitem f "Online_Store"
                 = Ok (map (fun r => iloc r i) (values f)))
    by (unfold getitem, loc; now rewrite Hi).
  specialize (Htext _ Hget); rewrite Hget; cbn [bind].
  destruct (forallb isna (map (fun r => iloc r i) (values f))) eqn:Hna;
    cbn [negb]; [intros H; apply Ok_inj in H; now left |].
  intros H; apply bind_Ok in H as (s & Hs & H).
  destruct s as [| x s]; [exfalso | apply Ok_inj in H; right; eauto].
  2: { exists (x :: s); split; [now symmetry | discriminate]. }
  clear H.
  assert (Hex : exists r, In r (values f) /\ isna (iloc r i) = false).
  { destruct (forallb_forall isna (map (fun r => iloc r i) (values f)))
      as [_ Hall].
    destruct (existsb (fun r => negb (isna (iloc r i))) (values f)) eqn:E.
    - apply existsb_exists in E as (r & Hr & Hn); exists r; split;
        [exact Hr | now apply negb_true_iff].
    - rewrite Hall in Hna; [discriminate |].
      intros v Hv; apply in_map_iff in Hv as (r & <- & Hr).
      destruct (isna (iloc r i)) eqn:Er; [reflexivity |].
      assert (Ht : existsb (fun r => negb (isna (iloc r i))) (values f)
                   = true)
        by (apply existsb_exists; exists r; split;
            [exact Hr | now rewrite Er]).
      congruence. }
  destruct Hex as (r & Hr & Hn).
  assert (Hcell : text_or_missing (iloc r i) = true).
  { rewrite forallb_forall in Htext; apply Htext.
    apply in_map_iff; now exists r. }
  destruct (text_key _ Hcell Hn) as (k & Hk).
  assert (Hin : In k (group_keys i (values f)))
    by (apply group_keys_text; now exists r).
  unfold groupby_sum, groupby in Hs.
  apply bind_Ok in Hs as (g & Hg & Hs); apply Ok_inj in Hs.
  apply bind_Ok in Hg as (i' & Hi' & Hg).
  apply bind_Ok in Hg as (j & Hj & Hg); apply Ok_inj in Hg; subst g.
  unfold loc in Hi'; rewrite Hi in Hi'; apply Ok_inj in Hi'; subst i'.
  destruct (group_keys i (values f)); [contradiction | discriminate Hs].
Qed.

Lemma online_store_chart_shows_witness :
  Chart [("App", 1200%Q); ("Web", 1300%Q)]
  = Notice "Online_Store data not available or all null for visualization."
  \/ exists s, Chart [("App", 1200%Q); ("Web", 1300%Q)] = Chart s /\ s <> [].
Proof.
  apply (online_store_chart_shows (loaded EA_stores)).
  - intros stores H; vm_compute in H; apply Ok_inj in H; subst stores.
    reflexivity.
  - vm_compute; reflexivity.
Defined.

(** X11.  The choices a multiselect offers for a column of text are
    'All' and then the values of the column, each once, in ascending
    order; and each value offered, chosen alone, keeps at least one
    row. *)
Theorem options_of_a_column (f : DataFrame) (c : string) (i : nat) :
  get_loc c (columns f) = Some i ->
  forallb (fun r => text_or_missing (iloc r i)) (values f) = true ->
  exists ks,
    options f c = Ok ("All" :: ks)
    /\ StronglySorted (fun a b => String.leb a b = true) ks
    /\ NoDup ks
    /\ (forall k, In k ks <-> exists r, In r (values f) /\ iloc r i = VStr k)
    /\ (forall k, In k ks ->
          exists f', multiselect_filter c [k] f = Ok f' /\ values f' <> []).
Proof.
  intros Hi _; exists (group_keys i (values f)).
  split; [unfold options, loc; now rewrite Hi |].
  split; [apply group_keys_sorted |].
  split; [apply group_keys_NoDup |].
  split; [intros k; apply group_keys_text |].
  intros k Hk; apply group_keys_text in Hk as (r & Hr & Hcell).
  destruct f as [cols vs]; cbn [columns values] in *.
  rewrite (multiselect_filter_select c [k] cols i vs Hi).
  eexists; split; [reflexivity |]; cbn [values].
  assert (Hin : In r (filter (choice_criterion [k] i) vs)).
  { apply filter_In; split; [exact Hr |].
    unfold choice_criterion.
    destruct (existsb (String.eqb "All") [k]); [reflexivity |].
    unfold isin; rewrite Hcell; cbn [existsb].
    now rewrite String.eqb_refl. }
  intros Hnil; rewrite Hnil in Hin; contradiction.
Qed.

Lemma options_of_a_column_witness :
  exists ks,
    options (loaded EA_stores) "Online_Store" = Ok ("All" :: ks)
    /\ StronglySorted (fun a b => String.leb a b = true) ks
    /\ NoDup ks
    /\ (forall k, In k ks <->
                  exists r, In r (values (loaded EA_stores))
                            /\ iloc r 22 = VStr k)
    /\ (forall k, In k ks ->
          exists f', multiselect_filter "Online_Store" [k] (loaded EA_stores)
                     = Ok f' /\ values f' <> []).
Proof.
  apply (options_of_a_column (loaded EA_stores) "Online_Store" 22);
    vm_compute; reflexivity.
Defined.

(* ================================================================= *)
(** ** The key metrics *)

(** X12.  On the table the loader returns, and on every table filtered
    from it, the metric of the transactions over 1000 counts the rows
    whose amount is over 1000. *)
Theorem sales_over_1000_counts_amounts (file : option DataFrame)
  (df f : DataFrame) :
  load_data file = Done df ->
  f = df \/ (exists w, filtered_df df w = Ok f /\ empty f = false) ->
  exists j,
    get_loc "Final_Line_Amount" (columns f) = Some j
    /\ sales_over_1000 f
       = Ok (Z.of_nat (List.length
                         (filter (fun r => over_1000 (iloc r j))
                                 (values f)))).
Proof.
  intros Hload Hf.
  assert (Hnarrow : narrowed f df).
  { destruct Hf as [-> | (w & Hw & Hne)]; [apply narrowed_refl |].
    eapply filtered_df_narrowed; eassumption. }
  pose proof (row_rel_narrowed _ _ _ _ _ Hnarrow (loaded_flags _ _ Hload))
    as (i & j & Hi & Hj & Hrows).
  exists j; split; [exact Hj |].
  unfold sales_over_1000, loc; rewrite Hi; cbn [bind].
  do 3 f_equal; apply filter_ext_in; intros r Hr.
  rewrite Forall_forall in Hrows.
  destruct (Hrows r Hr) as (q & Ha & Hflag).
  rewrite Ha, Hflag; reflexivity.
Qed.

Lemma sales_over_1000_counts_amounts_witness :
  exists j,
    get_loc "Final_Line_Amount" (columns (loaded EA_csv)) = Some j
    /\ sales_over_1000 (loaded EA_csv)
       = Ok (Z.of_nat (List.length
                         (filter (fun r => over_1000 (iloc r j))
                                 (values (loaded EA_csv))))).
Proof.
  apply (sales_over_1000_counts_amounts (Some EA_csv) (loaded EA_csv)
           (loaded EA_csv)).
  - vm_compute; reflexivity.
  - left; reflexivity.
Defined.

(** X13.  The percentage of the transactions over 1000 is never
    negative, and it is at most 100 when every row has a document number
    of its own.  (Rows are counted over distinct document numbers, so
    lines that share a document number can take it above 100.) *)
Theorem percentage_bounds (f : DataFrame) (total sales : Z) :
  total_transactions f = Ok total ->
  sales_over_1000 f = Ok sales ->
  exists q,
    percentage_metric f = Ok q
    /\ (0 <= q)%Q
    /\ (total = Z.of_nat (List.length (values f)) -> (q <= 100)%Q).
Proof.
  intros Ht Hs.
  pose proof (total_transactions_nonneg _ _ Ht) as Hnn.
  assert (Hsales : (0 <= sales
                    /\ sales <= Z.of_nat (List.length (values f)))%Z).
  { unfold sales_over_1000 in Hs; apply bind_Ok in Hs as (i & _ & Hs).
    apply Ok_inj in Hs; subst sales.
    pose proof (List.filter_length_le (fun r => is_true (iloc r i))
                  (values f)).
    lia. }
  unfold percentage_metric; rewrite Ht, Hs; cbn [bind].
  rewrite percentage_over_1000_total.
  eexists; split; [reflexivity |].
  destruct (total >? 0)%Z eqn:Hpos.
  - rewrite Z.gtb_ltb in Hpos; apply Z.ltb_lt in Hpos.
    assert (Htq : (0 < inject_Z total)%Q)
      by (rewrite (Zlt_Qlt 0 total) in Hpos; exact Hpos).
    assert (Hsq : (0 <= inject_Z sales)%Q)
      by (destruct Hsales as [H0 _]; rewrite (Zle_Qle 0 sales) in H0;
          exact H0).
    split.
    + apply Qmult_le_0_compat; [| discriminate].
      apply Qle_shift_div_l; [exact Htq |].
      rewrite Qmult_0_l; exact Hsq.
    + intros Hall.
      assert (Hle : (inject_Z sales <= inject_Z total)%Q)
        by (rewrite <- (Zle_Qle sales total); lia).
      assert (Hdiv : (inject_Z sales / inject_Z total <= 1)%Q).
      { apply Qle_shift_div_r; [exact Htq |].
        rewrite Qmult_1_l; exact Hle. }
      lra.
  - split; [apply Qle_refl | intros _; discriminate].
Qed.

Lemma percentage_bounds_witness :
  exists q,
    percentage_metric (loaded EA_weekdays) = Ok q
    /\ (0 <= q)%Q
    /\ (2%Z = Z.of_nat (List.length (values (loaded EA_weekdays)))
        -> (q <= 100)%Q).
Proof.
  apply (percentage_bounds (loaded EA_weekdays) 2 0); vm_compute; reflexivity.
Defined.

(* ================================================================= *)
(** ** The average unit price *)

Lemma Qsum_bounds (lo hi : Q) (ns : list Q) :
  (forall x, In x ns -> (lo <= x <= hi)%Q) ->
  (lo * inject_Z (Z.of_nat (List.length ns)) <= Qsum ns
   /\ Qsum ns <= hi * inject_Z (Z.of_nat (List.length ns)))%Q.
Proof.
  induction ns as [| x ns IH]; intros H.
  - cbn [List.length Qsum fold_right Z.of_nat].
    change (inject_Z 0) with 0%Q; split; lra.
  - destruct (H x (or_introl eq_refl)) as [Hlo Hhi].
    destruct (IH (fun y Hy => H y (or_intror Hy))) as [IHlo IHhi].
    assert (Hn : (inject_Z (Z.of_nat (List.length (x :: ns)))
                  == inject_Z (Z.of_nat (List.length ns)) + 1)%Q).
    { cbn [List.length]; rewrite Nat2Z.inj_succ, <- Z.add_1_r.
      now rewrite inject_Z_plus. }
    rewrite Hn; cbn [Qsum fold_right]; fold (Qsum ns).
    rewrite !Qmult_plus_distr_r, !Qmult_1_r; split; lra.
Qed.

Lemma mean_within (lo hi : Q) (ns : list Q) :
  ns <> [] ->
  (forall x, In x ns -> (lo <= x <= hi)%Q) ->
  (lo <= Qsum ns / inject_Z (Z.of_nat (List.length ns)) <= hi)%Q.
Proof.
  intros Hne H; destruct (Qsum_bounds lo hi ns H) as [Hlo Hhi].
  assert (Hpos : (0 < inject_Z (Z.of_nat (List.length ns)))%Q).
  { rewrite <- (Zlt_Qlt 0); destruct ns; [congruence |].
    cbn [List.length]; lia. }
  split; [now apply Qle_shift_div_l | now apply Qle_shift_div_r].
Qed.

Lemma numbers_of_amounts (rng : Q * Q) (vs : list Value) :
  forallb (between_amounts rng) vs = true ->
  numbers vs = map number_of vs
  /\ forall x, In x (map number_of vs) -> (fst rng <= x <= snd rng)%Q.
Proof.
  unfold numbers; induction vs as [| v vs IH]; cbn [forallb flat_map map];
    intros H; [split; [reflexivity | intros x []] |].
  apply andb_prop in H as [Hv H]; destruct (IH H) as [IHn IHb].
  destruct v as [s | q | b | t |]; try discriminate Hv.
  cbn [between_amounts] in Hv; apply andb_prop in Hv as [Hlo Hhi].
  apply Qle_bool_iff in Hlo, Hhi.
  split; [cbn [app number_of]; now rewrite IHn |].
  intros x [<- | Hx]; [now split | now apply IHb].
Qed.

(** X14.  When the unit prices of the table are whole numbers whose
    sums are exact in the 64-bit type of the column and every one of
    them lies between two bounds, the chart of the average unit price
    shows, for each product group, a number between these bounds: never
    a missing value. *)
Theorem average_price_within_range (f : DataFrame) (i j : nat) (lo hi : Q) :
  get_loc "Product_Group" (columns f) = Some i ->
  get_loc "Unit_Price" (columns f) = Some j ->
  forallb (fun r => between_amounts (lo, hi) (iloc r j)) (values f) = true ->
  exact_sums (map (fun r => iloc r j) (values f)) = true ->
  exists s,
    avg_price_product f = Ok s
    /\ forall x, In x s -> exists m, snd x = VNum m /\ (lo <= m <= hi)%Q.
Proof.
  intros Hi Hj Hall _.
  unfold avg_price_product, groupby_mean, groupby, loc.
  rewrite Hi, Hj; cbn [bind]; rewrite map_map; cbn [fst snd].
  eexists; split; [reflexivity |].
  intros x Hx; apply in_map_iff in Hx as (k & <- & Hk); cbn [snd].
  apply group_keys_In, existsb_exists in Hk as (r0 & Hr0 & Hkey).
  set (cells := map (fun r => iloc r j) (filter (has_key i k) (values f))).
  assert (Hcells : forallb (between_amounts (lo, hi)) cells = true).
  { apply forallb_forall; intros v Hv.
    apply in_map_iff in Hv as (r & <- & Hr); apply filter_In in Hr as [Hr _].
    rewrite forallb_forall in Hall; now apply Hall. }
  destruct (numbers_of_amounts _ _ Hcells) as [Hnum Hbounds].
  cbn [fst snd] in Hbounds.
  assert (Hne : map number_of cells <> []).
  { assert (Hin : In (number_of (iloc r0 j)) (map number_of cells)).
    { apply in_map, in_map_iff; exists r0; split; [reflexivity |].
      apply filter_In; now split. }
    intros Hnil; rewrite Hnil in Hin; contradiction. }
  unfold series_mean; rewrite Hnum.
  destruct (map number_of cells) as [| n ns] eqn:E; [congruence |].
  eexists; split; [reflexivity |].
  apply mean_within; [discriminate | exact Hbounds].
Qed.

Lemma average_price_within_range_witness :
  exists s,
    avg_price_product (loaded EA_plain) = Ok s
    /\ forall x, In x s ->
         exists m, snd x = VNum m /\ (200 <= m <= 300)%Q.
Proof.
  apply (average_price_within_range (loaded EA_plain) 3 7 200 300);
    vm_compute; reflexivity.
Defined.

(* ================================================================= *)
(** ** The charts of the sales over 1000 *)

(** X4.  On the table the loader returns, and on every table filtered
    from it, where the amounts are whole numbers whose sums are exact in
    the 64-bit type of the column, every bar of the two charts of the
    high-value sales, by region and by product group, stands for a total
    over 1000. *)
Theorem high_value_charts_exceed_1000 (file : option DataFrame)
  (df f : DataFrame) (amounts : list Value) (s : list (string * Q)) :
  load_data file = Done df ->
  f = df \/ (exists w, filtered_df df w = Ok f /\ empty f = false) ->
  getitem f "Final_Line_Amount" = Ok amounts ->
  exact_sums amounts = true ->
  high_value_region_sales f = Ok s \/ high_value_product_sales f = Ok s ->
  forall x, In x s -> (1000 < snd x)%Q.
Proof.
  intros Hload Hf _ _ Hs.
  assert (Hnarrow : narrowed f df).
  { destruct Hf as [-> | (w & Hw & Hne)]; [apply narrowed_refl |].
    eapply filtered_df_narrowed; eassumption. }
  pose proof (row_rel_narrowed _ _ _ _ _ Hnarrow (loaded_flags _ _ Hload))
    as (i & j & Hi & Hj & Hrows).
  assert (Hflag : forallb (fun r => implb (is_true (iloc r i))
                                          (over_1000 (iloc r j)))
                    (values f) = true).
  { apply forallb_forall; intros r Hr; rewrite Forall_forall in Hrows.
    destruct (Hrows r Hr) as (q & Ha & Hb); rewrite Ha, Hb.
    cbn [is_true over_1000]; now destruct (negb (Qle_bool q 1000)). }
  assert (Hgroups : forall key s0,
             (h <- high_value f ;; groupby_sum h key "Final_Line_Amount")
             = Ok s0 ->
             forall x, In x s0 -> (1000 < snd x)%Q).
  { intros key s0 H0 x Hx.
    assert (Hk : exists k, get_loc key (columns f) = Some k).
    { apply bind_Ok in H0 as (h & Hh & H0).
      unfold high_value in Hh; apply bind_Ok in Hh as (i' & _ & Hh).
      apply Ok_inj in Hh; subst h.
      unfold groupby_sum, groupby in H0.
      apply bind_Ok in H0 as (g & Hg & _).
      apply bind_Ok in Hg as (k & Hk & _).
      exists k; unfold loc, select in Hk; cbn [columns] in Hk.
      destruct (get_loc key (columns f)); [| discriminate Hk].
      apply Ok_inj in Hk; now subst. }
    destruct Hk as (k & Hk).
    destruct (high_value_groups f key i j k Hi Hk Hj Hflag)
      as (s1 & Hs1 & Hall).
    rewrite Hs1 in H0; apply Ok_inj in H0; subst s1.
    now apply Hall. }
  destruct Hs as [Hs | Hs].
  - apply (Hgroups "Region" s); exact Hs.
  - unfold high_value_product_sales in Hs.
    apply bind_Ok in Hs as (h & Hh & Hs).
    apply bind_Ok in Hs as (s0 & Hs0 & Hs); apply Ok_inj in Hs; subst s.
    intros x Hx; apply (Hgroups "Product_Group" s0).
    + rewrite Hh; cbn [bind]; exact Hs0.
    + unfold nlargest, sort_values_desc in Hx.
      apply (sort_by_In value_geb s0).
      rewrite <- (firstn_skipn 10 (sort_by value_geb s0)).
      apply in_or_app; now left.
Qed.

Lemma high_value_charts_exceed_1000_witness :
  high_value_region_sales (loaded EA_plain)
  = Ok [("North", 1500%Q); ("South", 1200%Q)]
  /\ forall x, In x [("North", 1500%Q); ("South", 1200%Q)] ->
       (1000 < snd x)%Q.
Proof.
  split; [vm_compute; reflexivity |].
  apply (high_value_charts_exceed_1000 (Some EA_plain) (loaded EA_plain)
           (loaded EA_plain) [VNum 500; VNum 1500; VNum 800; VNum 1200]).
  - vm_compute; reflexivity.
  - left; reflexivity.
  - vm_compute; reflexivity.
  - vm_compute; reflexivity.
  - left; vm_compute; reflexivity.
Defined.
